(** * DeviceKit-power daemon (src/dkp-daemon.c): a shallow embedding

    The daemon object of [src/dkp-daemon.c] is modelled by explicit state
    passing.  The private structure [DkpDaemonPrivate] is a record, the
    GObjects of the power devices live in a store indexed by their address,
    and everything the daemon does to the outside (signals, replies on the
    bus, calls into polkit, spawned commands, timeouts) is appended to a
    trace of actions. *)

From Stdlib Require Import ZArith Ascii String.
From stdpp Require Import base option list gmap strings pretty.

Local Open Scope string_scope.
Local Open Scope Z_scope.

(** ** GLib string helpers used by the kernel probes *)

Module GLib.

(** [g_strstr_len (haystack, -1, needle) != NULL]. *)
Fixpoint g_strstr_len (haystack needle : string) : bool :=
  String.prefix needle haystack ||
  match haystack with
  | EmptyString => false
  | String _ rest => g_strstr_len rest needle
  end.

Definition is_delimiter (delimiters : string) (c : ascii) : bool :=
  existsb (Ascii.eqb c) (list_ascii_of_string delimiters).

(** The tokens of a non-empty string: a new token starts after every
    delimiter character, so [n] delimiters always give [n + 1] tokens and
    two delimiters in a row give an empty token. *)
Fixpoint split_tokens (delim : ascii -> bool) (s : string) : list string :=
  match s with
  | EmptyString => [EmptyString]
  | String c rest =>
      if delim c then EmptyString :: split_tokens delim rest
      else match split_tokens delim rest with
           | tok :: toks => String c tok :: toks
           | [] => [String c EmptyString]
           end
  end.

(** [g_strsplit_set (string, delimiters, -1)]: as a special case the empty
    string gives the empty vector. *)
Definition g_strsplit_set (s delimiters : string) : list string :=
  match s with
  | EmptyString => []
  | _ => split_tokens (is_delimiter delimiters) s
  end.

(** [g_strsplit (string, delimiter, -1)] for a delimiter of one character,
    which is the only way the daemon calls it (with a newline).  The empty
    string gives the empty vector here too. *)
Definition g_strsplit (s : string) (delimiter : ascii) : list string :=
  match s with
  | EmptyString => []
  | _ => split_tokens (Ascii.eqb delimiter) s
  end.

(** [g_strcmp0 (a, b) == 0]. *)
Definition g_strcmp0_eq (a b : string) : bool := String.eqb a b.

(** C's [isspace] in the C locale. *)
Definition isspace (c : ascii) : bool :=
  let n := nat_of_ascii c in
  (n =? 32)%nat || ((9 <=? n)%nat && (n <=? 13)%nat).

Definition digit_value (c : ascii) : option Z :=
  let n := nat_of_ascii c in
  if ((48 <=? n)%nat && (n <=? 57)%nat)%bool
  then Some (Z.of_nat n - 48) else None.

Fixpoint skip_spaces (s : string) : string :=
  match s with
  | String c rest => if isspace c then skip_spaces rest else s
  | EmptyString => s
  end.

Fixpoint read_digits (acc : Z) (s : string) : Z :=
  match s with
  | String c rest =>
      match digit_value c with
      | Some d => read_digits (10 * acc + d) rest
      | None => acc
      end
  | EmptyString => acc
  end.

(** The number [strtol (s, NULL, 10)] reads, before any range check:
    leading white space, an optional sign, then decimal digits up to the
    first character that is not one. *)
Definition decimal_prefix (s : string) : Z :=
  match skip_spaces s with
  | String "-"%char rest => - read_digits 0 rest
  | String "+"%char rest => read_digits 0 rest
  | rest => read_digits 0 rest
  end.

Definition LONG_MAX : Z := 2 ^ 63 - 1.
Definition LONG_MIN : Z := - 2 ^ 63.

(** [atoi] is [(int) strtol (s, NULL, 10)]: [strtol] saturates at the
    range of [long] and the conversion to [int] keeps the low 32 bits.
    (Outside the range of [int] the C standard leaves [atoi] undefined;
    this is what glibc does on an LP64 machine.) *)
Definition atoi (s : string) : Z :=
  let v := Z.max LONG_MIN (Z.min LONG_MAX (decimal_prefix s)) in
  (v + 2 ^ 31) mod 2 ^ 32 - 2 ^ 31.

(** Conversion of an [int] to [guint] (32 bits, wraps around). *)
Definition to_guint (z : Z) : Z := z mod 2 ^ 32.

End GLib.

Import GLib.

(** ** The daemon's private data *)

(** The device pointers held by the [DkpDeviceList]: addresses into the
    object store, in the order of the list's pointer array. *)
Definition DevicePtr := nat.

(** [struct DkpDaemonPrivate].  The handles [connection], [proxy],
    [polkit] and [backend] hold nothing the daemon reads back, they are
    left out; [power_devices] is the pointer array of the device list. *)

Record DkpDaemonPrivate := mkPriv {
  power_devices : list DevicePtr;
  on_battery : bool;
  low_battery : bool;
  lid_is_closed : bool;
  lid_is_present : bool;
  kernel_can_suspend : bool;
  kernel_can_hibernate : bool;
  kernel_has_swap_space : bool;
}.

Definition set_power_devices (l : list DevicePtr) (p : DkpDaemonPrivate) :=
  mkPriv l (on_battery p) (low_battery p) (lid_is_closed p) (lid_is_present p)
         (kernel_can_suspend p) (kernel_can_hibernate p) (kernel_has_swap_space p).
Definition set_on_battery (b : bool) (p : DkpDaemonPrivate) :=
  mkPriv (power_devices p) b (low_battery p) (lid_is_closed p) (lid_is_present p)
         (kernel_can_suspend p) (kernel_can_hibernate p) (kernel_has_swap_space p).
Definition set_low_battery (b : bool) (p : DkpDaemonPrivate) :=
  mkPriv (power_devices p) (on_battery p) b (lid_is_closed p) (lid_is_present p)
         (kernel_can_suspend p) (kernel_can_hibernate p) (kernel_has_swap_space p).
Definition set_lid_closed (b : bool) (p : DkpDaemonPrivate) :=
  mkPriv (power_devices p) (on_battery p) (low_battery p) b (lid_is_present p)
         (kernel_can_suspend p) (kernel_can_hibernate p) (kernel_has_swap_space p).
Definition set_lid_present (b : bool) (p : DkpDaemonPrivate) :=
  mkPriv (power_devices p) (on_battery p) (low_battery p) (lid_is_closed p) b
         (kernel_can_suspend p) (kernel_can_hibernate p) (kernel_has_swap_space p).
Definition set_kernel_state (susp hib : bool) (p : DkpDaemonPrivate) :=
  mkPriv (power_devices p) (on_battery p) (low_battery p) (lid_is_closed p)
         (lid_is_present p) susp hib (kernel_has_swap_space p).
Definition set_has_swap_space (b : bool) (p : DkpDaemonPrivate) :=
  mkPriv (power_devices p) (on_battery p) (low_battery p) (lid_is_closed p)
         (lid_is_present p) (kernel_can_suspend p) (kernel_can_hibernate p) b.

(** [DKP_DAEMON_SWAP_WATERLINE], in percent. *)
Definition DKP_DAEMON_SWAP_WATERLINE : Z := 80.

(** [DKP_DAEMON_ON_BATTERY_REFRESH_DEVICES_DELAY], in seconds. *)
Definition DKP_DAEMON_ON_BATTERY_REFRESH_DEVICES_DELAY : nat := 3.

(** ** Kernel probes *)

(** [dkp_daemon_check_state]: [contents] is what [g_file_get_contents]
    read from /sys/power/state, [None] when the read failed.  The result
    is the private data with the return value. *)
Definition dkp_daemon_check_state (contents : option string)
    (p : DkpDaemonPrivate) : DkpDaemonPrivate * bool :=
  match contents with
  | None => (p, false)
  | Some c => (set_kernel_state (g_strstr_len c "mem") (g_strstr_len c "disk") p, true)
  end.

(** The locals [swap_free] and [active] of [dkp_daemon_check_swap]. *)
Record SwapScan := mkScan { swap_free : Z; active : Z }.

(** The body of the loop over the lines of /proc/meminfo. *)
Definition scan_line (st : SwapScan) (line : string) : SwapScan :=
  let tokens := g_strsplit_set line ": " in
  let len := length tokens in
  if (3 <? len)%nat then
    if g_strcmp0_eq (nth 0 tokens "") "SwapFree"
    then mkScan (to_guint (atoi (nth (len - 2) tokens ""))) (active st)
    else if g_strcmp0_eq (nth 0 tokens "") "Active"
    then mkScan (swap_free st) (to_guint (atoi (nth (len - 2) tokens "")))
    else st
  else st.

(** [(active * 100) / swap_free] in [guint] arithmetic, guarded as in the
    source. *)
Definition swap_percentage (st : SwapScan) : Z :=
  if (0 <? swap_free st) && (0 <? active st)
  then ((active st * 100) mod 2 ^ 32) / swap_free st
  else 0.

(** The conversion of a [guint] to [gfloat] that the assignment
    [percentage = (active * 100) / swap_free] performs: single precision
    keeps 24 significant bits and the conversion rounds to the nearest
    representable value, ties to the even significand.  Every [guint]
    converts to a float whose value is an integer, and [to_gfloat n] is
    that value: [n] itself below 2^24, and above it [n] with its low
    [e] bits rounded away, where [e] is the number of bits of [n] beyond
    24. *)
Definition to_gfloat (n : Z) : Z :=
  if n <? 2 ^ 24 then n
  else
    let e := Z.log2 n - 23 in
    let q := n / 2 ^ e in
    let r := n mod 2 ^ e in
    let half := 2 ^ (e - 1) in
    (if (half <? r) || ((r =? half) && Z.odd q) then q + 1 else q) * 2 ^ e.

(** [dkp_daemon_check_swap]: [contents] is what was read from
    /proc/meminfo, [None] when the read failed (the percentage then stays
    0.0f).  The loop starts at [lines[1]]: the first line is never looked
    at, and when the file is empty [g_strsplit] returns a vector that holds
    only its terminator, so that [lines[1]] lies beyond it; the result for
    that input is [None], the behaviour is not defined.

    The result is the value of the returned [gfloat]: the [guint] quotient
    converted by [to_gfloat]. *)
Definition dkp_daemon_check_swap (contents : option string) : option Z :=
  match contents with
  | None => Some 0
  | Some c =>
      match g_strsplit c "010"%char with
      | [] => None
      | _ :: rest =>
          Some (to_gfloat (swap_percentage (fold_left scan_line rest (mkScan 0 0))))
      end
  end.

(** [dkp_daemon_init], as far as the private data goes: everything starts
    out false with an empty device list, then the kernel is probed; the
    swap is only checked when the kernel can hibernate. *)
Definition dkp_daemon_init (power_state meminfo : option string)
    : option DkpDaemonPrivate :=
  let p0 := mkPriv [] false false false false false false false in
  let p1 := fst (dkp_daemon_check_state power_state p0) in
  if kernel_can_hibernate p1 then
    match dkp_daemon_check_swap meminfo with
    | None => None
    | Some waterline =>
        Some (if waterline <? DKP_DAEMON_SWAP_WATERLINE
              then set_has_swap_space true p1 else p1)
    end
  else Some p1.

(** ** Devices, the object store and the trace *)

(** Modelled from the spec: the device type enumeration is declared in
    dkp-enum.h, which is not part of the sources at hand; the daemon only
    tells line power and batteries from the rest. *)
Inductive DkpDeviceType :=
| DKP_DEVICE_TYPE_LINE_POWER
| DKP_DEVICE_TYPE_BATTERY
| DKP_DEVICE_TYPE_OTHER.

Global Instance DkpDeviceType_eq_dec : EqDecision DkpDeviceType.
Proof. solve_decision. Defined.

(** A device object as the daemon sees it.  The three queries
    [dkp_device_get_on_battery], [dkp_device_get_low_battery] and
    [dkp_device_get_online] return a success flag and write the answer
    through a pointer: [Some b] is success with answer [b], [None] is
    failure.  They are implemented in dkp-device.c and the device classes,
    outside this file, so their results are data of the object here.  The
    reference count and the weak references are those of GObject; the only
    weak references counted are the ones whose notify function is
    [dkp_daemon_device_went_away_cb]. *)
Record DkpDevice := mkDevice {
  dev_object_path : string;
  dev_type : DkpDeviceType;
  dev_on_battery : option bool;
  dev_low_battery : option bool;
  dev_online : option bool;
  dev_removed : bool;
  dev_ref_count : nat;
  dev_weak_refs : nat;
}.

Definition dkp_device_get_object_path := dev_object_path.
Definition dkp_device_get_on_battery := dev_on_battery.
Definition dkp_device_get_low_battery := dev_low_battery.
Definition dkp_device_get_online := dev_online.

Inductive DkpSignal :=
| DEVICE_ADDED_SIGNAL
| DEVICE_REMOVED_SIGNAL
| DEVICE_CHANGED_SIGNAL
| CHANGED_SIGNAL.

(** The values registered by [dkp_daemon_error_get_type]. *)
Inductive DkpDaemonError :=
| DKP_DAEMON_ERROR_GENERAL
| DKP_DAEMON_ERROR_NOT_SUPPORTED
| DKP_DAEMON_ERROR_NO_SUCH_DEVICE.

Definition dkp_daemon_error_nick (e : DkpDaemonError) : string :=
  match e with
  | DKP_DAEMON_ERROR_GENERAL => "GeneralError"
  | DKP_DAEMON_ERROR_NOT_SUPPORTED => "NotSupported"
  | DKP_DAEMON_ERROR_NO_SUCH_DEVICE => "NoSuchDevice"
  end.

(** A [DBusGMethodInvocation], a [PolkitSubject] and a native device
    handle are opaque here. *)
Definition Context := nat.
Definition Subject := nat.
Definition Native := nat.

(** What the daemon does to the outside world, in the order it does it. *)
Inductive Action :=
| SignalEmit (signal : DkpSignal) (object_path : option string)
| MethodReturn (context : Context) (object_paths : option (list string))
| MethodReturnError (context : Context) (code : DkpDaemonError) (message : string)
| GErrorFree (error : option string)
| PolkitGetSubject (context : Context)
| PolkitCheckAuth (subject : Subject) (action_id : string) (context : Context)
| SpawnSync (command : string)
| SpawnAsync (command : string)
| TimeoutAddSeconds (interval : nat)
| RegisterObject (path : string).

(** A pending timeout source of the main loop whose callback is
    [dkp_daemon_refresh_battery_devices_cb]. *)
Record Timeout := mkTimeout { due : nat; interval : nat }.

Record State := mkState {
  priv : DkpDaemonPrivate;
  objects : gmap DevicePtr DkpDevice;
  timeouts : list Timeout;
  clock : nat;
  trace : list Action;
}.

Definition with_priv (f : DkpDaemonPrivate -> DkpDaemonPrivate) (st : State) : State :=
  mkState (f (priv st)) (objects st) (timeouts st) (clock st) (trace st).
Definition with_objects (f : gmap DevicePtr DkpDevice -> gmap DevicePtr DkpDevice)
    (st : State) : State :=
  mkState (priv st) (f (objects st)) (timeouts st) (clock st) (trace st).
Definition with_timeouts (f : list Timeout -> list Timeout) (st : State) : State :=
  mkState (priv st) (objects st) (f (timeouts st)) (clock st) (trace st).
Definition with_clock (t : nat) (st : State) : State :=
  mkState (priv st) (objects st) (timeouts st) t (trace st).
Definition log (acts : list Action) (st : State) : State :=
  mkState (priv st) (objects st) (timeouts st) (clock st) (trace st ++ acts).

(** The result of [g_spawn_command_line_sync]: the message of
    [error_local] when it returned FALSE, and the two captured outputs,
    which stay NULL when nothing was captured. *)
Record SpawnResult := mkSpawn {
  spawn_error : option string;
  spawn_stdout : option string;
  spawn_stderr : option string;
}.

(** The collaborators the daemon calls into: polkit, the process spawner,
    the system bus, the backend and the device classes.  None of them is
    implemented in this file.

    [g_spawn_command_line_async] returns [None] for TRUE and the message of
    the [GError] it has set for FALSE.  [dbus_g_bus_get] returns the
    connection, [None] for NULL; [dbus_g_bus_get_error] is the [GError] it
    leaves behind in that case, which may be NULL as well. *)
Record Env := mkEnv {
  PACKAGE_VERSION : string;
  dkp_polkit_get_subject : Context -> option Subject;
  dkp_polkit_check_auth : Subject -> string -> Context -> bool;
  g_spawn_command_line_sync : string -> SpawnResult;
  g_spawn_command_line_async : string -> option string;
  dbus_g_bus_get : option nat;
  dbus_g_bus_get_error : option string;
  dkp_backend_coldplug : State -> State * bool;
  dkp_device_changed : DkpDevice -> Native -> bool -> DkpDevice;
  dkp_device_refresh_internal : DkpDevice -> DkpDevice;
}.

(** ** Properties *)

Inductive DkpProperty :=
| PROP_DAEMON_VERSION
| PROP_CAN_SUSPEND
| PROP_CAN_HIBERNATE
| PROP_ON_BATTERY
| PROP_ON_LOW_BATTERY
| PROP_LID_IS_CLOSED
| PROP_LID_IS_PRESENT.

Inductive GValue :=
| GString (s : string)
| GBoolean (b : bool).

(** [dkp_daemon_get_property]. *)
Definition dkp_daemon_get_property (env : Env) (p : DkpDaemonPrivate)
    (prop_id : DkpProperty) : GValue :=
  match prop_id with
  | PROP_DAEMON_VERSION => GString (PACKAGE_VERSION env)
  | PROP_CAN_SUSPEND => GBoolean (kernel_can_suspend p)
  | PROP_CAN_HIBERNATE => GBoolean (kernel_can_hibernate p && kernel_has_swap_space p)
  | PROP_ON_BATTERY => GBoolean (on_battery p)
  | PROP_ON_LOW_BATTERY => GBoolean (on_battery p && low_battery p)
  | PROP_LID_IS_CLOSED => GBoolean (lid_is_closed p)
  | PROP_LID_IS_PRESENT => GBoolean (lid_is_present p)
  end.

(** [dkp_daemon_set_property]: only the two lid properties are handled,
    any other id is warned about and changes nothing. *)
Definition dkp_daemon_set_property (p : DkpDaemonPrivate) (prop_id : DkpProperty)
    (value : bool) : DkpDaemonPrivate :=
  match prop_id with
  | PROP_LID_IS_CLOSED => set_lid_closed value p
  | PROP_LID_IS_PRESENT => set_lid_present value p
  | _ => p
  end.

(** ** The lid *)

(** [dkp_daemon_set_lid_is_closed]. *)
Definition dkp_daemon_set_lid_is_closed (st : State) (lid_closed notify : bool)
    : State * bool :=
  if Bool.eqb (lid_is_closed (priv st)) lid_closed then (st, false)
  else
    let st1 := if negb notify then st else log [SignalEmit CHANGED_SIGNAL None] st in
    (with_priv (set_lid_closed lid_closed) st1, true).

(** ** Aggregates over the device list *)

(** Modelled from the spec: [dkp_device_list_get_array] belongs to
    dkp-device-list.c, which is not part of the sources at hand.  It hands
    out the pointer array of the list; here the pointers are followed into
    the object store. *)
Definition dkp_device_list_get_array (st : State) : list DkpDevice :=
  omap (fun ptr => objects st !! ptr) (power_devices (priv st)).

(** The loop of [dkp_daemon_get_on_battery_local]. *)
Fixpoint get_on_battery_loop (array : list DkpDevice) : bool :=
  match array with
  | [] => false
  | device :: rest =>
      match dkp_device_get_on_battery device with
      | Some true => true
      | _ => get_on_battery_loop rest
      end
  end.

Definition dkp_daemon_get_on_battery_local (st : State) : bool :=
  get_on_battery_loop (dkp_device_list_get_array st).

(** The loop of [dkp_daemon_get_low_battery_local]. *)
Fixpoint get_low_battery_loop (array : list DkpDevice) : bool :=
  match array with
  | [] => true
  | device :: rest =>
      match dkp_device_get_low_battery device with
      | Some false => false
      | _ => get_low_battery_loop rest
      end
  end.

Definition dkp_daemon_get_low_battery_local (st : State) : bool :=
  get_low_battery_loop (dkp_device_list_get_array st).

(** The loop of [dkp_daemon_get_on_ac_local]. *)
Fixpoint get_on_ac_loop (array : list DkpDevice) : bool :=
  match array with
  | [] => false
  | device :: rest =>
      match dkp_device_get_online device with
      | Some true => true
      | _ => get_on_ac_loop rest
      end
  end.

Definition dkp_daemon_get_on_ac_local (st : State) : bool :=
  get_on_ac_loop (dkp_device_list_get_array st).

(** [dkp_daemon_get_number_devices_of_type]. *)
Definition dkp_daemon_get_number_devices_of_type (st : State) (type : DkpDeviceType) : nat :=
  length (filter (fun device => dev_type device = type) (dkp_device_list_get_array st)).

(** [dkp_daemon_enumerate_devices]: the object paths go out on the bus. *)
Definition dkp_daemon_enumerate_devices (st : State) (context : Context) : State * bool :=
  let object_paths := map dkp_device_get_object_path (dkp_device_list_get_array st) in
  (log [MethodReturn context (Some object_paths)] st, true).

(** What [dkp_daemon_set_pmutils_powersave] and
    [dkp_daemon_register_power_daemon] do with the [GError] of a failed
    call: it is freed when there is one. *)
Definition free_error (error : option string) : list Action :=
  match error with
  | Some message => [GErrorFree (Some message)]
  | None => []
  end.

(** [dkp_daemon_set_pmutils_powersave]: the script is launched, and when
    the launch fails its error is freed and FALSE comes back. *)
Definition dkp_daemon_set_pmutils_powersave (env : Env) (st : State) (powersave : bool)
    : State * bool :=
  let command := "/usr/sbin/pm-powersave " ++ (if powersave then "true" else "false") in
  let error := g_spawn_command_line_async env command in
  (log (SpawnAsync command :: free_error error) st,
   match error with None => true | Some _ => false end).

(** [dkp_daemon_refresh_battery_devices]: every battery in the list is
    refreshed in place. *)
Definition dkp_daemon_refresh_battery_devices (env : Env) (st : State) : State * bool :=
  (fold_left
     (fun s ptr =>
        match objects s !! ptr with
        | Some device =>
            if decide (dev_type device = DKP_DEVICE_TYPE_BATTERY)
            then with_objects (insert ptr (dkp_device_refresh_internal env device)) s
            else s
        | None => s
        end)
     (power_devices (priv st)) st,
   true).

(** ** Suspend and hibernate *)

(** How [g_error_new] prints a string argument that may be NULL. *)
Definition printf_s (s : option string) : string :=
  match s with Some x => x | None => "(null)" end.

(** The part that [dkp_daemon_suspend] and [dkp_daemon_hibernate] share
    once the kernel checks are passed: subject, authorisation, spawn.  All
    paths end in [return TRUE]. *)
Definition authorize_and_spawn (env : Env) (st : State) (context : Context)
    (action_id command : string) : State * bool :=
  let st1 := log [PolkitGetSubject context] st in
  match dkp_polkit_get_subject env context with
  | None => (st1, true)
  | Some subject =>
      let st2 := log [PolkitCheckAuth subject action_id context] st1 in
      if negb (dkp_polkit_check_auth env subject action_id context) then (st2, true)
      else
        let st3 := log [SpawnSync command] st2 in
        let r := g_spawn_command_line_sync env command in
        match spawn_error r with
        | Some message =>
            (log [GErrorFree (Some message);
                  MethodReturnError context DKP_DAEMON_ERROR_GENERAL
                    ("Failed to spawn: " ++ message ++ ", stdout:" ++ printf_s (spawn_stdout r)
                       ++ ", stderr:" ++ printf_s (spawn_stderr r))] st3, true)
        | None => (log [MethodReturn context None] st3, true)
        end
  end.

(** [dkp_daemon_suspend].  In the first branch [error_local] still has
    its initial value NULL when it is handed to [g_error_free]. *)
Definition dkp_daemon_suspend (env : Env) (st : State) (context : Context) : State * bool :=
  let error_local : option string := None in
  if negb (kernel_can_suspend (priv st)) then
    (log [GErrorFree error_local;
          MethodReturnError context DKP_DAEMON_ERROR_GENERAL "No kernel support"] st, true)
  else
    authorize_and_spawn env st context
      "org.freedesktop.devicekit.power.suspend" "/usr/sbin/pm-suspend".

(** [dkp_daemon_hibernate]. *)
Definition dkp_daemon_hibernate (env : Env) (st : State) (context : Context) : State * bool :=
  let error_local : option string := None in
  if negb (kernel_can_hibernate (priv st)) then
    (log [GErrorFree error_local;
          MethodReturnError context DKP_DAEMON_ERROR_GENERAL "No kernel support"] st, true)
  else if negb (kernel_has_swap_space (priv st)) then
    (log [GErrorFree error_local;
          MethodReturnError context DKP_DAEMON_ERROR_GENERAL "Not enough swap space"] st, true)
  else
    authorize_and_spawn env st context
      "org.freedesktop.devicekit.power.hibernate" "/usr/sbin/pm-hibernate".

(** ** Startup *)

(** [dkp_daemon_register_power_daemon]: it fails when there is no system
    bus, and frees the error of that call when one was set; the
    [DBusError] it tests afterwards has just been initialised and is never
    set. *)
Definition dkp_daemon_register_power_daemon (env : Env) (st : State) : State * bool :=
  match dbus_g_bus_get env with
  | None => (log (free_error (dbus_g_bus_get_error env)) st, false)
  | Some _ => (log [RegisterObject "/org/freedesktop/DeviceKit/Power"] st, true)
  end.

(** [dkp_daemon_startup]. *)
Definition dkp_daemon_startup (env : Env) (st : State) : State * bool :=
  let '(st1, ret) := dkp_daemon_register_power_daemon env st in
  if negb ret then (st1, ret)
  else
    let '(st2, ret) := dkp_backend_coldplug env st1 in
    if negb ret then (st2, ret)
    else
      let st3 :=
        with_priv (set_on_battery (dkp_daemon_get_on_battery_local st2
                                   && negb (dkp_daemon_get_on_ac_local st2))) st2 in
      let st4 := with_priv (set_low_battery (dkp_daemon_get_low_battery_local st3)) st3 in
      let st5 := fst (dkp_daemon_set_pmutils_powersave env st4 (on_battery (priv st4))) in
      (st5, ret).

(** ** Timeouts *)

(** [g_timeout_add_seconds (interval, dkp_daemon_refresh_battery_devices_cb,
    daemon)]: one more source, due [interval] seconds from now. *)
Definition g_timeout_add_seconds (st : State) (seconds : nat) : State :=
  log [TimeoutAddSeconds seconds]
      (with_timeouts (fun l => (l ++ [mkTimeout (clock st + seconds) seconds])%list) st).

(** [dkp_daemon_refresh_battery_devices_cb]: returning FALSE removes the
    source. *)
Definition dkp_daemon_refresh_battery_devices_cb (env : Env) (st : State) : State * bool :=
  (fst (dkp_daemon_refresh_battery_devices env st), false).

(** The main loop at time [now]: every source that is due is dispatched
    once, and kept, due one interval later, only if its callback returns
    TRUE. *)
Definition main_loop_dispatch (env : Env) (st : State) (now : nat) : State :=
  let ready := filter (fun t => due t <= now)%nat (timeouts st) in
  let waiting := filter (fun t => ~ (due t <= now)%nat) (timeouts st) in
  fold_left
    (fun s t =>
       let '(s1, again) := dkp_daemon_refresh_battery_devices_cb env s in
       if again
       then with_timeouts (fun l => (l ++ [mkTimeout (now + interval t) (interval t)])%list) s1
       else s1)
    ready (with_clock now (with_timeouts (fun _ => waiting) st)).

(** ** Device life cycle *)

(** Modelled from the spec: [dkp_device_list_insert] and
    [dkp_device_list_remove] belong to dkp-device-list.c, which is not part
    of the sources at hand.  The spec does not say where a new association
    goes, nor what inserting a present identity does; here insertion adds
    it at the end and does not look for an earlier one, and what is proved
    below about a list after an insertion is about its members and not
    about their order.  Removal drops the association and does nothing
    when there is none. *)
Definition dkp_device_list_insert (l : list DevicePtr) (device : DevicePtr) : list DevicePtr :=
  (l ++ [device])%list.

Fixpoint dkp_device_list_remove (l : list DevicePtr) (device : DevicePtr) : list DevicePtr :=
  match l with
  | [] => []
  | ptr :: rest =>
      if decide (ptr = device) then rest else ptr :: dkp_device_list_remove rest device
  end.

(** [dkp_daemon_device_went_away_cb], the weak-reference notify. *)
Definition dkp_daemon_device_went_away_cb (st : State) (device : DevicePtr) : State :=
  with_priv (fun p => set_power_devices (dkp_device_list_remove (power_devices p) device) p) st.

Definition set_weak_refs (n : nat) (d : DkpDevice) : DkpDevice :=
  mkDevice (dev_object_path d) (dev_type d) (dev_on_battery d) (dev_low_battery d)
           (dev_online d) (dev_removed d) (dev_ref_count d) n.
Definition set_ref_count (n : nat) (d : DkpDevice) : DkpDevice :=
  mkDevice (dev_object_path d) (dev_type d) (dev_on_battery d) (dev_low_battery d)
           (dev_online d) (dev_removed d) n (dev_weak_refs d).

(** Modelled from the spec: [dkp_device_removed] belongs to dkp-device.c,
    which is not part of the sources at hand; it marks the device as
    removed. *)
Definition dkp_device_removed (d : DkpDevice) : DkpDevice :=
  mkDevice (dev_object_path d) (dev_type d) (dev_on_battery d) (dev_low_battery d)
           (dev_online d) true (dev_ref_count d) (dev_weak_refs d).

(** [g_object_weak_ref (device, dkp_daemon_device_went_away_cb, daemon)]. *)
Definition g_object_weak_ref (st : State) (device : DevicePtr) : State :=
  with_objects (alter (fun d => set_weak_refs (S (dev_weak_refs d)) d) device) st.

(** [g_object_unref (device)]: the count goes down by one; when the
    reference given up was the last one the weak-reference notifies run and
    the object is gone.  A pointer that is not the address of a live object
    is outside the model: the state is returned as it is. *)
Definition g_object_unref (st : State) (device : DevicePtr) : State :=
  match objects st !! device with
  | None => st
  | Some d =>
      if (dev_ref_count d <=? 1)%nat then
        with_objects (delete device)
          (Nat.iter (dev_weak_refs d) (fun s => dkp_daemon_device_went_away_cb s device) st)
      else with_objects (insert device (set_ref_count (dev_ref_count d - 1) d)) st
  end.

(** [dkp_daemon_device_added_cb].  The two [g_return_if_fail] guards leave
    when [native] or [device] is NULL ([None] here). *)
Definition dkp_daemon_device_added_cb (st : State) (native : option Native)
    (device : option DevicePtr) (emit_signal : bool) : State :=
  match native, device with
  | Some _, Some ptr =>
      match objects st !! ptr with
      | None => st
      | Some d =>
          let object_path := dkp_device_get_object_path d in
          let st1 := g_object_weak_ref st ptr in
          let st2 :=
            with_priv (fun p => set_power_devices (dkp_device_list_insert (power_devices p) ptr) p)
                      st1 in
          if emit_signal then log [SignalEmit DEVICE_ADDED_SIGNAL (Some object_path)] st2
          else st2
      end
  | _, _ => st
  end.

(** The second half of [dkp_daemon_device_changed_cb]: "check if the
    on_battery and low_battery state has changed". *)
Definition check_aggregates_changed (env : Env) (st : State) : State :=
  let ret := dkp_daemon_get_on_battery_local st && negb (dkp_daemon_get_on_ac_local st) in
  let st1 :=
    if negb (Bool.eqb ret (on_battery (priv st))) then
      let s := log [SignalEmit CHANGED_SIGNAL None] (with_priv (set_on_battery ret) st) in
      fst (dkp_daemon_set_pmutils_powersave env s (on_battery (priv s)))
    else st in
  let ret := dkp_daemon_get_low_battery_local st1 in
  if negb (Bool.eqb ret (low_battery (priv st1))) then
    log [SignalEmit CHANGED_SIGNAL None] (with_priv (set_low_battery ret) st1)
  else st1.

(** [dkp_daemon_device_changed_cb]. *)
Definition dkp_daemon_device_changed_cb (env : Env) (st : State) (native : option Native)
    (device : option DevicePtr) (emit_signal : bool) : State :=
  match native, device with
  | Some nat_handle, Some ptr =>
      match objects st !! ptr with
      | None => st
      | Some d =>
          let d1 := dkp_device_changed env d nat_handle emit_signal in
          let st1 := with_objects (insert ptr d1) st in
          let st2 :=
            if decide (dev_type d1 = DKP_DEVICE_TYPE_LINE_POWER) then
              g_timeout_add_seconds (fst (dkp_daemon_refresh_battery_devices env st1))
                                    DKP_DAEMON_ON_BATTERY_REFRESH_DEVICES_DELAY
            else st1 in
          check_aggregates_changed env st2
      end
  | _, _ => st
  end.

(** [dkp_daemon_device_removed_cb]. *)
Definition dkp_daemon_device_removed_cb (st : State) (native : option Native)
    (device : option DevicePtr) : State :=
  match native, device with
  | Some _, Some ptr =>
      match objects st !! ptr with
      | None => st
      | Some d =>
          let object_path := dkp_device_get_object_path d in
          let st1 := with_objects (insert ptr (dkp_device_removed d)) st in
          let st2 := log [SignalEmit DEVICE_REMOVED_SIGNAL (Some object_path)] st1 in
          g_object_unref st2 ptr
      end
  | _, _ => st
  end.

(** ** Vocabulary of the specification *)

(** Modelled from the spec: the device classes (dkp-supply.c and the like)
    are not part of the sources at hand.  A query that does not apply to
    the type of the device answers "not applicable", that is, it fails:
    discharging and low are for batteries only, online is for line power
    only. *)
Definition device_contract (d : DkpDevice) : Prop :=
  (dev_type d <> DKP_DEVICE_TYPE_BATTERY ->
     dkp_device_get_on_battery d = None /\ dkp_device_get_low_battery d = None) /\
  (dev_type d <> DKP_DEVICE_TYPE_LINE_POWER -> dkp_device_get_online d = None).

Definition is_battery (d : DkpDevice) : Prop := dev_type d = DKP_DEVICE_TYPE_BATTERY.
Definition is_line_power (d : DkpDevice) : Prop := dev_type d = DKP_DEVICE_TYPE_LINE_POWER.

(** The value the daemon stores in [on_battery]. *)
Definition on_battery_aggregate (st : State) : bool :=
  dkp_daemon_get_on_battery_local st && negb (dkp_daemon_get_on_ac_local st).

(** The two places where the stored [on_battery] and [low_battery] are
    recomputed: a device change that passes the guards, and a startup that
    goes through. *)
Definition recomputed (env : Env) (st st' : State) : Prop :=
  (exists native ptr emit_signal,
      is_Some (objects st !! ptr) /\
      st' = dkp_daemon_device_changed_cb env st (Some native) (Some ptr) emit_signal) \/
  dkp_daemon_startup env st = (st', true).

(** The value a line of the memory statistics gives to the field [name]:
    the line has more than three tokens, the first one is the name and the
    number is read from the last but one. *)
Definition field_of_line (name line : string) : option Z :=
  let tokens := g_strsplit_set line ": " in
  if (3 <? length tokens)%nat && String.eqb (nth 0 tokens "") name
  then Some (to_guint (atoi (nth (length tokens - 2) tokens "")))
  else None.

(** The field [name] of a list of lines: the last line that gives it a
    value wins, and a field no line gives a value to is 0. *)
Definition meminfo_field (name : string) (lines : list string) : Z :=
  default 0 (last (omap (field_of_line name) lines)).

Definition newline : string := String "010" EmptyString.

Fixpoint spaces (n : nat) : string :=
  match n with
  | O => EmptyString
  | S n => String " " (spaces n)
  end.

(** A line as /proc/meminfo prints it: the name, a colon, at least one
    space of padding, the number in decimal, a space and the unit. *)
Definition meminfo_line (name : string) (padding : nat) (value : N) : string :=
  name ++ ":" ++ spaces (S padding) ++ pretty value ++ " kB".

Definition isdigit (c : ascii) : bool :=
  match digit_value c with Some _ => true | None => false end.

Fixpoint only_digits (s : string) : bool :=
  match s with
  | EmptyString => true
  | String c rest => isdigit c && only_digits rest
  end.

Fixpoint free_of (delim : ascii -> bool) (s : string) : bool :=
  match s with
  | EmptyString => true
  | String c rest => negb (delim c) && free_of delim rest
  end.

(** The three flags that the kernel probes set. *)
Definition kernel_flags (p : DkpDaemonPrivate) : bool * bool * bool :=
  (kernel_can_suspend p, kernel_can_hibernate p, kernel_has_swap_space p).

(** Classes of actions. *)
Definition is_authorization (a : Action) : bool :=
  match a with
  | PolkitGetSubject _ | PolkitCheckAuth _ _ _ => true
  | _ => false
  end.

Definition is_spawn (a : Action) : bool :=
  match a with
  | SpawnSync _ | SpawnAsync _ => true
  | _ => false
  end.

Definition is_reply (a : Action) : bool :=
  match a with
  | MethodReturn _ _ | MethodReturnError _ _ _ => true
  | _ => false
  end.

Definition is_changed_signal (a : Action) : bool :=
  match a with
  | SignalEmit CHANGED_SIGNAL _ => true
  | _ => false
  end.

Definition is_device_removed_signal (a : Action) : bool :=
  match a with
  | SignalEmit DEVICE_REMOVED_SIGNAL _ => true
  | _ => false
  end.

Definition count (f : Action -> bool) (acts : list Action) : nat :=
  length (List.filter f acts).

(** The calls the daemon receives once it is initialised: startup,
    requests from the bus, notifications from the backend, a device owner
    giving up its reference, and the main loop dispatching timeouts. *)
Inductive DaemonCall :=
| CallStartup
| CallSetLidIsClosed (lid_closed notify : bool)
| CallSetProperty (prop_id : DkpProperty) (value : bool)
| CallEnumerateDevices (context : Context)
| CallSuspend (context : Context)
| CallHibernate (context : Context)
| CallDeviceAdded (native : option Native) (device : option DevicePtr) (emit_signal : bool)
| CallDeviceChanged (native : option Native) (device : option DevicePtr) (emit_signal : bool)
| CallDeviceRemoved (native : option Native) (device : option DevicePtr)
| CallObjectUnref (device : DevicePtr)
| CallDispatch (now : nat).

Definition run_call (env : Env) (st : State) (c : DaemonCall) : State :=
  match c with
  | CallStartup => fst (dkp_daemon_startup env st)
  | CallSetLidIsClosed v notify => fst (dkp_daemon_set_lid_is_closed st v notify)
  | CallSetProperty prop_id v => with_priv (fun p => dkp_daemon_set_property p prop_id v) st
  | CallEnumerateDevices context => fst (dkp_daemon_enumerate_devices st context)
  | CallSuspend context => fst (dkp_daemon_suspend env st context)
  | CallHibernate context => fst (dkp_daemon_hibernate env st context)
  | CallDeviceAdded native device emit_signal =>
      dkp_daemon_device_added_cb st native device emit_signal
  | CallDeviceChanged native device emit_signal =>
      dkp_daemon_device_changed_cb env st native device emit_signal
  | CallDeviceRemoved native device => dkp_daemon_device_removed_cb st native device
  | CallObjectUnref device => g_object_unref st device
  | CallDispatch now => main_loop_dispatch env st now
  end.

Definition run_calls (env : Env) (st : State) (calls : list DaemonCall) : State :=
  fold_left (run_call env) calls st.

(** ** Concrete inputs *)

Definition env_example : Env :=
  mkEnv "010" (fun _ => Some 1%nat) (fun _ _ _ => true)
        (fun _ => mkSpawn None None None) (fun _ => None) (Some 0%nat) None
        (fun st => (st, true)) (fun d _ _ => d) (fun d => d).

(** An environment whose backend fails to coldplug. *)
Definition env_coldplug_fails : Env :=
  mkEnv "010" (fun _ => Some 1%nat) (fun _ _ _ => true)
        (fun _ => mkSpawn None None None) (fun _ => None) (Some 0%nat) None
        (fun st => (st, false)) (fun d _ _ => d) (fun d => d).

(** An environment in which /usr/sbin/pm-powersave cannot be launched. *)
Definition env_launch_fails : Env :=
  mkEnv "010" (fun _ => Some 1%nat) (fun _ _ _ => true)
        (fun _ => mkSpawn None None None)
        (fun _ => Some "Failed to execute child process") (Some 0%nat) None
        (fun st => (st, true)) (fun d _ _ => d) (fun d => d).

Definition priv_example : DkpDaemonPrivate :=
  mkPriv [] false false false false false false false.

Definition state_example : State := mkState priv_example ∅ [] 0 [].

Definition battery_example : DkpDevice :=
  mkDevice "/org/freedesktop/DeviceKit/Power/devices/battery_BAT0"
           DKP_DEVICE_TYPE_BATTERY (Some true) (Some false) None false 1 1.

Definition line_power_example : DkpDevice :=
  mkDevice "/org/freedesktop/DeviceKit/Power/devices/line_power_AC"
           DKP_DEVICE_TYPE_LINE_POWER None None (Some false) false 1 1.

(** A battery and an adapter, both in the device list. *)
Definition state_two_devices : State :=
  mkState (mkPriv [1; 2]%nat false false false false true true true)
          (<[1%nat := battery_example]> (<[2%nat := line_power_example]> ∅)) [] 0 [].

(** The adapter with a second reference held somewhere else. *)
Definition state_shared_device : State :=
  mkState (mkPriv [2]%nat false true false false true true true)
          (<[2%nat := set_ref_count 2 line_power_example]> ∅) [] 0 [].

(** A kernel that can hibernate on a machine that is short of swap. *)
Definition state_without_swap : State :=
  mkState (mkPriv [] false false false false true true false) ∅ [] 0 [].

Definition meminfo_example : string :=
  "MemTotal: 2000 kB" ++ newline ++ "Active: 400 kB" ++ newline
    ++ "SwapFree: 1000 kB" ++ newline.

(** The memory statistics of a machine with 64 GB of memory, 41 GB of it
    active, and 1000 kB of swap left. *)
Definition meminfo_large_memory : string :=
  "MemTotal:       65863824 kB" ++ newline
    ++ "MemFree:         1203312 kB" ++ newline
    ++ "Active:         42949673 kB" ++ newline
    ++ "Inactive:       18204116 kB" ++ newline
    ++ "SwapTotal:       2097148 kB" ++ newline
    ++ "SwapFree:           1000 kB" ++ newline.

(** ** Further vocabulary *)

(** How often a pointer occurs in the device list. *)
Definition occurrences (ptr : DevicePtr) (l : list DevicePtr) : nat :=
  length (filter (fun p => p = ptr) l).

(** Every pointer of the device list is the address of a live object, and
    that object carries at least one weak reference of the daemon for each
    of its entries in the list. *)
Definition device_list_sound (st : State) : Prop :=
  forall ptr, ptr ∈ power_devices (priv st) ->
    exists d, objects st !! ptr = Some d /\
              (occurrences ptr (power_devices (priv st)) <= dev_weak_refs d)%nat.

(** The device classes refresh the readings of a device; its GObject
    weak references are not theirs to touch. *)
Definition keeps_weak_refs (env : Env) : Prop :=
  (forall d native emit_signal,
      dev_weak_refs (dkp_device_changed env d native emit_signal) = dev_weak_refs d) /\
  (forall d, dev_weak_refs (dkp_device_refresh_internal env d) = dev_weak_refs d).

(** The actions a call has added to the trace. *)
Definition new_actions (st st' : State) : list Action :=
  drop (length (trace st)) (trace st').

Definition is_powersave (a : Action) : bool :=
  match a with
  | SpawnAsync _ => true
  | _ => false
  end.

Definition bool_to_nat (b : bool) : nat := if b then 1 else 0.

(** A device the backend has just created: one reference, held by its
    owner, and no weak reference yet. *)
Definition fresh_device (d : DkpDevice) : Prop :=
  dev_ref_count d = 1%nat /\ dev_weak_refs d = 0%nat.

(** Whether polkit lets a request through: there is a subject and the
    check for the action succeeds. *)
Definition polkit_grants (env : Env) (context : Context) (action_id : string) : bool :=
  match dkp_polkit_get_subject env context with
  | Some subject => dkp_polkit_check_auth env subject action_id context
  | None => false
  end.

(** A text of several lines: the first line, then each further line after
    a newline. *)
Fixpoint append_lines (lines : list string) : string :=
  match lines with
  | [] => EmptyString
  | line :: rest => newline ++ line ++ append_lines rest
  end.

Definition meminfo_text (first : string) (lines : list string) : string :=
  first ++ append_lines lines.

(** The lines of /proc/meminfo that are about neither field.  Such a line
    either has no colon and no space in it (the empty line that follows the
    last newline is one), or the text before its first colon or space is
    neither Active nor SwapFree, whatever comes after: the other fields
    with their unit, the counters the kernel prints without a unit
    (HugePages_Total:       0), and names that only start like a field
    (Active(anon):). *)
Inductive other_line : string -> Prop :=
| other_line_word (word : string) :
    free_of (is_delimiter ": ") word = true ->
    free_of (Ascii.eqb "010") word = true ->
    other_line word
| other_line_field (name : string) (c : ascii) (rest : string) :
    free_of (is_delimiter ": ") name = true ->
    is_delimiter ": " c = true ->
    name <> "Active" -> name <> "SwapFree" ->
    free_of (Ascii.eqb "010") (name ++ String c rest) = true ->
    other_line (name ++ String c rest).

(** The object paths that EnumerateDevices() hands out. *)
Definition enumerated_paths (st : State) : list string :=
  map dkp_device_get_object_path (dkp_device_list_get_array st).

Global Instance DkpProperty_eq_dec : EqDecision DkpProperty.
Proof. solve_decision. Defined.

(** The properties [dkp_daemon_set_property] has a case for. *)
Definition property_is_handled (prop_id : DkpProperty) : bool :=
  match prop_id with
  | PROP_LID_IS_CLOSED | PROP_LID_IS_PRESENT => true
  | _ => false
  end.

Definition powersave_command (powersave : bool) : string :=
  "/usr/sbin/pm-powersave " ++ (if powersave then "true" else "false").

(** What applying the power-save policy does: the command is launched,
    and the error of a launch that failed is freed. *)
Definition powersave_actions (env : Env) (powersave : bool) : list Action :=
  SpawnAsync (powersave_command powersave)
  :: free_error (g_spawn_command_line_async env (powersave_command powersave)).

(** What one refresh makes of a device of the list: a battery is
    refreshed, any other device is left as it is. *)
Definition refreshed (env : Env) (d : DkpDevice) : DkpDevice :=
  if decide (dev_type d = DKP_DEVICE_TYPE_BATTERY)
  then dkp_device_refresh_internal env d else d.

(** The state after one call of [dkp_daemon_refresh_battery_devices]. *)
Definition refresh_once (env : Env) (s : State) : State :=
  fst (dkp_daemon_refresh_battery_devices env s).

(** The weak references of the object at an address, if there is one. *)
Definition weak_view (st : State) (ptr : DevicePtr) : option nat :=
  dev_weak_refs <$> objects st !! ptr.

(** A battery the backend has created but not yet announced, beside the
    adapter that is already in the list. *)
Definition new_battery_example : DkpDevice :=
  mkDevice "/org/freedesktop/DeviceKit/Power/devices/battery_BAT1"
           DKP_DEVICE_TYPE_BATTERY (Some false) (Some false) None false 1 0.

Definition state_before_add : State :=
  mkState (mkPriv [2]%nat false false false false true true true)
          (<[1%nat := new_battery_example]> (<[2%nat := line_power_example]> ∅)) [] 0 [].

(** * Theorems *)

Local Open Scope list_scope.

(** ** The swap probe *)

Section SwapProbe.

Lemma default_last_cons (x a : Z) (l : list Z) :
  default a (last (x :: l)) = default x (last l).
Proof.
  revert x a. induction l as [|y l IH]; intros x a; [reflexivity|].
  change (last (x :: y :: l)) with (last (y :: l)). rewrite !IH. reflexivity.
Qed.

Lemma field_names_apart (tok : string) :
  String.eqb tok "SwapFree" = true -> String.eqb tok "Active" = false.
Proof.
  intros H. apply String.eqb_eq in H. subst tok. reflexivity.
Qed.

(** One turn of the loop, told through [field_of_line]. *)
Lemma scan_line_fields (st : SwapScan) (line : string) :
  scan_line st line =
  mkScan (default (swap_free st) (field_of_line "SwapFree" line))
         (default (active st) (field_of_line "Active" line)).
Proof.
  unfold scan_line, field_of_line, g_strcmp0_eq.
  destruct (3 <? length (g_strsplit_set line ": "))%nat; simpl.
  - destruct (String.eqb (nth 0 (g_strsplit_set line ": ") "") "SwapFree") eqn:Hs.
    + rewrite (field_names_apart _ Hs). reflexivity.
    + destruct (String.eqb (nth 0 (g_strsplit_set line ": ") "") "Active");
        simpl; destruct st; reflexivity.
  - destruct st; reflexivity.
Qed.

(** The whole loop: each field ends up with the value of the last line
    that sets it, and keeps its initial value when no line does. *)
Lemma scan_lines_fields (lines : list string) : forall st : SwapScan,
  fold_left scan_line lines st =
  mkScan (default (swap_free st) (last (omap (field_of_line "SwapFree") lines)))
         (default (active st) (last (omap (field_of_line "Active") lines))).
Proof.
  induction lines as [|line lines IH]; intros st.
  - destruct st; reflexivity.
  - cbn [fold_left]. rewrite IH, scan_line_fields. cbn [omap list_omap swap_free active].
    f_equal.
    + destruct (field_of_line "SwapFree" line) as [v|]; cbn [default];
        [rewrite default_last_cons|]; reflexivity.
    + destruct (field_of_line "Active" line) as [v|]; cbn [default];
        [rewrite default_last_cons|]; reflexivity.
Qed.

Lemma to_guint_range (z : Z) : 0 <= to_guint z < 2 ^ 32.
Proof. unfold to_guint. apply Z.mod_pos_bound. lia. Qed.

Lemma meminfo_field_range (name : string) (lines : list string) :
  0 <= meminfo_field name lines < 2 ^ 32.
Proof.
  unfold meminfo_field.
  destruct (last (omap (field_of_line name) lines)) as [v|] eqn:Hl; cbn [default].
  - apply last_Some_elem_of in Hl. apply list_elem_of_omap in Hl.
    destruct Hl as (line & _ & Hv). unfold field_of_line in Hv.
    destruct (_ && _); [|discriminate]. injection Hv as <-. apply to_guint_range.
  - lia.
Qed.

(** What the probe returns for a text that has a first line. *)
Lemma check_swap_fields (contents first : string) (rest : list string) :
  g_strsplit contents "010" = first :: rest ->
  dkp_daemon_check_swap (Some contents) =
  Some (to_gfloat
          (swap_percentage
             (mkScan (meminfo_field "SwapFree" rest) (meminfo_field "Active" rest)))).
Proof.
  intros Hsplit. unfold dkp_daemon_check_swap. rewrite Hsplit.
  rewrite scan_lines_fields. reflexivity.
Qed.

(** *** The conversion to single precision *)

(** Up to 2^24 the conversion is exact. *)
Lemma to_gfloat_exact (n : Z) : n < 2 ^ 24 -> to_gfloat n = n.
Proof.
  intros Hn. unfold to_gfloat.
  destruct (Z.ltb_spec n (2 ^ 24)) as [_|Hge]; [reflexivity|lia].
Qed.

(** Above it the float is at least 2^24 as well. *)
Lemma to_gfloat_large (n : Z) : 2 ^ 24 <= n -> 2 ^ 24 <= to_gfloat n.
Proof.
  intros Hn. unfold to_gfloat.
  destruct (Z.ltb_spec n (2 ^ 24)) as [Hlt|_]; [lia|].
  assert (Hpos : 0 < n) by (change (2 ^ 24) with 16777216 in Hn; lia).
  destruct (Z.log2_spec n Hpos) as [Hlow _].
  assert (Hlog : 24 <= Z.log2 n).
  { change 24 with (Z.log2 (2 ^ 24)). apply Z.log2_le_mono. exact Hn. }
  set (e := Z.log2 n - 23) in *.
  assert (He : 0 < e) by (unfold e; lia).
  assert (Hpow : 0 < 2 ^ e) by (apply Z.pow_pos_nonneg; lia).
  assert (Hsplit : 2 ^ Z.log2 n = 2 ^ e * 2 ^ 23).
  { rewrite <- Z.pow_add_r by lia. f_equal. unfold e. lia. }
  assert (Hq : 2 ^ 23 <= n / 2 ^ e).
  { apply Z.div_le_lower_bound; [exact Hpow|]. lia. }
  assert (Hmono : 2 ^ 24 <= 2 ^ Z.log2 n) by (apply Z.pow_le_mono_r; lia).
  assert (Hbase : 2 ^ 24 <= n / 2 ^ e * 2 ^ e).
  { rewrite Hsplit in Hmono. nia. }
  destruct (_ || _); nia.
Qed.

(** So comparing the float with the waterline is comparing the integer
    with it. *)
Lemma to_gfloat_waterline (n : Z) :
  (to_gfloat n <? DKP_DAEMON_SWAP_WATERLINE) = (n <? DKP_DAEMON_SWAP_WATERLINE).
Proof.
  unfold DKP_DAEMON_SWAP_WATERLINE.
  destruct (Z.lt_ge_cases n (2 ^ 24)) as [Hlt|Hge].
  - rewrite to_gfloat_exact by exact Hlt. reflexivity.
  - pose proof (to_gfloat_large n Hge) as Hbig.
    change (2 ^ 24) with 16777216 in Hge, Hbig.
    destruct (Z.ltb_spec (to_gfloat n) 80), (Z.ltb_spec n 80); lia.
Qed.

(** *** Lines as the kernel prints them *)

Lemma append_cons (x : ascii) (a b : string) : String x a +:+ b = String x (a +:+ b).
Proof. reflexivity. Qed.

Lemma append_assoc (a b c : string) : (a +:+ b) +:+ c = a +:+ (b +:+ c).
Proof.
  induction a as [|x a IH]; [reflexivity|]. rewrite !append_cons, IH. reflexivity.
Qed.

Lemma pretty_N_go_append (x : N) : forall s, pretty_N_go x s = pretty_N_go x "" +:+ s.
Proof.
  induction (N.lt_wf_0 x) as [x _ IH]. intros s.
  destruct (N.eq_dec x 0%N) as [->|Hx]; [reflexivity|].
  rewrite !(pretty_N_go_step x) by lia.
  assert (Hlt : (x `div` 10 < x)%N) by (apply N.div_lt; lia).
  rewrite (IH _ Hlt (String _ s)), (IH _ Hlt (String _ "")).
  rewrite append_assoc. reflexivity.
Qed.

Lemma digit_value_pretty_char (d : N) :
  (d < 10)%N -> digit_value (pretty_N_char d) = Some (Z.of_N d).
Proof.
  intros Hd.
  assert (d = 0 \/ d = 1 \/ d = 2 \/ d = 3 \/ d = 4 \/ d = 5 \/ d = 6 \/ d = 7
          \/ d = 8 \/ d = 9)%N as H by lia.
  repeat (destruct H as [->|H]; [reflexivity|]). subst d. reflexivity.
Qed.

Lemma only_digits_append (a b : string) :
  only_digits (a +:+ b) = only_digits a && only_digits b.
Proof.
  induction a as [|c a IH]; [reflexivity|]. rewrite append_cons. cbn [only_digits].
  rewrite IH. apply andb_assoc.
Qed.

Lemma pretty_N_go_digits (x : N) : only_digits (pretty_N_go x "") = true.
Proof.
  induction (N.lt_wf_0 x) as [x _ IH].
  destruct (N.eq_dec x 0%N) as [->|Hx]; [reflexivity|].
  rewrite pretty_N_go_step, pretty_N_go_append by lia.
  rewrite only_digits_append, IH by (apply N.div_lt; lia).
  cbn. unfold isdigit. rewrite digit_value_pretty_char; [reflexivity|].
  apply N.mod_lt. lia.
Qed.

Lemma read_digits_append (a b : string) : forall acc,
  only_digits a = true -> read_digits acc (a +:+ b) = read_digits (read_digits acc a) b.
Proof.
  induction a as [|c a IH]; intros acc Ha; [reflexivity|].
  rewrite append_cons. cbn [only_digits read_digits] in Ha |- *. unfold isdigit in Ha.
  destruct (digit_value c) as [d|]; [|discriminate]. apply IH. exact Ha.
Qed.

Lemma read_pretty_N_go (x : N) : read_digits 0 (pretty_N_go x "") = Z.of_N x.
Proof.
  induction (N.lt_wf_0 x) as [x _ IH].
  destruct (N.eq_dec x 0%N) as [->|Hx]; [reflexivity|].
  rewrite pretty_N_go_step, pretty_N_go_append by lia.
  rewrite read_digits_append by apply pretty_N_go_digits.
  rewrite IH by (apply N.div_lt; lia).
  cbn. rewrite digit_value_pretty_char by (apply N.mod_lt; lia).
  pose proof (N.div_mod x 10). lia.
Qed.

Lemma pretty_digits (n : N) : only_digits (pretty n) = true.
Proof.
  unfold pretty, pretty_N. destruct (decide (n = 0%N)); [reflexivity|].
  apply pretty_N_go_digits.
Qed.

Lemma read_pretty (n : N) : read_digits 0 (pretty n) = Z.of_N n.
Proof.
  unfold pretty, pretty_N. destruct (decide (n = 0%N)) as [->|]; [reflexivity|].
  apply read_pretty_N_go.
Qed.

Lemma digit_facts (c : ascii) :
  isdigit c = true ->
  isspace c = false /\ c <> "-"%char /\ c <> "+"%char /\
  is_delimiter ": " c = false.
Proof.
  destruct c as [[] [] [] [] [] [] [] []]; cbn; intros H;
    try discriminate H; repeat split; discriminate.
Qed.

Lemma decimal_prefix_digits (s : string) :
  only_digits s = true -> decimal_prefix s = read_digits 0 s.
Proof.
  destruct s as [|c s]; [reflexivity|]. cbn [only_digits]. intros H.
  apply andb_true_iff in H as [Hc _]. destruct (digit_facts c Hc) as (Hsp & Hm & Hp & _).
  unfold decimal_prefix. cbn [skip_spaces]. rewrite Hsp.
  destruct c as [[] [] [] [] [] [] [] []]; try reflexivity; congruence.
Qed.

Lemma atoi_pretty (n : N) : (n < 2 ^ 31)%N -> to_guint (atoi (pretty n)) = Z.of_N n.
Proof.
  intros Hn. unfold atoi, to_guint.
  rewrite decimal_prefix_digits by apply pretty_digits. rewrite read_pretty.
  unfold LONG_MIN, LONG_MAX.
  assert (0 <= Z.of_N n < 2 ^ 31) by lia.
  rewrite Z.min_r, Z.max_r by lia.
  rewrite (Z.mod_small (Z.of_N n + 2 ^ 31)) by lia.
  rewrite Z.mod_small by lia. lia.
Qed.

Lemma split_tokens_word (delim : ascii -> bool) (w : string) (c : ascii) (rest : string) :
  free_of delim w = true -> delim c = true ->
  split_tokens delim (w +:+ String c rest) = w :: split_tokens delim rest.
Proof.
  intros Hw Hc. induction w as [|x w IH].
  - cbn [append split_tokens]. change ("" +:+ String c rest) with (String c rest).
    cbn [split_tokens]. rewrite Hc. reflexivity.
  - cbn [free_of] in Hw. apply andb_true_iff in Hw as [Hx Hw].
    apply negb_true_iff in Hx.
    rewrite append_cons. cbn [split_tokens]. rewrite Hx, (IH Hw). reflexivity.
Qed.

Lemma split_tokens_last (delim : ascii -> bool) (w : string) :
  free_of delim w = true -> split_tokens delim w = [w].
Proof.
  induction w as [|x w IH]; intros Hw; [reflexivity|].
  cbn [free_of] in Hw. apply andb_true_iff in Hw as [Hx Hw]. apply negb_true_iff in Hx.
  cbn [split_tokens]. rewrite Hx, (IH Hw). reflexivity.
Qed.

Lemma split_tokens_spaces (p : nat) (s : string) :
  split_tokens (is_delimiter ": ") (spaces p +:+ s)
  = replicate p "" ++ split_tokens (is_delimiter ": ") s.
Proof.
  induction p as [|p IH]; [reflexivity|].
  cbn [spaces replicate]. rewrite append_cons. cbn [split_tokens].
  change (is_delimiter ": " " ") with true. cbn iota. rewrite IH. reflexivity.
Qed.

Lemma digits_free_of_delimiters (s : string) :
  only_digits s = true -> free_of (is_delimiter ": ") s = true.
Proof.
  induction s as [|c s IH]; [reflexivity|]. cbn [only_digits free_of]. intros H.
  apply andb_true_iff in H as [Hc Hs]. destruct (digit_facts c Hc) as (_ & _ & _ & ->).
  rewrite (IH Hs). reflexivity.
Qed.

Lemma meminfo_line_tokens (name : string) (p : nat) (n : N) :
  free_of (is_delimiter ": ") name = true ->
  g_strsplit_set (meminfo_line name p n) ": "
  = name :: replicate (S p) "" ++ [pretty n; "kB"].
Proof.
  intros Hname. unfold meminfo_line, g_strsplit_set.
  assert (Hsplit : split_tokens (is_delimiter ": ")
                     (name +:+ ":" +:+ spaces (S p) +:+ pretty n +:+ " kB")
                   = name :: replicate (S p) "" ++ [pretty n; "kB"]).
  { change (":" +:+ spaces (S p) +:+ pretty n +:+ " kB")
      with (String ":" (spaces (S p) +:+ pretty n +:+ String " " "kB")).
    rewrite split_tokens_word by (assumption || reflexivity).
    rewrite split_tokens_spaces.
    rewrite split_tokens_word
      by (reflexivity || apply digits_free_of_delimiters, pretty_digits).
    reflexivity. }
  destruct name as [|x name]; exact Hsplit.
Qed.

Lemma field_of_meminfo_line (query name : string) (p : nat) (n : N) :
  free_of (is_delimiter ": ") name = true -> (n < 2 ^ 31)%N ->
  field_of_line query (meminfo_line name p n)
  = if String.eqb name query then Some (Z.of_N n) else None.
Proof.
  intros Hname Hn. unfold field_of_line. rewrite meminfo_line_tokens by assumption.
  assert (Hlen : length (name :: replicate (S p) "" ++ [pretty n; "kB"]) = (p + 4)%nat).
  { cbn [length]. rewrite length_app, length_replicate. cbn. lia. }
  rewrite Hlen. replace (3 <? p + 4)%nat with true by (symmetry; apply Nat.ltb_lt; lia).
  cbn [nth andb]. destruct (String.eqb name query); [|reflexivity].
  replace (p + 4 - 2)%nat with (S (S p)) by lia.
  change (nth (S (S p)) (name :: ?l) "") with (nth (S p) l "").
  rewrite app_nth2 by (rewrite length_replicate; lia).
  rewrite length_replicate, Nat.sub_diag. cbn [nth].
  rewrite atoi_pretty by assumption. reflexivity.
Qed.

Lemma free_of_append (delim : ascii -> bool) (a b : string) :
  free_of delim (a +:+ b) = free_of delim a && free_of delim b.
Proof.
  induction a as [|c a IH]; [reflexivity|]. rewrite append_cons. cbn [free_of].
  rewrite IH. apply andb_assoc.
Qed.

Lemma digit_not_newline (c : ascii) : isdigit c = true -> Ascii.eqb "010" c = false.
Proof.
  destruct c as [[] [] [] [] [] [] [] []]; cbn; intros H; try discriminate H; reflexivity.
Qed.

Lemma meminfo_line_one_line (name : string) (p : nat) (n : N) :
  free_of (Ascii.eqb "010") name = true ->
  free_of (Ascii.eqb "010") (meminfo_line name p n) = true.
Proof.
  intros Hname. unfold meminfo_line. rewrite !free_of_append, Hname.
  assert (Hsp : free_of (Ascii.eqb "010") (spaces (S p)) = true).
  { induction p as [|p IH]; [reflexivity|]. exact IH. }
  assert (Hnum : free_of (Ascii.eqb "010") (pretty n) = true).
  { pose proof (pretty_digits n) as Hd. induction (pretty n) as [|c s IH]; [reflexivity|].
    cbn [only_digits free_of] in Hd |- *. apply andb_true_iff in Hd as [Hc Hs].
    rewrite (digit_not_newline c Hc), (IH Hs). reflexivity. }
  rewrite Hsp, Hnum. reflexivity.
Qed.

Lemma three_lines (first l1 l2 : string) :
  free_of (Ascii.eqb "010") first = true ->
  free_of (Ascii.eqb "010") l1 = true ->
  free_of (Ascii.eqb "010") l2 = true ->
  g_strsplit (first +:+ newline +:+ l1 +:+ newline +:+ l2 +:+ newline) "010"
  = [first; l1; l2; ""].
Proof.
  intros H0 H1 H2.
  assert (Hsplit : split_tokens (Ascii.eqb "010")
                     (first +:+ newline +:+ l1 +:+ newline +:+ l2 +:+ newline)
                   = [first; l1; l2; ""]).
  { assert (Hnl : forall s, newline +:+ s = String "010" s) by reflexivity.
    rewrite !Hnl. unfold newline.
    rewrite !split_tokens_word by (assumption || reflexivity). reflexivity. }
  unfold g_strsplit.
  destruct first as [|c first]; exact Hsplit.
Qed.

Lemma check_swap_meminfo_lines (first : string) (pa pf : nat) (a f : N) :
  free_of (Ascii.eqb "010") first = true ->
  (0 < a)%N -> (0 < f)%N -> (f < 2 ^ 31)%N -> (a * 100 < 2 ^ 32)%N ->
  dkp_daemon_check_swap
    (Some (first +:+ newline +:+ meminfo_line "Active" pa a +:+ newline
             +:+ meminfo_line "SwapFree" pf f +:+ newline))
  = Some (to_gfloat (Z.of_N a * 100 / Z.of_N f)).
Proof.
  intros Hfirst Ha Hf Hf31 Ha32.
  assert (Ha31 : (a < 2 ^ 31)%N)
    by (change (2 ^ 31)%N with 2147483648%N;
        change (2 ^ 32)%N with 4294967296%N in Ha32; lia).
  unfold dkp_daemon_check_swap.
  rewrite three_lines
    by (assumption || (apply meminfo_line_one_line; reflexivity)).
  cbn [fold_left]. rewrite !scan_line_fields.
  rewrite !field_of_meminfo_line by (reflexivity || assumption).
  cbn [String.eqb Ascii.eqb Bool.eqb default swap_free active].
  change (field_of_line "SwapFree" "") with (@None Z).
  change (field_of_line "Active" "") with (@None Z).
  cbv [from_option id]. unfold swap_percentage. cbn [swap_free active].
  destruct (Z.ltb_spec 0 (Z.of_N f)); [|lia]. destruct (Z.ltb_spec 0 (Z.of_N a)); [|lia].
  cbn [andb]. rewrite Z.mod_small; [reflexivity|].
  change (2 ^ 32)%N with 4294967296%N in Ha32. change (2 ^ 32) with 4294967296. lia.
Qed.

End SwapProbe.

(** C6: the probe multiplies the active memory by 100 in 32 bits, so the
    product wraps around once the active memory reaches 2^32 / 100 kB
    (about 41 GB).  A memory-statistics text with Active: 42949673 kB and
    SwapFree: 1000 kB has an active memory of 4294967 percent of the free
    swap, far above the waterline of 80; the probe reads both fields as
    they stand and reports 0, and a kernel that advertises disk gets
    hibernate enabled. *)
Theorem check_swap_wraps_around :
  (exists first rest,
      g_strsplit meminfo_large_memory "010" = first :: rest /\
      meminfo_field "Active" rest = 42949673 /\
      meminfo_field "SwapFree" rest = 1000) /\
  DKP_DAEMON_SWAP_WATERLINE <= 42949673 * 100 / 1000 /\
  dkp_daemon_check_swap (Some meminfo_large_memory) = Some 0 /\
  (forall (env : Env),
      exists p, dkp_daemon_init (Some "mem disk") (Some meminfo_large_memory) = Some p /\
                dkp_daemon_get_property env p PROP_CAN_HIBERNATE = GBoolean true).
Proof.
  split; [|split; [|split]].
  - eexists _, _. split; [vm_compute; reflexivity|].
    split; vm_compute; reflexivity.
  - vm_compute. discriminate.
  - vm_compute. reflexivity.
  - intros env.
    unfold dkp_daemon_init, dkp_daemon_check_state.
    cbn [fst set_kernel_state kernel_can_hibernate].
    replace (g_strstr_len "mem disk" "disk") with true by (vm_compute; reflexivity).
    replace (dkp_daemon_check_swap (Some meminfo_large_memory)) with (Some 0)
      by (vm_compute; reflexivity).
    eexists; split; reflexivity.
Qed.

(** ** What each operation leaves alone *)

Section Frames.

Variable env : Env.

Lemma with_objects_id (st : State) : with_objects (fun m => m) st = st.
Proof. destruct st; reflexivity. Qed.

(** Refreshing the batteries touches the object store and nothing else. *)
Lemma refresh_only_objects (st : State) :
  exists f, fst (dkp_daemon_refresh_battery_devices env st) = with_objects f st.
Proof.
  unfold dkp_daemon_refresh_battery_devices. cbn [fst].
  generalize (power_devices (priv st)) as l. intros l. revert st.
  induction l as [|ptr l IH]; intros st.
  - exists (fun m => m). symmetry. apply with_objects_id.
  - cbn [fold_left].
    destruct (objects st !! ptr) as [d|]; [|apply IH].
    destruct (decide (dev_type d = DKP_DEVICE_TYPE_BATTERY)); [|apply IH].
    destruct (IH (with_objects (insert ptr (dkp_device_refresh_internal env d)) st))
      as [f Hf].
    exists (fun m => f (<[ptr := dkp_device_refresh_internal env d]> m)).
    rewrite Hf. reflexivity.
Qed.

Lemma refresh_priv (st : State) :
  priv (fst (dkp_daemon_refresh_battery_devices env st)) = priv st.
Proof. destruct (refresh_only_objects st) as [f ->]. reflexivity. Qed.

Lemma refresh_trace (st : State) :
  trace (fst (dkp_daemon_refresh_battery_devices env st)) = trace st.
Proof. destruct (refresh_only_objects st) as [f ->]. reflexivity. Qed.

Lemma refresh_timeouts (st : State) :
  timeouts (fst (dkp_daemon_refresh_battery_devices env st)) = timeouts st.
Proof. destruct (refresh_only_objects st) as [f ->]. reflexivity. Qed.

Lemma refresh_clock (st : State) :
  clock (fst (dkp_daemon_refresh_battery_devices env st)) = clock st.
Proof. destruct (refresh_only_objects st) as [f ->]. reflexivity. Qed.

(** The weak-reference notifies only edit the device list. *)
Lemma went_away_iter_flags (n : nat) (device : DevicePtr) (st : State) :
  kernel_flags
    (priv (Nat.iter n (fun s => dkp_daemon_device_went_away_cb s device) st))
  = kernel_flags (priv st).
Proof. induction n as [|n IH]; [reflexivity|]. cbn [Nat.iter]. exact IH. Qed.

Lemma went_away_iter_trace (n : nat) (device : DevicePtr) (st : State) :
  trace (Nat.iter n (fun s => dkp_daemon_device_went_away_cb s device) st) = trace st.
Proof. induction n as [|n IH]; [reflexivity|]. cbn [Nat.iter]. exact IH. Qed.

Lemma went_away_iter_objects (n : nat) (device : DevicePtr) (st : State) :
  objects (Nat.iter n (fun s => dkp_daemon_device_went_away_cb s device) st) = objects st.
Proof. induction n as [|n IH]; [reflexivity|]. cbn [Nat.iter]. exact IH. Qed.

Lemma unref_flags (st : State) (device : DevicePtr) :
  kernel_flags (priv (g_object_unref st device)) = kernel_flags (priv st).
Proof.
  unfold g_object_unref. destruct (objects st !! device) as [d|]; [|reflexivity].
  destruct (dev_ref_count d <=? 1)%nat; [|reflexivity].
  cbn [with_objects priv]. apply went_away_iter_flags.
Qed.

Lemma authorize_and_spawn_priv (st : State) (context : Context) (action_id command : string) :
  priv (fst (authorize_and_spawn env st context action_id command)) = priv st.
Proof.
  unfold authorize_and_spawn.
  destruct (dkp_polkit_get_subject env context) as [subject|]; [|reflexivity].
  destruct (dkp_polkit_check_auth env subject action_id context); cbn [negb]; [|reflexivity].
  destruct (spawn_error (g_spawn_command_line_sync env command)); reflexivity.
Qed.

Lemma check_aggregates_flags (st : State) :
  kernel_flags (priv (check_aggregates_changed env st)) = kernel_flags (priv st).
Proof.
  unfold check_aggregates_changed. cbv zeta.
  destruct (negb (Bool.eqb _ (on_battery (priv st))));
    match goal with |- context [if ?c then _ else _] => destruct c end;
    reflexivity.
Qed.

Lemma changed_cb_flags (st : State) (native : option Native) (device : option DevicePtr)
    (emit_signal : bool) :
  kernel_flags (priv (dkp_daemon_device_changed_cb env st native device emit_signal))
  = kernel_flags (priv st).
Proof.
  unfold dkp_daemon_device_changed_cb.
  destruct native as [nat_handle|]; [|reflexivity].
  destruct device as [ptr|]; [|reflexivity].
  destruct (objects st !! ptr) as [d|]; [|reflexivity].
  cbv zeta. rewrite check_aggregates_flags.
  destruct (decide _); [|reflexivity].
  unfold g_timeout_add_seconds. cbn [log with_timeouts priv].
  rewrite refresh_priv. reflexivity.
Qed.

Lemma dispatch_flags (st : State) (now : nat) :
  kernel_flags (priv (main_loop_dispatch env st now)) = kernel_flags (priv st).
Proof.
  unfold main_loop_dispatch.
  set (s0 := with_clock now _).
  change (kernel_flags (priv st)) with (kernel_flags (priv s0)).
  generalize (filter (fun t => (due t <= now)%nat) (timeouts st)) as ready.
  intros ready. generalize s0. clear s0.
  induction ready as [|t ready IH]; intros s; [reflexivity|].
  cbn [fold_left]. rewrite IH.
  unfold dkp_daemon_refresh_battery_devices_cb. rewrite refresh_priv. reflexivity.
Qed.

(** [DkpDaemonPrivate] is private to dkp-daemon.c: the backend reaches the
    daemon through the functions of that file only. *)
Hypothesis coldplug_keeps_flags : forall s : State,
  kernel_flags (priv (fst (dkp_backend_coldplug env s))) = kernel_flags (priv s).

Lemma startup_flags (st : State) :
  kernel_flags (priv (fst (dkp_daemon_startup env st))) = kernel_flags (priv st).
Proof.
  unfold dkp_daemon_startup, dkp_daemon_register_power_daemon.
  destruct (dbus_g_bus_get env); [|reflexivity]. cbn [negb].
  pose proof (coldplug_keeps_flags (log [RegisterObject "/org/freedesktop/DeviceKit/Power"] st))
    as Hcold.
  destruct (dkp_backend_coldplug env _) as [st2 [|]]; cbn [negb fst] in *; exact Hcold.
Qed.

(** No call changes what the kernel probes found at initialisation. *)
Lemma run_call_flags (st : State) (c : DaemonCall) :
  kernel_flags (priv (run_call env st c)) = kernel_flags (priv st).
Proof.
  destruct c; cbn [run_call].
  - apply startup_flags.
  - unfold dkp_daemon_set_lid_is_closed.
    destruct (Bool.eqb _ _); [reflexivity|]. destruct notify; reflexivity.
  - destruct prop_id; reflexivity.
  - reflexivity.
  - unfold dkp_daemon_suspend. destruct (negb _); [reflexivity|].
    rewrite authorize_and_spawn_priv. reflexivity.
  - unfold dkp_daemon_hibernate. destruct (negb _); [reflexivity|].
    destruct (negb _); [reflexivity|].
    rewrite authorize_and_spawn_priv. reflexivity.
  - unfold dkp_daemon_device_added_cb.
    destruct native; [|reflexivity]. destruct device as [ptr|]; [|reflexivity].
    destruct (objects st !! ptr); [|reflexivity]. destruct emit_signal; reflexivity.
  - apply changed_cb_flags.
  - unfold dkp_daemon_device_removed_cb.
    destruct native; [|reflexivity]. destruct device as [ptr|]; [|reflexivity].
    destruct (objects st !! ptr); [|reflexivity]. rewrite unref_flags. reflexivity.
  - apply unref_flags.
  - apply dispatch_flags.
Qed.

Lemma run_calls_flags (calls : list DaemonCall) : forall st : State,
  kernel_flags (priv (run_calls env st calls)) = kernel_flags (priv st).
Proof.
  induction calls as [|c calls IH]; intros st; [reflexivity|].
  unfold run_calls in *. cbn [fold_left]. rewrite IH. apply run_call_flags.
Qed.

End Frames.

(** ** The can-hibernate property *)

Lemma init_kernel_can_hibernate (power_state meminfo : option string) (p : DkpDaemonPrivate) :
  dkp_daemon_init power_state meminfo = Some p ->
  kernel_can_hibernate p =
  match power_state with Some c => g_strstr_len c "disk" | None => false end.
Proof.
  unfold dkp_daemon_init, dkp_daemon_check_state.
  destruct power_state as [c|]; cbn [fst set_kernel_state kernel_can_hibernate].
  - destruct (g_strstr_len c "disk") eqn:Hd.
    + destruct (dkp_daemon_check_swap meminfo) as [w|]; [|discriminate].
      intros [= <-]. destruct (w <? _); reflexivity.
    + intros [= <-]. reflexivity.
  - intros [= <-]. reflexivity.
Qed.

Lemma init_kernel_has_swap_space (power_state meminfo : option string) (p : DkpDaemonPrivate) :
  dkp_daemon_init power_state meminfo = Some p ->
  kernel_has_swap_space p = true <->
  kernel_can_hibernate p = true /\
  exists w, dkp_daemon_check_swap meminfo = Some w /\ w < DKP_DAEMON_SWAP_WATERLINE.
Proof.
  intros Hinit. pose proof (init_kernel_can_hibernate _ _ _ Hinit) as Hhib.
  revert Hinit. unfold dkp_daemon_init, dkp_daemon_check_state.
  destruct power_state as [c|]; cbn [fst set_kernel_state kernel_can_hibernate].
  - destruct (g_strstr_len c "disk") eqn:Hd.
    + destruct (dkp_daemon_check_swap meminfo) as [w|]; [|discriminate].
      intros [= <-]. destruct (Z.ltb_spec w DKP_DAEMON_SWAP_WATERLINE) as [Hlt|Hge].
      * cbn. split; [|reflexivity]. intros _. split; [reflexivity|].
        exists w. split; [reflexivity|exact Hlt].
      * cbn. split; [discriminate|]. intros [_ (w' & [= <-] & Hlt)]. lia.
    + intros [= <-]. cbn. split; [discriminate|]. intros [? _]. discriminate.
  - intros [= <-]. cbn. split; [discriminate|]. intros [? _]. discriminate.
Qed.

(** C5: the can-hibernate property is the conjunction of
    kernel_can_hibernate and kernel_has_swap_space in every state.  After
    initialisation kernel_has_swap_space holds exactly when the kernel
    advertises hibernation and the measured swap pressure is strictly below
    the waterline of 80, so the property is false when the kernel does not
    advertise hibernation, whatever the swap, and false when the pressure
    is 80 or more; and no later call to the daemon changes it (the backend,
    which has no access to the private data, is assumed not to change the
    kernel flags during coldplug). *)
Theorem can_hibernate_property
    (env : Env) (power_state meminfo : option string) (p : DkpDaemonPrivate) :
  dkp_daemon_init power_state meminfo = Some p ->
  (forall q : DkpDaemonPrivate,
      dkp_daemon_get_property env q PROP_CAN_HIBERNATE =
      GBoolean (kernel_can_hibernate q && kernel_has_swap_space q)) /\
  kernel_can_hibernate p =
    match power_state with Some c => g_strstr_len c "disk" | None => false end /\
  (kernel_has_swap_space p = true <->
     kernel_can_hibernate p = true /\
     exists w, dkp_daemon_check_swap meminfo = Some w /\ w < 80) /\
  (kernel_can_hibernate p = false ->
     dkp_daemon_get_property env p PROP_CAN_HIBERNATE = GBoolean false) /\
  (forall w, dkp_daemon_check_swap meminfo = Some w -> 80 <= w ->
     dkp_daemon_get_property env p PROP_CAN_HIBERNATE = GBoolean false) /\
  ((forall s : State,
       kernel_flags (priv (fst (dkp_backend_coldplug env s))) = kernel_flags (priv s)) ->
   forall (st : State) (calls : list DaemonCall), priv st = p ->
     dkp_daemon_get_property env (priv (run_calls env st calls)) PROP_CAN_HIBERNATE =
     dkp_daemon_get_property env p PROP_CAN_HIBERNATE).
Proof.
  intros Hinit.
  pose proof (init_kernel_has_swap_space _ _ _ Hinit) as Hswap.
  split; [reflexivity|]. split; [exact (init_kernel_can_hibernate _ _ _ Hinit)|].
  split; [exact Hswap|]. split; [|split].
  - intros Hhib. cbn. rewrite Hhib. reflexivity.
  - intros w Hw Hge. cbn. f_equal.
    destruct (kernel_has_swap_space p) eqn:Hs; [|apply andb_false_r].
    apply proj1 in Hswap. destruct (Hswap eq_refl) as [_ (w' & Hw' & Hlt)].
    rewrite Hw in Hw'. injection Hw' as <-. unfold DKP_DAEMON_SWAP_WATERLINE in Hlt. lia.
  - intros Hcold st calls <-. cbn.
    pose proof (run_calls_flags env Hcold calls st) as Hflags.
    unfold kernel_flags in Hflags. injection Hflags as _ -> ->. reflexivity.
Qed.

Lemma can_hibernate_property_witness :
  let p := mkPriv [] false false false false true true true in
  let st := mkState p ∅ [] 0 [] in
  dkp_daemon_get_property env_example p PROP_CAN_HIBERNATE = GBoolean (true && true) /\
  dkp_daemon_get_property env_example
    (priv (run_calls env_example st [CallStartup; CallHibernate 7%nat])) PROP_CAN_HIBERNATE
  = dkp_daemon_get_property env_example p PROP_CAN_HIBERNATE.
Proof.
  pose proof (can_hibernate_property env_example (Some "mem disk") (Some meminfo_example)
                (mkPriv [] false false false false true true true) eq_refl)
    as (Hget & _ & _ & _ & _ & Hcalls).
  split; [apply Hget|].
  apply Hcalls; [intros s; reflexivity|reflexivity].
Defined.

(** ** The lid *)

(** C7: writing the value that is already stored changes nothing and emits
    nothing; writing the other value without notification stores it and
    emits nothing; writing the other value with notification stores it and
    emits "changed" exactly once. *)
Theorem set_lid_is_closed_cases (st : State) (notify : bool) :
  let current := lid_is_closed (priv st) in
  dkp_daemon_set_lid_is_closed st current notify = (st, false) /\
  (let st' := fst (dkp_daemon_set_lid_is_closed st (negb current) false) in
   lid_is_closed (priv st') = negb current /\ trace st' = trace st) /\
  (let st' := fst (dkp_daemon_set_lid_is_closed st (negb current) true) in
   lid_is_closed (priv st') = negb current /\
   trace st' = trace st ++ [SignalEmit CHANGED_SIGNAL None] /\
   count is_changed_signal (trace st') = S (count is_changed_signal (trace st))).
Proof.
  unfold dkp_daemon_set_lid_is_closed. cbv zeta.
  rewrite Bool.eqb_reflx. split; [reflexivity|].
  replace (Bool.eqb (lid_is_closed (priv st)) (negb (lid_is_closed (priv st))))
    with false by (destruct (lid_is_closed (priv st)); reflexivity).
  cbn [negb fst with_priv log priv trace set_lid_closed lid_is_closed].
  split; [split; reflexivity|]. split; [reflexivity|]. split; [reflexivity|].
  unfold count. rewrite List.filter_app, length_app. cbn. lia.
Qed.

(** ** Suspend and hibernate *)

Section PowerTransitions.

Variable env : Env.

Lemma suspend_gate_closed (st : State) (context : Context) :
  kernel_can_suspend (priv st) = false ->
  dkp_daemon_suspend env st context =
  (log [GErrorFree None;
        MethodReturnError context DKP_DAEMON_ERROR_GENERAL "No kernel support"] st, true).
Proof. intros H. unfold dkp_daemon_suspend. rewrite H. reflexivity. Qed.

Lemma hibernate_gate_closed (st : State) (context : Context) :
  kernel_can_hibernate (priv st) && kernel_has_swap_space (priv st) = false ->
  dkp_daemon_hibernate env st context =
  (log [GErrorFree None;
        MethodReturnError context DKP_DAEMON_ERROR_GENERAL
          (if kernel_can_hibernate (priv st) then "Not enough swap space"
           else "No kernel support")] st, true).
Proof.
  intros H. unfold dkp_daemon_hibernate.
  destruct (kernel_can_hibernate (priv st)); [|reflexivity].
  cbn in H. rewrite H. reflexivity.
Qed.

(** Past the gate the first thing either request does is to ask polkit for
    the subject. *)
Lemma suspend_gate_open (st : State) (context : Context) :
  kernel_can_suspend (priv st) = true ->
  exists acts, trace (fst (dkp_daemon_suspend env st context)) =
               trace st ++ PolkitGetSubject context :: acts.
Proof.
  intros H. unfold dkp_daemon_suspend, authorize_and_spawn. rewrite H. cbn [negb].
  destruct (dkp_polkit_get_subject env context) as [subject|];
    [|exists []; reflexivity].
  destruct (dkp_polkit_check_auth env subject _ context); cbn [negb];
    [|eexists; cbn; rewrite <- app_assoc; reflexivity].
  destruct (spawn_error _); eexists; cbn; rewrite <- !app_assoc; reflexivity.
Qed.

End PowerTransitions.

(** C1, as stated, fails: with kernel_can_suspend false the reply to
    Suspend() is an error, but its code is DKP_DAEMON_ERROR_GENERAL
    ("GeneralError"), not DKP_DAEMON_ERROR_NOT_SUPPORTED. *)
Lemma suspend_error_is_general :
  kernel_can_suspend (priv state_example) = false /\
  trace (fst (dkp_daemon_suspend env_example state_example 7%nat)) =
    [GErrorFree None;
     MethodReturnError 7%nat DKP_DAEMON_ERROR_GENERAL "No kernel support"] /\
  ~ (exists message,
        MethodReturnError 7%nat DKP_DAEMON_ERROR_NOT_SUPPORTED message
        ∈ trace (fst (dkp_daemon_suspend env_example state_example 7%nat))).
Proof.
  split; [reflexivity|]. split; [reflexivity|].
  intros [message H]. cbn in H.
  apply elem_of_cons in H as [H|H]; [discriminate|].
  apply elem_of_cons in H as [H|H]; [discriminate|].
  apply elem_of_nil in H. exact H.
Qed.

(** C1 (amended): for every request context, Suspend() while
    kernel_can_suspend is false answers the caller with one error, a
    GeneralError whose message is "No kernel support", asks for no
    authorisation, spawns nothing and leaves the daemon's data as it was;
    Hibernate() is guarded in the same way by kernel_can_hibernate and
    kernel_has_swap_space: its message is "No kernel support" when the
    kernel cannot hibernate and "Not enough swap space" when only the swap
    is missing. *)
Theorem capability_gate_closed (env : Env) (st : State) (context : Context) :
  (kernel_can_suspend (priv st) = false ->
   exists acts,
     dkp_daemon_suspend env st context = (log acts st, true) /\
     List.filter is_reply acts =
       [MethodReturnError context DKP_DAEMON_ERROR_GENERAL "No kernel support"] /\
     count is_authorization acts = 0%nat /\ count is_spawn acts = 0%nat) /\
  (kernel_can_hibernate (priv st) && kernel_has_swap_space (priv st) = false ->
   exists acts,
     dkp_daemon_hibernate env st context = (log acts st, true) /\
     List.filter is_reply acts =
       [MethodReturnError context DKP_DAEMON_ERROR_GENERAL
          (if kernel_can_hibernate (priv st) then "Not enough swap space"
           else "No kernel support")] /\
     count is_authorization acts = 0%nat /\ count is_spawn acts = 0%nat).
Proof.
  split; intros H.
  - eexists. split; [apply suspend_gate_closed; exact H|]. repeat split.
  - eexists. split; [apply hibernate_gate_closed; exact H|]. repeat split.
Qed.

Lemma capability_gate_closed_witness :
  (exists acts,
      dkp_daemon_suspend env_example state_example 7%nat = (log acts state_example, true) /\
      List.filter is_reply acts =
        [MethodReturnError 7%nat DKP_DAEMON_ERROR_GENERAL "No kernel support"] /\
      count is_authorization acts = 0%nat /\ count is_spawn acts = 0%nat) /\
  (exists acts,
      dkp_daemon_hibernate env_example state_without_swap 7%nat
      = (log acts state_without_swap, true) /\
      List.filter is_reply acts =
        [MethodReturnError 7%nat DKP_DAEMON_ERROR_GENERAL
           (if kernel_can_hibernate (priv state_without_swap) then "Not enough swap space"
            else "No kernel support")] /\
      count is_authorization acts = 0%nat /\ count is_spawn acts = 0%nat).
Proof.
  split.
  - apply (proj1 (capability_gate_closed env_example state_example 7%nat)). reflexivity.
  - apply (proj2 (capability_gate_closed env_example state_without_swap 7%nat)). reflexivity.
Defined.

(** C10: when the capability gate of Suspend() or Hibernate() is closed,
    the first thing the request does is to call g_error_free on
    error_local, which is still NULL; every such call goes through it. *)
Theorem gate_failure_frees_null_error (env : Env) (st : State) (context : Context) :
  (kernel_can_suspend (priv st) = false ->
   exists acts, trace (fst (dkp_daemon_suspend env st context)) =
                trace st ++ GErrorFree None :: acts) /\
  (kernel_can_hibernate (priv st) && kernel_has_swap_space (priv st) = false ->
   exists acts, trace (fst (dkp_daemon_hibernate env st context)) =
                trace st ++ GErrorFree None :: acts).
Proof.
  split; intros H.
  - rewrite (suspend_gate_closed env st context H). eexists. reflexivity.
  - rewrite (hibernate_gate_closed env st context H). eexists. reflexivity.
Qed.

Lemma gate_failure_frees_null_error_witness :
  exists acts, trace (fst (dkp_daemon_hibernate env_example state_example 7%nat)) =
               trace state_example ++ GErrorFree None :: acts.
Proof.
  apply (proj2 (gate_failure_frees_null_error env_example state_example 7%nat)).
  reflexivity.
Defined.

(** ** Startup *)

(** C2, as stated, fails: when the bus registration succeeds and the
    backend fails to coldplug, startup reports failure. *)
Lemma startup_fails_when_coldplug_fails :
  snd (dkp_daemon_register_power_daemon env_coldplug_fails state_example) = true /\
  snd (dkp_backend_coldplug env_coldplug_fails
         (fst (dkp_daemon_register_power_daemon env_coldplug_fails state_example))) = false /\
  snd (dkp_daemon_startup env_coldplug_fails state_example) = false.
Proof. repeat split. Qed.

(** C2 (amended): startup fails when the registration on the bus fails,
    and then nothing else is attempted (all that happens is that the error
    of the bus call is freed, when it has set one); it also fails when the backend
    fails to coldplug, and then the daemon is left as the coldplug left
    it: on_battery and low_battery are not computed and the power-save
    policy is not applied.  Startup succeeds exactly when both steps
    succeed. *)
Theorem startup_result (env : Env) (st : State) :
  let registered := dkp_daemon_register_power_daemon env st in
  let coldplugged := dkp_backend_coldplug env (fst registered) in
  (dbus_g_bus_get env = None ->
     dkp_daemon_startup env st = (log (free_error (dbus_g_bus_get_error env)) st, false)) /\
  (snd registered = true -> snd coldplugged = false ->
     dkp_daemon_startup env st = (fst coldplugged, false)) /\
  (snd (dkp_daemon_startup env st) = true <->
     snd registered = true /\ snd coldplugged = true).
Proof.
  unfold dkp_daemon_startup. cbv zeta.
  destruct (dkp_daemon_register_power_daemon env st) as [st1 ret1] eqn:Hreg.
  cbn [fst snd].
  destruct (dkp_backend_coldplug env st1) as [st2 ret2] eqn:Hcold.
  cbn [fst snd].
  split; [|split].
  - intros Hbus. unfold dkp_daemon_register_power_daemon in Hreg.
    rewrite Hbus in Hreg. injection Hreg as <- <-. reflexivity.
  - intros -> ->. reflexivity.
  - destruct ret1; cbn [negb snd]; [|split; [discriminate|intros [? _]; discriminate]].
    destruct ret2; cbn [negb snd]; [split; auto|].
    split; [discriminate|intros [_ ?]; discriminate].
Qed.

Lemma startup_result_witness :
  dkp_daemon_startup env_coldplug_fails state_example =
  (fst (dkp_backend_coldplug env_coldplug_fails
          (fst (dkp_daemon_register_power_daemon env_coldplug_fails state_example))), false).
Proof.
  apply (proj1 (proj2 (startup_result env_coldplug_fails state_example))); reflexivity.
Defined.

(** ** Aggregates *)

Section Aggregates.

Lemma get_on_battery_loop_true (array : list DkpDevice) :
  get_on_battery_loop array = true <->
  exists d, d ∈ array /\ dkp_device_get_on_battery d = Some true.
Proof.
  induction array as [|device rest IH]; cbn [get_on_battery_loop].
  - split; [discriminate|]. intros (d & Hd & _). apply elem_of_nil in Hd. contradiction.
  - destruct (dkp_device_get_on_battery device) as [[|]|] eqn:Hq.
    + split; [|reflexivity]. intros _. exists device. split; [left|exact Hq].
    + rewrite IH. split; intros (d & Hd & Ht).
      * exists d. split; [right; exact Hd|exact Ht].
      * apply elem_of_cons in Hd as [->|Hd]; [congruence|]. exists d. split; assumption.
    + rewrite IH. split; intros (d & Hd & Ht).
      * exists d. split; [right; exact Hd|exact Ht].
      * apply elem_of_cons in Hd as [->|Hd]; [congruence|]. exists d. split; assumption.
Qed.

Lemma get_on_ac_loop_true (array : list DkpDevice) :
  get_on_ac_loop array = true <->
  exists d, d ∈ array /\ dkp_device_get_online d = Some true.
Proof.
  induction array as [|device rest IH]; cbn [get_on_ac_loop].
  - split; [discriminate|]. intros (d & Hd & _). apply elem_of_nil in Hd. contradiction.
  - destruct (dkp_device_get_online device) as [[|]|] eqn:Hq.
    + split; [|reflexivity]. intros _. exists device. split; [left|exact Hq].
    + rewrite IH. split; intros (d & Hd & Ht).
      * exists d. split; [right; exact Hd|exact Ht].
      * apply elem_of_cons in Hd as [->|Hd]; [congruence|]. exists d. split; assumption.
    + rewrite IH. split; intros (d & Hd & Ht).
      * exists d. split; [right; exact Hd|exact Ht].
      * apply elem_of_cons in Hd as [->|Hd]; [congruence|]. exists d. split; assumption.
Qed.

Lemma get_low_battery_loop_true (array : list DkpDevice) :
  get_low_battery_loop array = true <->
  forall d, d ∈ array -> dkp_device_get_low_battery d <> Some false.
Proof.
  induction array as [|device rest IH]; cbn [get_low_battery_loop].
  - split; [|reflexivity]. intros _ d Hd. apply elem_of_nil in Hd. contradiction.
  - destruct (dkp_device_get_low_battery device) as [[|]|] eqn:Hq.
    + rewrite IH. split; intros H d Hd.
      * apply elem_of_cons in Hd as [->|Hd]; [congruence|]. apply H, Hd.
      * apply H. right. exact Hd.
    + split; [discriminate|]. intros H. exfalso. apply (H device); [left|exact Hq].
    + rewrite IH. split; intros H d Hd.
      * apply elem_of_cons in Hd as [->|Hd]; [congruence|]. apply H, Hd.
      * apply H. right. exact Hd.
Qed.

(** Under the device contract an answer can only come from a device of
    the right type. *)
Lemma contract_on_battery (d : DkpDevice) (b : bool) :
  device_contract d -> dkp_device_get_on_battery d = Some b -> is_battery d.
Proof.
  intros [Hb _] Hq. unfold is_battery.
  destruct (decide (dev_type d = DKP_DEVICE_TYPE_BATTERY)) as [|Hne]; [assumption|].
  destruct (Hb Hne) as [Hn _]. congruence.
Qed.

Lemma contract_online (d : DkpDevice) (b : bool) :
  device_contract d -> dkp_device_get_online d = Some b -> is_line_power d.
Proof.
  intros [_ Hl] Hq. unfold is_line_power.
  destruct (decide (dev_type d = DKP_DEVICE_TYPE_LINE_POWER)) as [|Hne]; [assumption|].
  rewrite (Hl Hne) in Hq. discriminate.
Qed.

Lemma contract_low_battery (d : DkpDevice) (b : bool) :
  device_contract d -> dkp_device_get_low_battery d = Some b -> is_battery d.
Proof.
  intros [Hb _] Hq. unfold is_battery.
  destruct (decide (dev_type d = DKP_DEVICE_TYPE_BATTERY)) as [|Hne]; [assumption|].
  destruct (Hb Hne) as [_ Hn]. congruence.
Qed.

(** The device array only depends on the list and on the store. *)
Lemma array_ext (s s' : State) :
  objects s = objects s' -> power_devices (priv s) = power_devices (priv s') ->
  dkp_device_list_get_array s = dkp_device_list_get_array s'.
Proof. unfold dkp_device_list_get_array. intros -> ->. reflexivity. Qed.

Variable env : Env.

Lemma check_aggregates_array (st : State) :
  dkp_device_list_get_array (check_aggregates_changed env st) = dkp_device_list_get_array st.
Proof.
  unfold check_aggregates_changed. cbv zeta.
  destruct (negb (Bool.eqb _ (on_battery (priv st))));
    match goal with |- context [if ?c then _ else _] => destruct c end;
    reflexivity.
Qed.

(** After the check the stored flags are the aggregates of the devices. *)
Lemma check_aggregates_stored (st : State) :
  let st' := check_aggregates_changed env st in
  on_battery (priv st') = on_battery_aggregate st' /\
  low_battery (priv st') = dkp_daemon_get_low_battery_local st'.
Proof.
  cbv zeta.
  unfold on_battery_aggregate, dkp_daemon_get_on_battery_local, dkp_daemon_get_on_ac_local,
    dkp_daemon_get_low_battery_local.
  rewrite check_aggregates_array.
  unfold check_aggregates_changed. cbv zeta.
  unfold dkp_daemon_get_on_battery_local, dkp_daemon_get_on_ac_local,
    dkp_daemon_get_low_battery_local.
  set (agg := get_on_battery_loop _ && negb (get_on_ac_loop _)).
  destruct (Bool.eqb agg (on_battery (priv st))) eqn:Hon; cbn [negb].
  - apply Bool.eqb_prop in Hon.
    destruct (Bool.eqb _ (low_battery (priv st))) eqn:Hlow; cbn [negb].
    + apply Bool.eqb_prop in Hlow. split; congruence.
    + split; [symmetry; exact Hon|reflexivity].
  - match goal with |- context [if ?c then _ else _] => destruct c eqn:Hlow end.
    + split; reflexivity.
    + apply Bool.negb_false_iff, Bool.eqb_prop in Hlow. split; [reflexivity|].
      symmetry. exact Hlow.
Qed.

Lemma recomputed_stored (st st' : State) :
  recomputed env st st' ->
  on_battery (priv st') = on_battery_aggregate st'.
Proof.
  intros [(native & ptr & emit_signal & [d Hd] & ->) | Hstart].
  - unfold dkp_daemon_device_changed_cb. rewrite Hd. cbv zeta.
    apply check_aggregates_stored.
  - unfold dkp_daemon_startup in Hstart.
    destruct (dkp_daemon_register_power_daemon env st) as [st1 [|]];
      cbn [negb] in Hstart; [|discriminate].
    destruct (dkp_backend_coldplug env st1) as [st2 [|]];
      cbn [negb] in Hstart; [|discriminate].
    injection Hstart as <-. reflexivity.
Qed.

End Aggregates.

(** C3: after a device change or a successful startup, for a device list
    whose devices keep the device contract: when the list holds a battery,
    the stored on_battery is true iff some battery answers that it is
    discharging and no line-power device answers that it is online; when
    the list holds no battery, the stored on_battery is false, whatever
    the line power says. *)
Theorem on_battery_stored (env : Env) (st st' : State) :
  recomputed env st st' ->
  Forall device_contract (dkp_device_list_get_array st') ->
  let array := dkp_device_list_get_array st' in
  ((exists d, d ∈ array /\ is_battery d) ->
   (on_battery (priv st') = true <->
    (exists d, d ∈ array /\ is_battery d /\ dkp_device_get_on_battery d = Some true) /\
    ~ (exists d, d ∈ array /\ is_line_power d /\ dkp_device_get_online d = Some true))) /\
  ((forall d, d ∈ array -> ~ is_battery d) -> on_battery (priv st') = false).
Proof.
  intros Hrec Hcontract array.
  rewrite (recomputed_stored env st st' Hrec).
  unfold on_battery_aggregate, dkp_daemon_get_on_battery_local, dkp_daemon_get_on_ac_local.
  fold array. rewrite Forall_forall in Hcontract. fold array in Hcontract.
  split.
  - intros _. rewrite andb_true_iff, negb_true_iff, get_on_battery_loop_true.
    rewrite <- not_true_iff_false, get_on_ac_loop_true.
    split; intros [(d & Hd & Hq) Hac]; split.
    + exists d. repeat split; try assumption.
      apply (contract_on_battery d true); [apply Hcontract|]; assumption.
    + intros (a & Ha & _ & Hon). apply Hac. exists a. split; assumption.
    + destruct Hq as [_ Hq]. exists d. split; assumption.
    + intros (a & Ha & Hon). apply Hac. exists a. repeat split; try assumption.
      apply (contract_online a true); [apply Hcontract|]; assumption.
  - intros Hnone. apply andb_false_intro1. apply not_true_iff_false.
    rewrite get_on_battery_loop_true. intros (d & Hd & Hq).
    apply (Hnone d Hd). apply (contract_on_battery d true); [apply Hcontract|]; assumption.
Qed.

Lemma device_contract_battery_example : device_contract battery_example.
Proof. split; intros H; [exfalso; apply H|]; reflexivity. Defined.

Lemma device_contract_line_power_example : device_contract line_power_example.
Proof. split; intros H; [split|exfalso; apply H]; reflexivity. Defined.

Lemma on_battery_stored_witness :
  let st' := dkp_daemon_device_changed_cb env_example state_two_devices
               (Some 0%nat) (Some 1%nat) true in
  let array := dkp_device_list_get_array st' in
  ((exists d, d ∈ array /\ is_battery d) ->
   (on_battery (priv st') = true <->
    (exists d, d ∈ array /\ is_battery d /\ dkp_device_get_on_battery d = Some true) /\
    ~ (exists d, d ∈ array /\ is_line_power d /\ dkp_device_get_online d = Some true))) /\
  ((forall d, d ∈ array -> ~ is_battery d) -> on_battery (priv st') = false).
Proof.
  apply (on_battery_stored env_example state_two_devices).
  - left. exists 0%nat, 1%nat, true. split; [|reflexivity].
    exists battery_example. reflexivity.
  - apply Forall_cons. split; [exact device_contract_battery_example|].
    apply Forall_cons. split; [exact device_contract_line_power_example|].
    apply Forall_nil_2.
Defined.

(** C4: for a device list whose devices keep the device contract,
    dkp_daemon_get_low_battery_local is true iff every battery whose
    low-battery query succeeds answers low; a query that fails counts for
    nothing, so a list without batteries, or one where no query succeeds,
    gives true. *)
Theorem low_battery_aggregate (st : State) :
  Forall device_contract (dkp_device_list_get_array st) ->
  let array := dkp_device_list_get_array st in
  (dkp_daemon_get_low_battery_local st = true <->
   forall d, d ∈ array -> is_battery d ->
             forall low, dkp_device_get_low_battery d = Some low -> low = true) /\
  ((forall d, d ∈ array -> ~ is_battery d) -> dkp_daemon_get_low_battery_local st = true) /\
  ((forall d, d ∈ array -> dkp_device_get_low_battery d = None) ->
   dkp_daemon_get_low_battery_local st = true).
Proof.
  intros Hcontract array. unfold dkp_daemon_get_low_battery_local. fold array.
  rewrite Forall_forall in Hcontract. fold array in Hcontract.
  rewrite get_low_battery_loop_true.
  split; [split|split].
  - intros H d Hd _ low Hq. destruct low; [reflexivity|]. exfalso. exact (H d Hd Hq).
  - intros H d Hd Hq.
    assert (Hb : is_battery d)
      by (apply (contract_low_battery d false); [apply Hcontract|]; assumption).
    specialize (H d Hd Hb false Hq). discriminate.
  - intros Hnone d Hd Hq. apply (Hnone d Hd).
    apply (contract_low_battery d false); [apply Hcontract|]; assumption.
  - intros Hnone d Hd Hq. rewrite (Hnone d Hd) in Hq. discriminate.
Qed.

Lemma low_battery_aggregate_witness :
  let array := dkp_device_list_get_array state_two_devices in
  (dkp_daemon_get_low_battery_local state_two_devices = true <->
   forall d, d ∈ array -> is_battery d ->
             forall low, dkp_device_get_low_battery d = Some low -> low = true) /\
  ((forall d, d ∈ array -> ~ is_battery d) ->
   dkp_daemon_get_low_battery_local state_two_devices = true) /\
  ((forall d, d ∈ array -> dkp_device_get_low_battery d = None) ->
   dkp_daemon_get_low_battery_local state_two_devices = true).
Proof.
  apply (low_battery_aggregate state_two_devices).
  apply Forall_cons. split; [exact device_contract_battery_example|].
  apply Forall_cons. split; [exact device_contract_line_power_example|].
  apply Forall_nil_2.
Defined.

(** ** Removal of devices *)

Section Removal.

Lemma list_remove_absent (l : list DevicePtr) (device : DevicePtr) :
  device ∉ l -> dkp_device_list_remove l device = l.
Proof.
  induction l as [|ptr l IH]; intros Hnot; [reflexivity|].
  cbn [dkp_device_list_remove]. apply not_elem_of_cons in Hnot as [Hne Hnot].
  destruct (decide (ptr = device)); [congruence|]. rewrite IH; [reflexivity|assumption].
Qed.

Lemma filter_others_absent (l : list DevicePtr) (device : DevicePtr) :
  device ∉ l -> filter (fun ptr => ptr <> device) l = l.
Proof.
  induction l as [|ptr l IH]; intros Hnot; [reflexivity|].
  apply not_elem_of_cons in Hnot as [Hne Hnot].
  rewrite filter_cons_True by congruence. rewrite IH; [reflexivity|assumption].
Qed.

(** In a list without repetition, removing a device is keeping all the
    others. *)
Lemma list_remove_filter (l : list DevicePtr) (device : DevicePtr) :
  NoDup l -> dkp_device_list_remove l device = filter (fun ptr => ptr <> device) l.
Proof.
  induction 1 as [|ptr l Hnotin Hnodup IH]; [reflexivity|].
  cbn [dkp_device_list_remove]. destruct (decide (ptr = device)) as [->|Hne].
  - rewrite filter_cons_False by (intros H; apply H; reflexivity).
    symmetry. apply filter_others_absent. assumption.
  - rewrite filter_cons_True by assumption. rewrite IH. reflexivity.
Qed.

Lemma list_remove_gone (l : list DevicePtr) (device : DevicePtr) :
  NoDup l -> device ∉ dkp_device_list_remove l device.
Proof.
  intros Hnodup. rewrite list_remove_filter by assumption.
  intros Hin. apply list_elem_of_filter in Hin as [Hne _]. apply Hne. reflexivity.
Qed.

(** The notifies of a finalised device: the first one removes it from the
    list, the others find nothing to remove. *)
Lemma went_away_iter_devices (n : nat) (device : DevicePtr) (st : State) :
  NoDup (power_devices (priv st)) ->
  power_devices
    (priv (Nat.iter (S n) (fun s => dkp_daemon_device_went_away_cb s device) st))
  = dkp_device_list_remove (power_devices (priv st)) device.
Proof.
  intros Hnodup. induction n as [|n IH]; [reflexivity|].
  change (Nat.iter (S (S n)) ?f ?x) with (f (Nat.iter (S n) f x)).
  cbn [dkp_daemon_device_went_away_cb with_priv priv set_power_devices power_devices].
  rewrite IH. apply list_remove_absent. apply list_remove_gone. exact Hnodup.
Qed.

Lemma omap_lookup_delete (m : gmap DevicePtr DkpDevice) (device : DevicePtr)
    (l : list DevicePtr) :
  device ∉ l -> omap (fun ptr => delete device m !! ptr) l = omap (fun ptr => m !! ptr) l.
Proof.
  induction l as [|ptr l IH]; intros Hnot; [reflexivity|].
  apply not_elem_of_cons in Hnot as [Hne Hnot].
  cbn [omap list_omap]. rewrite lookup_delete_ne by congruence.
  rewrite IH by assumption. reflexivity.
Qed.

(** Giving up the last reference of a device that the daemon watches:
    nothing is emitted, the object is gone and so is its entry. *)
Lemma unref_last (st : State) (device : DevicePtr) (d : DkpDevice) :
  objects st !! device = Some d -> NoDup (power_devices (priv st)) ->
  (dev_ref_count d <= 1)%nat -> (0 < dev_weak_refs d)%nat ->
  let st' := g_object_unref st device in
  trace st' = trace st /\ objects st' = delete device (objects st) /\
  power_devices (priv st') = filter (fun ptr => ptr <> device) (power_devices (priv st)).
Proof.
  intros Hd Hnodup Hcount Hweak. cbv zeta. unfold g_object_unref. rewrite Hd.
  destruct (Nat.leb_spec (dev_ref_count d) 1) as [_|]; [|lia].
  destruct (dev_weak_refs d) as [|n]; [lia|].
  cbn [with_objects trace objects priv].
  rewrite went_away_iter_trace, went_away_iter_objects, went_away_iter_devices by assumption.
  rewrite list_remove_filter by assumption. repeat split.
Qed.

Lemma unref_shared (st : State) (device : DevicePtr) (d : DkpDevice) :
  objects st !! device = Some d -> (1 < dev_ref_count d)%nat ->
  g_object_unref st device =
  with_objects (insert device (set_ref_count (dev_ref_count d - 1) d)) st.
Proof.
  intros Hd Hcount. unfold g_object_unref. rewrite Hd.
  destruct (Nat.leb_spec (dev_ref_count d) 1); [lia|reflexivity].
Qed.

(** A device that is added and then released by its owner, with no remove
    event in between. *)
Lemma added_then_released (st : State) (native : Native) (device : DevicePtr)
    (d : DkpDevice) (emit_signal : bool) :
  objects st !! device = Some d -> NoDup (power_devices (priv st)) ->
  device ∉ power_devices (priv st) -> (dev_ref_count d <= 1)%nat ->
  let st1 := dkp_daemon_device_added_cb st (Some native) (Some device) emit_signal in
  let st2 := g_object_unref st1 device in
  device ∈ power_devices (priv st1) /\
  power_devices (priv st2) = power_devices (priv st) /\
  objects st2 !! device = None /\
  count is_device_removed_signal (trace st2) = count is_device_removed_signal (trace st).
Proof.
  intros Hd Hnodup Hnot Hcount. cbv zeta.
  unfold dkp_daemon_device_added_cb. rewrite Hd.
  set (st1 := if emit_signal then _ else _).
  assert (Hdev1 : power_devices (priv st1) = power_devices (priv st) ++ [device])
    by (unfold st1; destruct emit_signal; reflexivity).
  assert (Hobj1 : objects st1 !! device = Some (set_weak_refs (S (dev_weak_refs d)) d)).
  { unfold st1; destruct emit_signal; cbn [log with_priv g_object_weak_ref with_objects objects];
      rewrite lookup_alter_eq, Hd; reflexivity. }
  assert (Htrace1 : count is_device_removed_signal (trace st1)
                    = count is_device_removed_signal (trace st)).
  { unfold st1, count; destruct emit_signal; cbn [log with_priv g_object_weak_ref with_objects trace];
      [|reflexivity]. rewrite List.filter_app, length_app. cbn. lia. }
  assert (Hnodup1 : NoDup (power_devices (priv st1))).
  { rewrite Hdev1. apply NoDup_app. split; [exact Hnodup|]. split; [|apply NoDup_singleton].
    intros p Hp Hp'. apply list_elem_of_singleton in Hp'. subst p. contradiction. }
  destruct (unref_last st1 device _ Hobj1 Hnodup1) as (Ht & Ho & Hl);
    [exact Hcount | cbn; lia |].
  split; [rewrite Hdev1; apply elem_of_app; right; left|].
  split; [|split].
  - rewrite Hl, Hdev1, filter_app, filter_others_absent by exact Hnot.
    rewrite filter_cons_False by (intros H; apply H; reflexivity).
    rewrite filter_nil. apply app_nil_r.
  - rewrite Ho. apply lookup_delete_eq.
  - rewrite Ht. exact Htrace1.
Qed.

End Removal.

(** C8, as stated, fails: an explicit remove event for a device that
    something else still holds a reference to emits device-removed, but
    the device stays in the list and EnumerateDevices() goes on listing
    it. *)
Lemma explicit_remove_keeps_shared_device :
  let st' := dkp_daemon_device_removed_cb state_shared_device (Some 0%nat) (Some 2%nat) in
  trace st' = [SignalEmit DEVICE_REMOVED_SIGNAL (Some (dev_object_path line_power_example))] /\
  power_devices (priv st') = [2%nat] /\
  trace (fst (dkp_daemon_enumerate_devices st' 7%nat)) =
    trace st' ++ [MethodReturn 7%nat (Some [dev_object_path line_power_example])].
Proof. vm_compute. repeat split. Qed.

(** C8 (amended): an explicit remove event marks the device as removed,
    emits exactly one device-removed notification that carries its object
    path and gives up one reference; the callback does not take the device
    out of the list itself.  The device leaves the list only through the
    weak-reference notify, which runs when the last reference is given up,
    by that callback or by the owner; that path emits nothing, and
    afterwards EnumerateDevices() lists the other devices only.  While some
    other reference is left, the explicitly removed device stays in the
    list, marked as removed. *)
Theorem removal_paths (st : State) (native : Native) (device : DevicePtr) (d : DkpDevice) :
  objects st !! device = Some d ->
  NoDup (power_devices (priv st)) ->
  let others := filter (fun ptr => ptr <> device) (power_devices (priv st)) in
  (let st' := dkp_daemon_device_removed_cb st (Some native) (Some device) in
   trace st' = trace st ++ [SignalEmit DEVICE_REMOVED_SIGNAL (Some (dev_object_path d))] /\
   count is_device_removed_signal (trace st') =
     S (count is_device_removed_signal (trace st)) /\
   ((1 < dev_ref_count d)%nat ->
      power_devices (priv st') = power_devices (priv st) /\
      objects st' !! device =
        Some (set_ref_count (dev_ref_count d - 1) (dkp_device_removed d))) /\
   ((dev_ref_count d <= 1)%nat -> (0 < dev_weak_refs d)%nat ->
      power_devices (priv st') = others /\ objects st' !! device = None)) /\
  (let st' := dkp_daemon_device_went_away_cb st device in
   trace st' = trace st /\ power_devices (priv st') = others /\
   device ∉ power_devices (priv st')) /\
  ((dev_ref_count d <= 1)%nat -> (0 < dev_weak_refs d)%nat ->
   let st' := g_object_unref st device in
   trace st' = trace st /\ power_devices (priv st') = others /\
   objects st' !! device = None /\
   forall context,
     trace (fst (dkp_daemon_enumerate_devices st' context)) =
     trace st ++ [MethodReturn context
                    (Some (map dev_object_path (omap (fun ptr => objects st !! ptr) others)))]) /\
  (device ∉ power_devices (priv st) -> (dev_ref_count d <= 1)%nat ->
   forall emit_signal,
     let st1 := dkp_daemon_device_added_cb st (Some native) (Some device) emit_signal in
     let st2 := g_object_unref st1 device in
     device ∈ power_devices (priv st1) /\
     power_devices (priv st2) = power_devices (priv st) /\
     objects st2 !! device = None /\
     count is_device_removed_signal (trace st2) = count is_device_removed_signal (trace st)).
Proof.
  intros Hd Hnodup others.
  assert (Hothers : device ∉ others).
  { intros Hin. apply list_elem_of_filter in Hin as [Hne _]. apply Hne. reflexivity. }
  split; [|split; [|split]];
    [| | |intros Hnot Hcount emit_signal;
         apply (added_then_released st native device d); assumption].
  - cbv zeta. unfold dkp_daemon_device_removed_cb. rewrite Hd.
    set (st2 := log _ (with_objects _ st)).
    assert (Hd2 : objects st2 !! device = Some (dkp_device_removed d))
      by apply lookup_insert_eq.
    split; [|split; [|split]].
    + unfold g_object_unref. rewrite Hd2.
      destruct (dev_ref_count (dkp_device_removed d) <=? 1)%nat; cbn [with_objects trace];
        [rewrite went_away_iter_trace|]; reflexivity.
    + unfold g_object_unref. rewrite Hd2.
      destruct (dev_ref_count (dkp_device_removed d) <=? 1)%nat; cbn [with_objects trace];
        [rewrite went_away_iter_trace|]; cbn [st2 log trace]; unfold count;
        rewrite List.filter_app, length_app; cbn; lia.
    + intros Hcount. rewrite (unref_shared st2 device _ Hd2) by exact Hcount.
      split; [reflexivity|]. cbn [with_objects objects]. apply lookup_insert_eq.
    + intros Hcount Hweak.
      destruct (unref_last st2 device _ Hd2 Hnodup Hcount Hweak) as (_ & Hobj & Hdev).
      split; [exact Hdev|]. rewrite Hobj. apply lookup_delete_eq.
  - cbv zeta. cbn [dkp_daemon_device_went_away_cb with_priv trace priv set_power_devices
                   power_devices].
    split; [reflexivity|]. rewrite list_remove_filter by assumption.
    split; [reflexivity|exact Hothers].
  - intros Hcount Hweak. cbv zeta.
    destruct (unref_last st device d Hd Hnodup Hcount Hweak) as (Htrace & Hobj & Hdev).
    split; [exact Htrace|]. split; [exact Hdev|].
    split; [rewrite Hobj; apply lookup_delete_eq|].
    intros context. unfold dkp_daemon_enumerate_devices, dkp_device_list_get_array.
    cbn [fst log trace]. rewrite Htrace, Hobj, Hdev.
    rewrite omap_lookup_delete by exact Hothers. reflexivity.
Qed.

Lemma removal_paths_witness :
  let st' := g_object_unref state_two_devices 1%nat in
  trace st' = trace state_two_devices /\ power_devices (priv st') = [2%nat] /\
  objects st' !! 1%nat = None.
Proof.
  assert (Hnodup : NoDup (power_devices (priv state_two_devices))).
  { cbn. apply NoDup_cons_2; [|apply NoDup_singleton].
    intros H. apply list_elem_of_singleton in H. discriminate. }
  destruct (proj1 (proj2 (proj2 (removal_paths state_two_devices 0%nat 1%nat battery_example
                                   eq_refl Hnodup))) (le_n 1) (le_n 1))
    as (Ht & Hd & Ho & _).
  split; [exact Ht|]. split; [exact Hd|exact Ho].
Defined.

(** ** The delayed refresh *)

Section Timeouts.

Variable env : Env.

Lemma check_aggregates_timeouts (st : State) :
  timeouts (check_aggregates_changed env st) = timeouts st.
Proof.
  unfold check_aggregates_changed. cbv zeta.
  destruct (negb (Bool.eqb _ (on_battery (priv st))));
    match goal with |- context [if ?c then _ else _] => destruct c end;
    reflexivity.
Qed.

(** The callback always returns FALSE, so a dispatched source is never
    put back. *)
Lemma dispatch_ready_timeouts (now : nat) (ready : list Timeout) : forall s : State,
  timeouts
    (fold_left
       (fun s t =>
          let '(s1, again) := dkp_daemon_refresh_battery_devices_cb env s in
          if again
          then with_timeouts (fun l => l ++ [mkTimeout (now + interval t) (interval t)]) s1
          else s1)
       ready s) = timeouts s.
Proof.
  induction ready as [|t ready IH]; intros s; [reflexivity|].
  cbn [fold_left]. rewrite IH.
  unfold dkp_daemon_refresh_battery_devices_cb. apply refresh_timeouts.
Qed.

Lemma dispatch_timeouts (st : State) (now : nat) :
  timeouts (main_loop_dispatch env st now)
  = filter (fun t => ~ (due t <= now)%nat) (timeouts st).
Proof. unfold main_loop_dispatch. rewrite dispatch_ready_timeouts. reflexivity. Qed.

End Timeouts.

(** C9, as stated, fails: the adapter changes at second 0 and again at
    second 1; after the second change two refresh timers are pending, due
    at seconds 3 and 4. *)
Lemma two_changes_two_timers :
  let change st :=
    dkp_daemon_device_changed_cb env_example st (Some 0%nat) (Some 2%nat) true in
  let st1 := change state_two_devices in
  let st2 := change (main_loop_dispatch env_example st1 1) in
  timeouts st1 = [mkTimeout 3 3] /\
  clock st2 = 1%nat /\
  timeouts st2 = [mkTimeout 3 3; mkTimeout 4 3] /\
  ~ (length (timeouts st2) <= 1)%nat.
Proof.
  cbv zeta. split; [vm_compute; reflexivity|]. split; [vm_compute; reflexivity|].
  split; [vm_compute; reflexivity|]. vm_compute. lia.
Qed.

(** C9 (amended): every change of a device that is line power after the
    change adds one refresh timer, due 3 seconds later, to the timers that
    are already pending, none of which is cancelled; a change of any other
    device adds none.  A timer goes away only when the main loop
    dispatches it, which happens once; so the changes processed inside one
    window of 3 seconds each leave their own timer pending. *)
Theorem line_power_change_adds_timer
    (env : Env) (st : State) (native : Native) (device : DevicePtr) (d : DkpDevice)
    (emit_signal : bool) :
  objects st !! device = Some d ->
  let st' := dkp_daemon_device_changed_cb env st (Some native) (Some device) emit_signal in
  (is_line_power (dkp_device_changed env d native emit_signal) ->
     timeouts st' = timeouts st ++ [mkTimeout (clock st + 3) 3] /\
     length (timeouts st') = S (length (timeouts st))) /\
  (~ is_line_power (dkp_device_changed env d native emit_signal) ->
     timeouts st' = timeouts st) /\
  (forall now,
     timeouts (main_loop_dispatch env st now)
     = filter (fun t => ~ (due t <= now)%nat) (timeouts st)).
Proof.
  intros Hd. cbv zeta. unfold dkp_daemon_device_changed_cb. rewrite Hd. cbv zeta.
  rewrite check_aggregates_timeouts. unfold is_line_power.
  split; [|split].
  - intros Hline. destruct (decide _) as [_|Hne]; [|contradiction].
    unfold g_timeout_add_seconds. cbn [log with_timeouts timeouts].
    rewrite refresh_timeouts, refresh_clock. cbn [with_objects timeouts clock].
    split; [reflexivity|]. rewrite length_app. cbn. lia.
  - intros Hother. destruct (decide _) as [Hline|_]; [contradiction|]. reflexivity.
  - intros now. apply dispatch_timeouts.
Qed.

Lemma line_power_change_adds_timer_witness :
  let st' := dkp_daemon_device_changed_cb env_example state_two_devices
               (Some 0%nat) (Some 2%nat) true in
  timeouts st' = timeouts state_two_devices ++ [mkTimeout (clock state_two_devices + 3) 3] /\
  length (timeouts st') = S (length (timeouts state_two_devices)).
Proof.
  apply (proj1 (line_power_change_adds_timer env_example state_two_devices 0%nat 2%nat
                  line_power_example true eq_refl)).
  reflexivity.
Defined.

(** * Further properties of the daemon *)

(** ** Power transitions, past the gate *)

Section Transitions.

Variable env : Env.

Lemma log_log (a b : list Action) (st : State) : log a (log b st) = log (b ++ a) st.
Proof. unfold log. cbn. rewrite <- app_assoc. reflexivity. Qed.

Lemma log_nil (st : State) : log [] st = st.
Proof. destruct st. unfold log. cbn. rewrite app_nil_r. reflexivity. Qed.

Lemma new_actions_log (acts : list Action) (st : State) :
  new_actions st (log acts st) = acts.
Proof. unfold new_actions, log. cbn. apply drop_app_length. Qed.

(** The three ways the shared tail of the two requests can go. *)
Lemma authorize_and_spawn_cases (st : State) (context : Context) (action_id command : string) :
  let r := g_spawn_command_line_sync env command in
  authorize_and_spawn env st context action_id command =
  (log
     match dkp_polkit_get_subject env context with
     | None => [PolkitGetSubject context]
     | Some subject =>
         if dkp_polkit_check_auth env subject action_id context then
           [PolkitGetSubject context; PolkitCheckAuth subject action_id context;
            SpawnSync command] ++
           match spawn_error r with
           | Some message =>
               [GErrorFree (Some message);
                MethodReturnError context DKP_DAEMON_ERROR_GENERAL
                  ("Failed to spawn: " +:+ message +:+ ", stdout:"
                     +:+ printf_s (spawn_stdout r) +:+ ", stderr:"
                     +:+ printf_s (spawn_stderr r))]
           | None => [MethodReturn context None]
           end
         else [PolkitGetSubject context; PolkitCheckAuth subject action_id context]
     end st, true).
Proof.
  cbv zeta. unfold authorize_and_spawn.
  destruct (dkp_polkit_get_subject env context) as [subject|]; [|reflexivity].
  destruct (dkp_polkit_check_auth env subject action_id context); cbn [negb];
    [|rewrite log_log; reflexivity].
  destruct (spawn_error _); rewrite !log_log; reflexivity.
Qed.

Lemma authorize_and_spawn_spawns (st : State) (context : Context)
    (action_id command c : string) :
  SpawnSync c ∈ new_actions st (fst (authorize_and_spawn env st context action_id command))
  <-> c = command /\
      exists subject,
        dkp_polkit_get_subject env context = Some subject /\
        dkp_polkit_check_auth env subject action_id context = true.
Proof.
  rewrite authorize_and_spawn_cases. cbn [fst]. rewrite new_actions_log.
  destruct (dkp_polkit_get_subject env context) as [subject|].
  - destruct (dkp_polkit_check_auth env subject action_id context) eqn:Hauth.
    + split.
      * intros Hin. cbn [app] in Hin. rewrite !elem_of_cons in Hin.
        destruct Hin as [Hin|[Hin|[Hin|Hin]]]; try discriminate Hin.
        -- injection Hin as ->. split; [reflexivity|]. exists subject. split; [reflexivity|exact Hauth].
        -- destruct (spawn_error _); rewrite ?elem_of_cons, elem_of_nil in Hin;
             repeat destruct Hin as [Hin|Hin]; try discriminate Hin; contradiction.
      * intros [-> _]. cbn [app]. rewrite !elem_of_cons. right. right. left. reflexivity.
    + split.
      * intros Hin. rewrite !elem_of_cons, elem_of_nil in Hin.
        destruct Hin as [Hin|[Hin|Hin]]; try discriminate Hin; contradiction.
      * intros [_ (subject' & [= <-] & Hauth')]. congruence.
  - split.
    + intros Hin. rewrite elem_of_cons, elem_of_nil in Hin.
      destruct Hin as [Hin|Hin]; [discriminate Hin|contradiction].
    + intros [_ (subject' & Hs & _)]. discriminate Hs.
Qed.

(** The only process the shared tail ever starts is the command it was
    given, synchronously and at most once. *)
Lemma authorize_and_spawn_spawn_actions (st : State) (context : Context)
    (action_id command : string) (a : Action) :
  let acts := new_actions st (fst (authorize_and_spawn env st context action_id command)) in
  (a ∈ acts /\ is_spawn a = true <->
   a = SpawnSync command /\
   exists subject,
     dkp_polkit_get_subject env context = Some subject /\
     dkp_polkit_check_auth env subject action_id context = true) /\
  (count is_spawn acts <= 1)%nat.
Proof.
  cbv zeta. rewrite authorize_and_spawn_cases. cbn [fst]. rewrite new_actions_log.
  destruct (dkp_polkit_get_subject env context) as [subject|].
  - destruct (dkp_polkit_check_auth env subject action_id context) eqn:Hauth.
    + split.
      * split.
        -- intros [Hin Hsp]. cbn [app] in Hin. rewrite !elem_of_cons in Hin.
           destruct Hin as [->|[->|[->|Hin]]]; try discriminate Hsp.
           ++ split; [reflexivity|]. exists subject. split; [reflexivity|exact Hauth].
           ++ destruct (spawn_error _); rewrite ?elem_of_cons, elem_of_nil in Hin;
                repeat destruct Hin as [Hin|Hin]; subst; try discriminate Hsp; contradiction.
        -- intros [-> _]. split; [|reflexivity].
           cbn [app]. rewrite !elem_of_cons. right. right. left. reflexivity.
      * destruct (spawn_error _); cbn; lia.
    + split; [|cbn; lia]. split.
      * intros [Hin Hsp]. rewrite !elem_of_cons, elem_of_nil in Hin.
        destruct Hin as [->|[->|Hin]]; try discriminate Hsp; contradiction.
      * intros [_ (subject' & [= <-] & Hauth')]. congruence.
  - split; [|cbn; lia]. split.
    + intros [Hin Hsp]. rewrite elem_of_cons, elem_of_nil in Hin.
      destruct Hin as [->|Hin]; [discriminate Hsp|contradiction].
    + intros [_ (subject' & Hs & _)]. discriminate Hs.
Qed.

Lemma new_actions_log_on (acts : list Action) (st s : State) :
  trace s = trace st -> new_actions st (log acts s) = acts.
Proof. intros H. unfold new_actions, log. cbn. rewrite H. apply drop_app_length. Qed.

Lemma suspend_actions (st : State) (context : Context) :
  dkp_daemon_suspend env st context =
  (log (new_actions st (fst (dkp_daemon_suspend env st context))) st, true).
Proof.
  unfold dkp_daemon_suspend. destruct (negb _).
  - cbn [fst]. rewrite new_actions_log. reflexivity.
  - rewrite authorize_and_spawn_cases. cbn [fst]. rewrite new_actions_log. reflexivity.
Qed.

Lemma hibernate_actions (st : State) (context : Context) :
  dkp_daemon_hibernate env st context =
  (log (new_actions st (fst (dkp_daemon_hibernate env st context))) st, true).
Proof.
  unfold dkp_daemon_hibernate. destruct (negb _); [|destruct (negb _)].
  - cbn [fst]. rewrite new_actions_log. reflexivity.
  - cbn [fst]. rewrite new_actions_log. reflexivity.
  - rewrite authorize_and_spawn_cases. cbn [fst]. rewrite new_actions_log. reflexivity.
Qed.

End Transitions.

(** X1: the only process a request ever starts is its own command, run
    synchronously and at most once: Suspend() starts /usr/sbin/pm-suspend
    and Hibernate() starts /usr/sbin/pm-hibernate, exactly when the request
    passed the capability gate, came with a subject and was authorised by
    polkit for the action of that request.  No request starts any other
    process, synchronously or not. *)
Theorem transition_spawn_iff_authorized (env : Env) (st : State) (context : Context)
    (a : Action) :
  let suspended := new_actions st (fst (dkp_daemon_suspend env st context)) in
  let hibernated := new_actions st (fst (dkp_daemon_hibernate env st context)) in
  (a ∈ suspended /\ is_spawn a = true <->
   a = SpawnSync "/usr/sbin/pm-suspend" /\ kernel_can_suspend (priv st) = true /\
   exists subject,
     dkp_polkit_get_subject env context = Some subject /\
     dkp_polkit_check_auth env subject "org.freedesktop.devicekit.power.suspend" context
     = true) /\
  (a ∈ hibernated /\ is_spawn a = true <->
   a = SpawnSync "/usr/sbin/pm-hibernate" /\
   kernel_can_hibernate (priv st) = true /\ kernel_has_swap_space (priv st) = true /\
   exists subject,
     dkp_polkit_get_subject env context = Some subject /\
     dkp_polkit_check_auth env subject "org.freedesktop.devicekit.power.hibernate" context
     = true) /\
  (count is_spawn suspended <= 1)%nat /\ (count is_spawn hibernated <= 1)%nat.
Proof.
  cbv zeta.
  assert (Hclosed : forall context' message,
             (a ∈ [GErrorFree None;
                   MethodReturnError context' DKP_DAEMON_ERROR_GENERAL message]
              /\ is_spawn a = true) -> False).
  { intros context' message [Hin Hsp]. rewrite !elem_of_cons, elem_of_nil in Hin.
    destruct Hin as [->|[->|Hin]]; try discriminate Hsp; contradiction. }
  split; [|split; [|split]].
  - unfold dkp_daemon_suspend.
    destruct (kernel_can_suspend (priv st)); cbn [negb].
    + rewrite (proj1 (authorize_and_spawn_spawn_actions env st context _ _ a)).
      split; [intros [-> Hs]; repeat split; exact Hs
             |intros (-> & _ & Hs); split; [reflexivity|exact Hs]].
    + cbn [fst]. rewrite new_actions_log.
      split; [intros H; destruct (Hclosed _ _ H)|]. intros (_ & H & _). discriminate H.
  - unfold dkp_daemon_hibernate.
    destruct (kernel_can_hibernate (priv st)); cbn [negb];
      [destruct (kernel_has_swap_space (priv st)); cbn [negb]|].
    + rewrite (proj1 (authorize_and_spawn_spawn_actions env st context _ _ a)).
      split; [intros [-> Hs]; repeat split; exact Hs
             |intros (-> & _ & _ & Hs); split; [reflexivity|exact Hs]].
    + cbn [fst]. rewrite new_actions_log.
      split; [intros H; destruct (Hclosed _ _ H)|]. intros (_ & _ & H & _). discriminate H.
    + cbn [fst]. rewrite new_actions_log.
      split; [intros H; destruct (Hclosed _ _ H)|]. intros (_ & H & _). discriminate H.
  - unfold dkp_daemon_suspend. destruct (negb _).
    + cbn [fst]. rewrite new_actions_log. cbn. lia.
    + apply (authorize_and_spawn_spawn_actions env st context _ _ a).
  - unfold dkp_daemon_hibernate. destruct (negb _); [|destruct (negb _)].
    + cbn [fst]. rewrite new_actions_log. cbn. lia.
    + cbn [fst]. rewrite new_actions_log. cbn. lia.
    + apply (authorize_and_spawn_spawn_actions env st context _ _ a).
Qed.

Section TransitionReplies.

Variable env : Env.

Lemma authorize_and_spawn_replies (st : State) (context : Context)
    (action_id command : string) :
  let acts := new_actions st (fst (authorize_and_spawn env st context action_id command)) in
  count is_reply acts = bool_to_nat (polkit_grants env context action_id) /\
  (forall c code message, MethodReturnError c code message ∈ acts ->
     c = context /\ code = DKP_DAEMON_ERROR_GENERAL /\
     SpawnSync command ∈ acts /\
     exists m, spawn_error (g_spawn_command_line_sync env command) = Some m /\
               GErrorFree (Some m) ∈ acts) /\
  (forall c payload, MethodReturn c payload ∈ acts ->
     c = context /\ payload = None /\ SpawnSync command ∈ acts /\
     spawn_error (g_spawn_command_line_sync env command) = None).
Proof.
  cbv zeta. rewrite authorize_and_spawn_cases. cbn [fst]. rewrite new_actions_log.
  unfold polkit_grants.
  destruct (dkp_polkit_get_subject env context) as [subject|].
  - destruct (dkp_polkit_check_auth env subject action_id context).
    + destruct (spawn_error _) as [m|] eqn:Hm; cbn [app]; (split; [reflexivity|]); split.
      * intros c code message Hin. rewrite !elem_of_cons, elem_of_nil in Hin.
        repeat destruct Hin as [Hin|Hin]; try discriminate Hin; [|contradiction].
        injection Hin as -> -> _. split; [reflexivity|]. split; [reflexivity|].
        split; [rewrite !elem_of_cons; auto|]. exists m. split; [reflexivity|].
        rewrite !elem_of_cons; auto 6.
      * intros c payload Hin. rewrite !elem_of_cons, elem_of_nil in Hin.
        repeat destruct Hin as [Hin|Hin]; try discriminate Hin; contradiction.
      * intros c code message Hin. rewrite !elem_of_cons, elem_of_nil in Hin.
        repeat destruct Hin as [Hin|Hin]; try discriminate Hin; contradiction.
      * intros c payload Hin. rewrite !elem_of_cons, elem_of_nil in Hin.
        repeat destruct Hin as [Hin|Hin]; try discriminate Hin; [|contradiction].
        injection Hin as -> ->. split; [reflexivity|]. split; [reflexivity|].
        split; [rewrite !elem_of_cons; auto|reflexivity].
    + split; [reflexivity|]. split.
      * intros c code message Hin. rewrite !elem_of_cons, elem_of_nil in Hin.
        repeat destruct Hin as [Hin|Hin]; try discriminate Hin; contradiction.
      * intros c payload Hin. rewrite !elem_of_cons, elem_of_nil in Hin.
        repeat destruct Hin as [Hin|Hin]; try discriminate Hin; contradiction.
  - split; [reflexivity|]. split.
    + intros c code message Hin. rewrite !elem_of_cons, elem_of_nil in Hin.
      repeat destruct Hin as [Hin|Hin]; try discriminate Hin; contradiction.
    + intros c payload Hin. rewrite !elem_of_cons, elem_of_nil in Hin.
      repeat destruct Hin as [Hin|Hin]; try discriminate Hin; contradiction.
Qed.

End TransitionReplies.

(** X2: a request changes nothing in the daemon but the trace and always
    returns TRUE.  The daemon sends exactly one reply, except when the gate
    is open and polkit does not let the request through (no subject, or
    the check fails): then the daemon itself sends none. *)
Theorem transition_reply_count (env : Env) (st : State) (context : Context) :
  let acts_s := new_actions st (fst (dkp_daemon_suspend env st context)) in
  let acts_h := new_actions st (fst (dkp_daemon_hibernate env st context)) in
  dkp_daemon_suspend env st context = (log acts_s st, true) /\
  dkp_daemon_hibernate env st context = (log acts_h st, true) /\
  count is_reply acts_s =
    bool_to_nat (negb (kernel_can_suspend (priv st))
                 || polkit_grants env context "org.freedesktop.devicekit.power.suspend") /\
  count is_reply acts_h =
    bool_to_nat (negb (kernel_can_hibernate (priv st) && kernel_has_swap_space (priv st))
                 || polkit_grants env context "org.freedesktop.devicekit.power.hibernate").
Proof.
  cbv zeta. split; [apply suspend_actions|]. split; [apply hibernate_actions|]. split.
  - unfold dkp_daemon_suspend. destruct (kernel_can_suspend (priv st)); cbn [negb orb].
    + apply authorize_and_spawn_replies.
    + cbn [fst]. rewrite new_actions_log. reflexivity.
  - unfold dkp_daemon_hibernate.
    destruct (kernel_can_hibernate (priv st)); cbn [negb orb andb];
      [destruct (kernel_has_swap_space (priv st)); cbn [negb orb]|].
    + apply authorize_and_spawn_replies.
    + cbn [fst]. rewrite new_actions_log. reflexivity.
    + cbn [fst]. rewrite new_actions_log. reflexivity.
Qed.

(** X3: every error the daemon sends for a request goes to the context of
    that request and is a GeneralError; a success reply goes to that
    context, carries nothing, and is sent only when the gate was open, the
    command of the request was spawned and the spawn reported no error. *)
Theorem transition_reply_kinds (env : Env) (st : State) (context : Context) :
  let acts_s := new_actions st (fst (dkp_daemon_suspend env st context)) in
  let acts_h := new_actions st (fst (dkp_daemon_hibernate env st context)) in
  (forall c code message, MethodReturnError c code message ∈ acts_s ++ acts_h ->
     c = context /\ code = DKP_DAEMON_ERROR_GENERAL) /\
  (forall c payload, MethodReturn c payload ∈ acts_s ->
     c = context /\ payload = None /\ kernel_can_suspend (priv st) = true /\
     SpawnSync "/usr/sbin/pm-suspend" ∈ acts_s /\
     spawn_error (g_spawn_command_line_sync env "/usr/sbin/pm-suspend") = None) /\
  (forall c payload, MethodReturn c payload ∈ acts_h ->
     c = context /\ payload = None /\
     kernel_can_hibernate (priv st) = true /\ kernel_has_swap_space (priv st) = true /\
     SpawnSync "/usr/sbin/pm-hibernate" ∈ acts_h /\
     spawn_error (g_spawn_command_line_sync env "/usr/sbin/pm-hibernate") = None).
Proof.
  cbv zeta.
  assert (Hclosed : forall message c code m,
    MethodReturnError c code m
    ∈ [GErrorFree None; MethodReturnError context DKP_DAEMON_ERROR_GENERAL message] ->
    c = context /\ code = DKP_DAEMON_ERROR_GENERAL).
  { intros message c code m Hin. rewrite !elem_of_cons, elem_of_nil in Hin.
    destruct Hin as [Hin|[Hin|Hin]]; [discriminate Hin| |contradiction].
    injection Hin as -> -> _. split; reflexivity. }
  assert (Hnone : forall message c payload,
    MethodReturn c payload
    ∉ [GErrorFree None; MethodReturnError context DKP_DAEMON_ERROR_GENERAL message]).
  { intros message c payload Hin. rewrite !elem_of_cons, elem_of_nil in Hin.
    destruct Hin as [Hin|[Hin|Hin]]; try discriminate Hin; contradiction. }
  unfold dkp_daemon_suspend, dkp_daemon_hibernate.
  split; [|split].
  - intros c code message Hin. apply elem_of_app in Hin as [Hin|Hin]; revert Hin.
    + destruct (kernel_can_suspend (priv st)); cbn [negb].
      * intros Hin. apply authorize_and_spawn_replies in Hin as (? & ? & _). split; assumption.
      * cbn [fst]. rewrite new_actions_log. apply Hclosed.
    + destruct (kernel_can_hibernate (priv st)); cbn [negb];
        [destruct (kernel_has_swap_space (priv st)); cbn [negb]|].
      * intros Hin. apply authorize_and_spawn_replies in Hin as (? & ? & _). split; assumption.
      * cbn [fst]. rewrite new_actions_log. apply Hclosed.
      * cbn [fst]. rewrite new_actions_log. apply Hclosed.
  - intros c payload. destruct (kernel_can_suspend (priv st)); cbn [negb].
    + intros Hin. apply authorize_and_spawn_replies in Hin as (? & ? & ? & ?).
      repeat split; assumption.
    + cbn [fst]. rewrite new_actions_log. intros Hin. destruct (Hnone _ _ _ Hin).
  - intros c payload. destruct (kernel_can_hibernate (priv st)); cbn [negb];
      [destruct (kernel_has_swap_space (priv st)); cbn [negb]|].
    + intros Hin. apply authorize_and_spawn_replies in Hin as (? & ? & ? & ?).
      repeat split; assumption.
    + cbn [fst]. rewrite new_actions_log. intros Hin. destruct (Hnone _ _ _ Hin).
    + cbn [fst]. rewrite new_actions_log. intros Hin. destruct (Hnone _ _ _ Hin).
Qed.

Lemma transition_reply_kinds_witness :
  MethodReturn 7%nat None
  ∈ new_actions state_two_devices (fst (dkp_daemon_suspend env_example state_two_devices 7%nat))
  /\
  (7%nat = 7%nat /\ @None (list string) = None /\
   kernel_can_suspend (priv state_two_devices) = true /\
   SpawnSync "/usr/sbin/pm-suspend"
   ∈ new_actions state_two_devices
       (fst (dkp_daemon_suspend env_example state_two_devices 7%nat)) /\
   spawn_error (g_spawn_command_line_sync env_example "/usr/sbin/pm-suspend") = None).
Proof.
  assert (Hin : MethodReturn 7%nat None
                ∈ new_actions state_two_devices
                    (fst (dkp_daemon_suspend env_example state_two_devices 7%nat))).
  { change (MethodReturn 7%nat None
            ∈ [PolkitGetSubject 7%nat;
               PolkitCheckAuth 1%nat "org.freedesktop.devicekit.power.suspend" 7%nat;
               SpawnSync "/usr/sbin/pm-suspend"; MethodReturn 7%nat None]).
    rewrite !elem_of_cons. right. right. right. left. reflexivity. }
  split; [exact Hin|].
  apply (proj1 (proj2 (transition_reply_kinds env_example state_two_devices 7%nat))
           7%nat None Hin).
Defined.

(** ** The kernel probes at initialisation *)

Section Probes.

Lemma split_tokens_not_nil (delim : ascii -> bool) (s : string) :
  split_tokens delim s <> [].
Proof.
  destruct s as [|c s]; cbn [split_tokens]; [discriminate|].
  destruct (delim c); [discriminate|]. destruct (split_tokens delim s); discriminate.
Qed.

Lemma g_strsplit_nil (s : string) (delimiter : ascii) :
  g_strsplit s delimiter = [] <-> s = "".
Proof.
  split; [|intros ->; reflexivity].
  destruct s as [|c s]; [reflexivity|]. unfold g_strsplit. intros H.
  destruct (split_tokens_not_nil _ _ H).
Qed.

Lemma prefix_spec (n h : string) :
  String.prefix n h = true <-> exists post, h = n +:+ post.
Proof.
  revert h. induction n as [|c n IH]; intros h.
  - split; [intros _; exists h; reflexivity|]. intros _. destruct h; reflexivity.
  - destruct h as [|c' h]; cbn [String.prefix].
    + split; [discriminate|]. intros [post H]. discriminate H.
    + destruct (ascii_dec c c') as [->|Hne].
      * rewrite IH. split; intros [post H]; exists post.
        -- rewrite H. reflexivity.
        -- rewrite append_cons in H. injection H as ->. reflexivity.
      * split; [discriminate|]. intros [post H]. rewrite append_cons in H.
        injection H as -> _. contradiction.
Qed.

(** [g_strstr_len] finds the needle wherever it occurs. *)
Lemma g_strstr_len_spec (h n : string) :
  g_strstr_len h n = true <-> exists pre post, h = pre +:+ n +:+ post.
Proof.
  induction h as [|c h IH].
  - cbn [g_strstr_len]. rewrite orb_false_r, prefix_spec. split.
    + intros [post H]. exists "", post. exact H.
    + intros (pre & post & H). destruct pre as [|x pre]; [exists post; exact H|].
      rewrite append_cons in H. discriminate H.
  - cbn [g_strstr_len]. rewrite orb_true_iff, prefix_spec, IH. split.
    + intros [[post H]|(pre & post & H)].
      * exists "", post. exact H.
      * exists (String c pre), post. rewrite append_cons, H. reflexivity.
    + intros (pre & post & H). destruct pre as [|x pre].
      * left. exists post. exact H.
      * right. rewrite append_cons in H. injection H as -> ->. exists pre, post. reflexivity.
Qed.

End Probes.

(** X5: after initialisation can-suspend is true exactly when the text of
    /sys/power/state contains "mem" somewhere, and kernel_can_hibernate
    exactly when it contains "disk"; the words are not matched as whole
    words. *)
Theorem init_flags_are_substring_tests (c : string) (meminfo : option string)
    (p : DkpDaemonPrivate) :
  dkp_daemon_init (Some c) meminfo = Some p ->
  (kernel_can_suspend p = true <-> exists pre post, c = pre +:+ "mem" +:+ post) /\
  (kernel_can_hibernate p = true <-> exists pre post, c = pre +:+ "disk" +:+ post).
Proof.
  intros Hinit. rewrite <- !g_strstr_len_spec.
  assert (Hflags : kernel_can_suspend p = g_strstr_len c "mem" /\
                   kernel_can_hibernate p = g_strstr_len c "disk").
  { revert Hinit. unfold dkp_daemon_init, dkp_daemon_check_state.
    cbn [fst set_kernel_state kernel_can_hibernate].
    destruct (g_strstr_len c "disk").
    - destruct (dkp_daemon_check_swap meminfo) as [w|]; [|discriminate].
      intros [= <-]. destruct (w <? _); split; reflexivity.
    - intros [= <-]. split; reflexivity. }
  destruct Hflags as [-> ->]. split; reflexivity.
Qed.

Lemma init_flags_are_substring_tests_witness :
  kernel_can_suspend (mkPriv [] false false false false true false false) = true <->
  exists pre post, "freeze memory" = pre +:+ "mem" +:+ post.
Proof.
  apply (proj1 (init_flags_are_substring_tests "freeze memory" None
                  (mkPriv [] false false false false true false false) eq_refl)).
Defined.



(** ** The whole of /proc/meminfo *)

Section WholeMeminfo.

Lemma split_meminfo_text (lines : list string) : forall first : string,
  free_of (Ascii.eqb "010") first = true ->
  Forall (fun line => free_of (Ascii.eqb "010") line = true) lines ->
  split_tokens (Ascii.eqb "010") (meminfo_text first lines) = first :: lines.
Proof.
  unfold meminfo_text.
  induction lines as [|line lines IH]; intros first Hfirst Hlines.
  - cbn [append_lines].
    replace (first +:+ "") with first
      by (clear; induction first as [|c s IH]; [reflexivity|];
          rewrite append_cons, <- IH; reflexivity).
    apply split_tokens_last. exact Hfirst.
  - apply Forall_cons in Hlines as [Hline Hlines]. cbn [append_lines].
    change (newline +:+ line +:+ append_lines lines)
      with (String "010" (line +:+ append_lines lines)).
    rewrite split_tokens_word by (assumption || reflexivity).
    rewrite IH by assumption. reflexivity.
Qed.

Lemma g_strsplit_meminfo_text (first line : string) (lines : list string) :
  free_of (Ascii.eqb "010") first = true ->
  Forall (fun l => free_of (Ascii.eqb "010") l = true) (line :: lines) ->
  g_strsplit (meminfo_text first (line :: lines)) "010" = first :: line :: lines.
Proof.
  intros Hfirst Hlines. pose proof (split_meminfo_text _ _ Hfirst Hlines) as Hsplit.
  unfold g_strsplit. destruct first as [|c first]; exact Hsplit.
Qed.

Lemma other_line_one_line (line : string) :
  other_line line -> free_of (Ascii.eqb "010") line = true.
Proof. intros [word _ Hnl|name c rest _ _ _ _ Hnl]; exact Hnl. Qed.

Lemma other_line_no_field (query line : string) :
  query = "Active" \/ query = "SwapFree" -> other_line line ->
  field_of_line query line = None.
Proof.
  intros Hq [word Hdelim _|name c rest Hdelim Hc Ha Hs _]; unfold field_of_line.
  - destruct word as [|x word]; [reflexivity|].
    unfold g_strsplit_set. rewrite split_tokens_last by exact Hdelim. reflexivity.
  - assert (Htokens : g_strsplit_set (name +:+ String c rest) ": "
                      = name :: split_tokens (is_delimiter ": ") rest).
    { pose proof (split_tokens_word _ name c rest Hdelim Hc) as Hsplit.
      unfold g_strsplit_set. destruct name as [|x name]; exact Hsplit. }
    rewrite Htokens. change (nth 0 (name :: ?l) "") with name.
    replace (String.eqb name query) with false; [rewrite andb_false_r; reflexivity|].
    symmetry. apply String.eqb_neq. destruct Hq as [->| ->]; assumption.
Qed.

Lemma omap_other_lines (query : string) (lines : list string) :
  query = "Active" \/ query = "SwapFree" -> Forall other_line lines ->
  omap (field_of_line query) lines = [].
Proof.
  intros Hq. induction 1 as [|line lines Hline _ IH]; [reflexivity|].
  cbn [omap list_omap]. rewrite (other_line_no_field query line Hq Hline). exact IH.
Qed.

End WholeMeminfo.

(** X7: for a /proc/meminfo as the kernel prints it (any first line, then
    the Active line and later the SwapFree line with any padding, among
    lines whose name is neither of the two: other fields, counters without
    a unit, the empty line after the last newline) the probe divides
    100 * a, cut to 32 bits, by f when both numbers are positive, takes 0
    otherwise, and returns that whole number as a single-precision float.
    As long as 100 * a is below 2^32 this is 100 * a / f rounded down, and
    the float is that very number when it is below 2^24; from
    a = 42949673 kB on the product wraps around and the pressure comes out
    too small.  The float is below the waterline exactly when the whole
    number is. *)
Theorem check_swap_whole_meminfo
    (first : string) (before between after : list string) (pa pf : nat) (a f : N) :
  free_of (Ascii.eqb "010") first = true ->
  Forall other_line before -> Forall other_line between -> Forall other_line after ->
  (a < 2 ^ 31)%N -> (f < 2 ^ 31)%N ->
  let text := meminfo_text first
                (before ++ meminfo_line "Active" pa a
                        :: between ++ meminfo_line "SwapFree" pf f :: after) in
  let quotient := if (0 <? Z.of_N f) && (0 <? Z.of_N a)
                  then ((Z.of_N a * 100) mod 2 ^ 32) / Z.of_N f else 0 in
  dkp_daemon_check_swap (Some text) = Some (to_gfloat quotient) /\
  ((0 < a)%N -> (0 < f)%N -> (a * 100 < 2 ^ 32)%N ->
   quotient = Z.of_N a * 100 / Z.of_N f) /\
  (quotient < 2 ^ 24 -> dkp_daemon_check_swap (Some text) = Some quotient) /\
  (to_gfloat quotient <? DKP_DAEMON_SWAP_WATERLINE)
  = (quotient <? DKP_DAEMON_SWAP_WATERLINE).
Proof.
  intros Hfirst Hbefore Hbetween Hafter Ha Hf text quotient.
  assert (Hlines : Forall (fun l => free_of (Ascii.eqb "010") l = true)
                     (before ++ meminfo_line "Active" pa a
                             :: between ++ meminfo_line "SwapFree" pf f :: after)).
  { rewrite Forall_app, Forall_cons, Forall_app, Forall_cons.
    repeat split;
      try (apply meminfo_line_one_line; reflexivity);
      (eapply Forall_impl; [eassumption|apply other_line_one_line]). }
  assert (Hsplit : g_strsplit text "010"
                   = first :: before ++ meminfo_line "Active" pa a
                                     :: between ++ meminfo_line "SwapFree" pf f :: after).
  { unfold text. destruct before as [|b before];
      apply g_strsplit_meminfo_text; assumption. }
  assert (Hswap : meminfo_field "SwapFree"
                    (before ++ meminfo_line "Active" pa a
                            :: between ++ meminfo_line "SwapFree" pf f :: after)
                  = Z.of_N f).
  { unfold meminfo_field. rewrite omap_app, omap_other_lines by auto.
    cbn [app omap list_omap]. rewrite field_of_meminfo_line by (reflexivity || assumption).
    cbn [String.eqb Ascii.eqb Bool.eqb]. rewrite omap_app, omap_other_lines by auto.
    cbn [app omap list_omap]. rewrite field_of_meminfo_line by (reflexivity || assumption).
    cbn [String.eqb Ascii.eqb Bool.eqb]. rewrite omap_other_lines by auto. reflexivity. }
  assert (Hact : meminfo_field "Active"
                   (before ++ meminfo_line "Active" pa a
                           :: between ++ meminfo_line "SwapFree" pf f :: after)
                 = Z.of_N a).
  { unfold meminfo_field. rewrite omap_app, omap_other_lines by auto.
    cbn [app omap list_omap]. rewrite field_of_meminfo_line by (reflexivity || assumption).
    cbn [String.eqb Ascii.eqb Bool.eqb]. rewrite omap_app, omap_other_lines by auto.
    cbn [app omap list_omap]. rewrite field_of_meminfo_line by (reflexivity || assumption).
    cbn [String.eqb Ascii.eqb Bool.eqb]. rewrite omap_other_lines by auto. reflexivity. }
  assert (Hprobe : dkp_daemon_check_swap (Some text) = Some (to_gfloat quotient)).
  { rewrite (check_swap_fields _ _ _ Hsplit), Hswap, Hact. reflexivity. }
  split; [exact Hprobe|]. split; [|split].
  - intros Hapos Hfpos Hfit. unfold quotient.
    destruct (Z.ltb_spec 0 (Z.of_N f)); [|lia]. destruct (Z.ltb_spec 0 (Z.of_N a)); [|lia].
    cbn [andb]. rewrite Z.mod_small; [reflexivity|].
    change (2 ^ 32)%N with 4294967296%N in Hfit. change (2 ^ 32) with 4294967296. lia.
  - intros Hsmall. rewrite Hprobe, to_gfloat_exact by exact Hsmall. reflexivity.
  - apply to_gfloat_waterline.
Qed.

Lemma check_swap_whole_meminfo_witness :
  dkp_daemon_check_swap
    (Some (meminfo_text "MemTotal:        8000000 kB"
             (["MemFree:          120000 kB"]
                ++ meminfo_line "Active" 8 503317
                :: ["Active(anon):    300000 kB"; "SwapTotal:       2000000 kB"]
                ++ meminfo_line "SwapFree" 12 3
                :: ["HugePages_Total:       0"; "Hugepagesize:       2048 kB"; ""])))
  = Some 16777232.
Proof.
  apply (proj1 (check_swap_whole_meminfo "MemTotal:        8000000 kB"
                  ["MemFree:          120000 kB"]
                  ["Active(anon):    300000 kB"; "SwapTotal:       2000000 kB"]
                  ["HugePages_Total:       0"; "Hugepagesize:       2048 kB"; ""]
                  8 12 503317 3
                  eq_refl
                  (Forall_cons_2 _ _ _
                     (other_line_field "MemFree" ":" "          120000 kB" eq_refl eq_refl
                        ltac:(discriminate) ltac:(discriminate) eq_refl)
                     (Forall_nil_2 _))
                  (Forall_cons_2 _ _ _
                     (other_line_field "Active(anon)" ":" "    300000 kB" eq_refl eq_refl
                        ltac:(discriminate) ltac:(discriminate) eq_refl)
                     (Forall_cons_2 _ _ _
                        (other_line_field "SwapTotal" ":" "       2000000 kB" eq_refl eq_refl
                           ltac:(discriminate) ltac:(discriminate) eq_refl)
                        (Forall_nil_2 _)))
                  (Forall_cons_2 _ _ _
                     (other_line_field "HugePages_Total" ":" "       0" eq_refl eq_refl
                        ltac:(discriminate) ltac:(discriminate) eq_refl)
                     (Forall_cons_2 _ _ _
                        (other_line_field "Hugepagesize" ":" "       2048 kB" eq_refl eq_refl
                           ltac:(discriminate) ltac:(discriminate) eq_refl)
                        (Forall_cons_2 _ _ _ (other_line_word "" eq_refl eq_refl)
                           (Forall_nil_2 _))))
                  eq_refl eq_refl)).
Defined.

(** X21: the probe reads its two fields from the lines after the first
    one.  A line cut at every colon and space into more than three tokens
    whose first token is the name sets the field to the number in its last
    token but one; the last such line wins and a field that no line sets
    is 0.  The result is the float of (100 * active mod 2^32) / free when
    both fields are positive, and 0 when one of them is 0; it is
    100 * active / free itself, rounded down, when 100 * active is below
    2^32 and the quotient below 2^24.  For a first line MemTotal followed
    by Active: 400 kB and SwapFree: 1000 kB the result is 40, below the
    waterline of 80, and a kernel that advertises disk gets hibernate
    enabled. *)
Theorem check_swap_reads_fields_after_first_line
    (contents first : string) (rest : list string) :
  g_strsplit contents "010" = first :: rest ->
  let free := meminfo_field "SwapFree" rest in
  let act := meminfo_field "Active" rest in
  dkp_daemon_check_swap (Some contents) =
    Some (to_gfloat (if (0 <? free) && (0 <? act)
                     then ((act * 100) mod 2 ^ 32) / free else 0)) /\
  (0 < free -> 0 < act -> act * 100 < 2 ^ 32 -> act * 100 / free < 2 ^ 24 ->
     dkp_daemon_check_swap (Some contents) = Some (act * 100 / free)) /\
  (free = 0 \/ act = 0 -> dkp_daemon_check_swap (Some contents) = Some 0) /\
  dkp_daemon_check_swap (Some meminfo_example) = Some 40 /\
  (forall (env : Env) (power_state : string),
      g_strstr_len power_state "disk" = true ->
      exists p, dkp_daemon_init (Some power_state) (Some meminfo_example) = Some p /\
                dkp_daemon_get_property env p PROP_CAN_HIBERNATE = GBoolean true).
Proof.
  intros Hsplit free act.
  pose proof (meminfo_field_range "SwapFree" rest) as Hfree.
  pose proof (meminfo_field_range "Active" rest) as Hact.
  fold free in Hfree. fold act in Hact.
  rewrite (check_swap_fields _ _ _ Hsplit). fold free act.
  unfold swap_percentage. cbn [swap_free active].
  split; [reflexivity|]. split; [|split; [|split]].
  - intros Hf Ha Hfit Hsmall.
    destruct (Z.ltb_spec 0 free); [|lia]. destruct (Z.ltb_spec 0 act); [|lia].
    cbn [andb]. rewrite Z.mod_small by lia. rewrite to_gfloat_exact by exact Hsmall.
    reflexivity.
  - intros [-> | ->]; [reflexivity|].
    destruct (0 <? free); reflexivity.
  - vm_compute. reflexivity.
  - intros env power_state Hdisk.
    unfold dkp_daemon_init, dkp_daemon_check_state.
    cbn [fst set_kernel_state kernel_can_hibernate]. rewrite Hdisk.
    replace (dkp_daemon_check_swap (Some meminfo_example)) with (Some 40)
      by (vm_compute; reflexivity).
    eexists; split; reflexivity.
Qed.

Lemma check_swap_reads_fields_witness :
  dkp_daemon_check_swap (Some meminfo_example) = Some (400 * 100 / 1000).
Proof.
  apply (proj1 (proj2 (check_swap_reads_fields_after_first_line meminfo_example
                         "MemTotal: 2000 kB" ["Active: 400 kB"; "SwapFree: 1000 kB"; ""]
                         eq_refl)));
    vm_compute; reflexivity.
Defined.

(** ** Devices coming, changing and going *)

Section DeviceList.

(** Editing one object of the store in a way that keeps a field keeps that
    field of every device of the array. *)
Lemma array_alter_field {B} (g : DkpDevice -> B) (f : DkpDevice -> DkpDevice)
    (m : gmap DevicePtr DkpDevice) (ptr : DevicePtr) (l : list DevicePtr) :
  (forall d, g (f d) = g d) ->
  map g (omap (fun p => alter f ptr m !! p) l) = map g (omap (fun p => m !! p) l).
Proof.
  intros Hg. induction l as [|p l IH]; [reflexivity|].
  cbn [omap list_omap]. destruct (decide (ptr = p)) as [->|Hne].
  - rewrite lookup_alter_eq. destruct (m !! p) as [d|]; cbn; [|exact IH].
    rewrite Hg, IH. reflexivity.
  - rewrite lookup_alter_ne by exact Hne. destruct (m !! p) as [d|]; cbn; [|exact IH].
    rewrite IH. reflexivity.
Qed.

Lemma array_insert_field {B} (g : DkpDevice -> B) (d d' : DkpDevice)
    (m : gmap DevicePtr DkpDevice) (ptr : DevicePtr) (l : list DevicePtr) :
  m !! ptr = Some d -> g d' = g d ->
  map g (omap (fun p => <[ptr := d']> m !! p) l) = map g (omap (fun p => m !! p) l).
Proof.
  intros Hd Hg. induction l as [|p l IH]; [reflexivity|].
  cbn [omap list_omap]. destruct (decide (ptr = p)) as [->|Hne].
  - rewrite lookup_insert_eq, Hd. cbn. rewrite Hg, IH. reflexivity.
  - rewrite lookup_insert_ne by exact Hne. destruct (m !! p) as [x|]; cbn; [|exact IH].
    rewrite IH. reflexivity.
Qed.

Lemma added_cb_state (st : State) (native : Native) (ptr : DevicePtr) (d : DkpDevice)
    (emit_signal : bool) :
  objects st !! ptr = Some d ->
  dkp_daemon_device_added_cb st (Some native) (Some ptr) emit_signal =
  log (if emit_signal then [SignalEmit DEVICE_ADDED_SIGNAL (Some (dev_object_path d))] else [])
      (with_priv (fun p => set_power_devices (power_devices p ++ [ptr]) p)
         (with_objects (alter (fun x => set_weak_refs (S (dev_weak_refs x)) x) ptr) st)).
Proof.
  intros Hd. unfold dkp_daemon_device_added_cb. rewrite Hd.
  destruct emit_signal; [reflexivity|]. rewrite log_nil. reflexivity.
Qed.

Lemma number_of_type_by_types (t : DkpDeviceType) (l1 l2 : list DkpDevice) :
  map dev_type l1 = map dev_type l2 ->
  length (filter (fun d => dev_type d = t) l1) = length (filter (fun d => dev_type d = t) l2).
Proof.
  revert l2. induction l1 as [|d1 l1 IH]; intros [|d2 l2] H; try discriminate H;
    [reflexivity|]. injection H as Ht Hl. rewrite !filter_cons, Ht.
  destruct (decide (dev_type d2 = t)); cbn [length]; rewrite (IH l2 Hl); reflexivity.
Qed.

End DeviceList.

(** X8: adding a device that is not yet in the list puts it into the
    list once, next to the devices that were there, and a list that had
    no duplicates still has none; the device gets one more weak
    reference and no other object is touched; "device-added" is emitted
    with its object path exactly when emit_signal is set; and from then on
    EnumerateDevices() answers with the paths it answered with before
    together with the path of the new device.  Nothing is said about the
    position the new device takes among the others. *)
Theorem device_added_is_enumerated
    (st : State) (native : Native) (ptr : DevicePtr) (d : DkpDevice) (emit_signal : bool) :
  objects st !! ptr = Some d ->
  ptr ∉ power_devices (priv st) ->
  let st' := dkp_daemon_device_added_cb st (Some native) (Some ptr) emit_signal in
  power_devices (priv st') ≡ₚ ptr :: power_devices (priv st) /\
  (NoDup (power_devices (priv st)) -> NoDup (power_devices (priv st'))) /\
  objects st' !! ptr = Some (set_weak_refs (S (dev_weak_refs d)) d) /\
  (forall other, other <> ptr -> objects st' !! other = objects st !! other) /\
  new_actions st st' =
    (if emit_signal then [SignalEmit DEVICE_ADDED_SIGNAL (Some (dev_object_path d))]
     else []) /\
  forall context,
    exists paths,
      new_actions st' (fst (dkp_daemon_enumerate_devices st' context)) =
      [MethodReturn context (Some paths)] /\
      paths ≡ₚ dev_object_path d :: enumerated_paths st.
Proof.
  intros Hd Hfresh. cbv zeta. rewrite (added_cb_state st native ptr d emit_signal Hd).
  assert (Hlist : power_devices (priv st) ++ [ptr] ≡ₚ ptr :: power_devices (priv st))
    by (symmetry; apply Permutation_cons_append).
  split; [exact Hlist|]. split; [|split; [|split; [|split]]].
  - intros Hnodup. cbn [log with_priv with_objects priv set_power_devices power_devices].
    rewrite Hlist. apply NoDup_cons_2; assumption.
  - cbn [log with_priv with_objects objects]. rewrite lookup_alter_eq, Hd. reflexivity.
  - intros other Hne. cbn [log with_priv with_objects objects].
    apply lookup_alter_ne. congruence.
  - apply new_actions_log_on. reflexivity.
  - intros context. eexists. split.
    + unfold dkp_daemon_enumerate_devices. cbn [fst]. rewrite new_actions_log. reflexivity.
    + unfold enumerated_paths, dkp_device_list_get_array.
      cbn [log with_priv with_objects objects priv set_power_devices power_devices].
      rewrite omap_app, map_app. unfold dkp_device_get_object_path.
      rewrite (array_alter_field dev_object_path) by reflexivity.
      cbn [omap list_omap]. rewrite lookup_alter_eq, Hd.
      symmetry. apply Permutation_cons_append.
Qed.

Lemma device_added_is_enumerated_witness :
  power_devices (priv (dkp_daemon_device_added_cb state_before_add (Some 0%nat) (Some 1%nat)
                         true))
  ≡ₚ 1%nat :: power_devices (priv state_before_add).
Proof.
  apply (proj1 (device_added_is_enumerated state_before_add 0%nat 1%nat new_battery_example
                  true eq_refl
                  ltac:(intros H; apply list_elem_of_singleton in H; discriminate H))).
Defined.

(** X9: dkp_daemon_get_number_devices_of_type counts every device of the
    list under exactly one type, so the three counts add up to the number
    of devices; adding a device raises the count of its own type by one
    and leaves the other counts alone. *)
Theorem number_of_devices_by_type
    (st : State) (native : Native) (ptr : DevicePtr) (d : DkpDevice) (emit_signal : bool)
    (type : DkpDeviceType) :
  objects st !! ptr = Some d ->
  let st' := dkp_daemon_device_added_cb st (Some native) (Some ptr) emit_signal in
  dkp_daemon_get_number_devices_of_type st' type =
    (dkp_daemon_get_number_devices_of_type st type
     + (if decide (dev_type d = type) then 1 else 0))%nat /\
  (dkp_daemon_get_number_devices_of_type st DKP_DEVICE_TYPE_LINE_POWER
   + dkp_daemon_get_number_devices_of_type st DKP_DEVICE_TYPE_BATTERY
   + dkp_daemon_get_number_devices_of_type st DKP_DEVICE_TYPE_OTHER)%nat
  = length (dkp_device_list_get_array st).
Proof.
  intros Hd. cbv zeta. unfold dkp_daemon_get_number_devices_of_type. split.
  - rewrite (added_cb_state st native ptr d emit_signal Hd).
    unfold dkp_device_list_get_array.
    cbn [log with_priv with_objects objects priv set_power_devices power_devices].
    rewrite omap_app. cbn [omap list_omap]. rewrite lookup_alter_eq, Hd. cbn.
    rewrite filter_app, length_app. f_equal.
    + apply number_of_type_by_types. apply (array_alter_field dev_type). reflexivity.
    + rewrite filter_cons. cbn [set_weak_refs dev_type].
      destruct (decide (dev_type d = type)); reflexivity.
  - induction (dkp_device_list_get_array st) as [|x l IH]; [reflexivity|].
    rewrite !filter_cons. cbn [length]. rewrite <- IH.
    destruct (dev_type x);
      repeat match goal with |- context [decide ?P] => destruct (decide P); try congruence end;
      cbn [length]; lia.
Qed.

Lemma number_of_devices_by_type_witness :
  dkp_daemon_get_number_devices_of_type
    (dkp_daemon_device_added_cb state_two_devices (Some 0%nat) (Some 1%nat) false)
    DKP_DEVICE_TYPE_BATTERY
  = (dkp_daemon_get_number_devices_of_type state_two_devices DKP_DEVICE_TYPE_BATTERY
     + (if decide (dev_type battery_example = DKP_DEVICE_TYPE_BATTERY) then 1 else 0))%nat.
Proof.
  apply (proj1 (number_of_devices_by_type state_two_devices 0%nat 1%nat battery_example false
                  DKP_DEVICE_TYPE_BATTERY eq_refl)).
Defined.

Section Refresh.

Variable env : Env.

Lemma refresh_fold_objects (l : list DevicePtr) : forall (s : State) (ptr : DevicePtr),
  NoDup l ->
  objects
    (fold_left
       (fun s ptr =>
          match objects s !! ptr with
          | Some device =>
              if decide (dev_type device = DKP_DEVICE_TYPE_BATTERY)
              then with_objects (insert ptr (dkp_device_refresh_internal env device)) s
              else s
          | None => s
          end) l s) !! ptr
  = if decide (ptr ∈ l) then refreshed env <$> objects s !! ptr else objects s !! ptr.
Proof.
  induction l as [|a l IH]; intros s ptr Hnodup.
  - cbn [fold_left]. destruct (decide (ptr ∈ [])) as [Hin|_]; [|reflexivity].
    apply elem_of_nil in Hin. contradiction.
  - apply NoDup_cons in Hnodup as [Ha Hnodup]. cbn [fold_left]. rewrite IH by exact Hnodup.
    set (s1 := match objects s !! a with Some _ => _ | None => _ end).
    assert (Hs1 : forall q, objects s1 !! q
                            = if decide (q = a) then refreshed env <$> objects s !! a
                              else objects s !! q).
    { intros q. unfold s1. destruct (objects s !! a) as [d|] eqn:Hd.
      - cbn [fmap option_fmap option_map]. unfold refreshed.
        destruct (decide (dev_type d = DKP_DEVICE_TYPE_BATTERY)).
        + cbn [with_objects objects]. destruct (decide (q = a)) as [->|Hne].
          * rewrite lookup_insert_eq. reflexivity.
          * rewrite lookup_insert_ne by congruence. reflexivity.
        + destruct (decide (q = a)) as [->|Hne]; [exact Hd|reflexivity].
      - destruct (decide (q = a)) as [->|Hne]; [exact Hd|reflexivity]. }
    rewrite Hs1. destruct (decide (ptr = a)) as [->|Hne].
    + destruct (decide (a ∈ l)); [contradiction|].
      destruct (decide (a ∈ a :: l)) as [_|Hn]; [reflexivity|].
      exfalso. apply Hn. left.
    + destruct (decide (ptr ∈ l)) as [Hin|Hnin].
      * destruct (decide (ptr ∈ a :: l)) as [_|Hn]; [reflexivity|].
        exfalso. apply Hn. right. exact Hin.
      * destruct (decide (ptr ∈ a :: l)) as [Hin'|_]; [|reflexivity].
        apply elem_of_cons in Hin' as [?|?]; contradiction.
Qed.

End Refresh.

(** X10: dkp_daemon_refresh_battery_devices refreshes each battery of the
    device list once and touches nothing else: devices of another type,
    objects that are not in the list, the daemon's data, the timers and the
    trace stay as they are; it always returns TRUE. *)
Theorem refresh_touches_listed_batteries_only (env : Env) (st : State) :
  NoDup (power_devices (priv st)) ->
  let '(st', ret) := dkp_daemon_refresh_battery_devices env st in
  ret = true /\ priv st' = priv st /\ trace st' = trace st /\
  timeouts st' = timeouts st /\ clock st' = clock st /\
  forall ptr,
    objects st' !! ptr =
    if decide (ptr ∈ power_devices (priv st)) then refreshed env <$> objects st !! ptr
    else objects st !! ptr.
Proof.
  intros Hnodup.
  pose proof (refresh_priv env st) as Hp. pose proof (refresh_trace env st) as Ht.
  pose proof (refresh_timeouts env st) as Hto. pose proof (refresh_clock env st) as Hc.
  destruct (dkp_daemon_refresh_battery_devices env st) as [st' ret] eqn:Hr.
  cbn [fst] in Hp, Ht, Hto, Hc.
  unfold dkp_daemon_refresh_battery_devices in Hr. injection Hr as Hst' <-.
  repeat (split; [reflexivity || assumption|]).
  intros ptr. rewrite <- Hst'. apply refresh_fold_objects. exact Hnodup.
Qed.

Lemma refresh_touches_listed_batteries_only_witness :
  let '(st', ret) := dkp_daemon_refresh_battery_devices env_example state_two_devices in
  ret = true /\ priv st' = priv state_two_devices /\ trace st' = trace state_two_devices /\
  timeouts st' = timeouts state_two_devices /\ clock st' = clock state_two_devices /\
  forall ptr,
    objects st' !! ptr =
    if decide (ptr ∈ power_devices (priv state_two_devices))
    then refreshed env_example <$> objects state_two_devices !! ptr
    else objects state_two_devices !! ptr.
Proof.
  apply (refresh_touches_listed_batteries_only env_example state_two_devices).
  cbn. apply NoDup_cons_2; [|apply NoDup_singleton].
  intros H. apply list_elem_of_singleton in H. discriminate.
Defined.

Section Notifications.

Variable env : Env.

(** What the check of the aggregates adds to the trace, told by the flags
    before and after. *)
Lemma check_aggregates_trace (s : State) :
  let s' := check_aggregates_changed env s in
  trace s' =
  trace s
  ++ (if negb (Bool.eqb (on_battery (priv s')) (on_battery (priv s)))
      then SignalEmit CHANGED_SIGNAL None :: powersave_actions env (on_battery (priv s'))
      else [])
  ++ (if negb (Bool.eqb (low_battery (priv s')) (low_battery (priv s)))
      then [SignalEmit CHANGED_SIGNAL None] else []).
Proof.
  cbv zeta. unfold check_aggregates_changed. cbv zeta.
  set (on' := dkp_daemon_get_on_battery_local s && negb (dkp_daemon_get_on_ac_local s)).
  destruct (Bool.eqb on' (on_battery (priv s))) eqn:Hon; cbn [negb].
  - apply Bool.eqb_prop in Hon.
    set (low' := dkp_daemon_get_low_battery_local s).
    destruct (Bool.eqb low' (low_battery (priv s))) eqn:Hlow; cbn [negb].
    + rewrite !Bool.eqb_reflx. cbn [negb app]. rewrite app_nil_r. reflexivity.
    + cbn [log with_priv priv trace set_low_battery on_battery low_battery].
      rewrite Bool.eqb_reflx, Hlow. reflexivity.
  - set (s1 := fst (dkp_daemon_set_pmutils_powersave env _ _)).
    assert (Hs1 : on_battery (priv s1) = on' /\ low_battery (priv s1) = low_battery (priv s)
                  /\ trace s1 = trace s ++ SignalEmit CHANGED_SIGNAL None
                                            :: powersave_actions env on')
      by (repeat split; cbn; rewrite <- app_assoc; reflexivity).
    destruct Hs1 as (Hon1 & Hlow1 & Htrace1).
    set (low' := dkp_daemon_get_low_battery_local s1).
    destruct (Bool.eqb low' (low_battery (priv s1))) eqn:Hlow; cbn [negb].
    + rewrite Hon1, Hon, Htrace1. rewrite <- Hlow1, Bool.eqb_reflx.
      cbn [negb]. rewrite app_nil_r. reflexivity.
    + cbn [log with_priv priv trace set_low_battery on_battery low_battery].
      rewrite Hon1, Hon, Htrace1. rewrite <- Hlow1, Hlow. cbn [negb].
      rewrite <- app_assoc. reflexivity.
Qed.

Lemma check_aggregates_objects (s : State) :
  objects (check_aggregates_changed env s) = objects s /\
  power_devices (priv (check_aggregates_changed env s)) = power_devices (priv s) /\
  clock (check_aggregates_changed env s) = clock s.
Proof.
  unfold check_aggregates_changed. cbv zeta.
  destruct (negb (Bool.eqb _ (on_battery (priv s))));
    match goal with |- context [if ?c then _ else _] => destruct c end;
    repeat split.
Qed.

End Notifications.

(** X11: a device change emits "changed" once for each of the two stored
    aggregates that took a new value, and nothing for one that did not;
    /usr/sbin/pm-powersave is launched exactly when on_battery took a new
    value, with that value as its argument, never for low_battery alone,
    and when that launch fails its error is freed right after it; the only
    other action is the timer of a line-power change. *)
Theorem device_changed_notifications
    (env : Env) (st : State) (native : Native) (ptr : DevicePtr) (d : DkpDevice)
    (emit_signal : bool) :
  objects st !! ptr = Some d ->
  let st' := dkp_daemon_device_changed_cb env st (Some native) (Some ptr) emit_signal in
  new_actions st st' =
  (if decide (is_line_power (dkp_device_changed env d native emit_signal))
   then [TimeoutAddSeconds 3] else [])
  ++ (if negb (Bool.eqb (on_battery (priv st')) (on_battery (priv st)))
      then SignalEmit CHANGED_SIGNAL None :: powersave_actions env (on_battery (priv st'))
      else [])
  ++ (if negb (Bool.eqb (low_battery (priv st')) (low_battery (priv st)))
      then [SignalEmit CHANGED_SIGNAL None] else []).
Proof.
  intros Hd. cbv zeta. unfold dkp_daemon_device_changed_cb. rewrite Hd. cbv zeta.
  set (d1 := dkp_device_changed env d native emit_signal).
  set (st2 := if decide (dev_type d1 = DKP_DEVICE_TYPE_LINE_POWER) then _ else _).
  assert (Hst2 : priv st2 = priv st /\
                 trace st2 = trace st ++ (if decide (is_line_power d1)
                                          then [TimeoutAddSeconds 3] else [])).
  { unfold st2, is_line_power. destruct (decide (dev_type d1 = DKP_DEVICE_TYPE_LINE_POWER)).
    - unfold g_timeout_add_seconds. cbn [log with_timeouts priv trace].
      rewrite refresh_priv, refresh_trace. split; reflexivity.
    - cbn [with_objects priv trace]. rewrite app_nil_r. split; reflexivity. }
  destruct Hst2 as [Hpriv Htrace].
  unfold new_actions. rewrite check_aggregates_trace, Hpriv, Htrace, <- app_assoc.
  apply drop_app_length.
Qed.

Lemma device_changed_notifications_witness :
  let st' := dkp_daemon_device_changed_cb env_launch_fails state_two_devices
               (Some 0%nat) (Some 1%nat) true in
  new_actions state_two_devices st' =
  (if decide (is_line_power (dkp_device_changed env_launch_fails battery_example 0%nat true))
   then [TimeoutAddSeconds 3] else [])
  ++ (if negb (Bool.eqb (on_battery (priv st')) (on_battery (priv state_two_devices)))
      then SignalEmit CHANGED_SIGNAL None
           :: powersave_actions env_launch_fails (on_battery (priv st'))
      else [])
  ++ (if negb (Bool.eqb (low_battery (priv st')) (low_battery (priv state_two_devices)))
      then [SignalEmit CHANGED_SIGNAL None] else []).
Proof.
  apply (device_changed_notifications env_launch_fails state_two_devices 0%nat 1%nat
           battery_example true eq_refl).
Defined.

Lemma recomputed_stored_low (env : Env) (st st' : State) :
  recomputed env st st' ->
  low_battery (priv st') = dkp_daemon_get_low_battery_local st'.
Proof.
  intros [(native & ptr & emit_signal & [d Hd] & ->) | Hstart].
  - unfold dkp_daemon_device_changed_cb. rewrite Hd. cbv zeta.
    apply check_aggregates_stored.
  - unfold dkp_daemon_startup in Hstart.
    destruct (dkp_daemon_register_power_daemon env st) as [st1 [|]];
      cbn [negb] in Hstart; [|discriminate].
    destruct (dkp_backend_coldplug env st1) as [st2 [|]];
      cbn [negb] in Hstart; [|discriminate].
    injection Hstart as <-. reflexivity.
Qed.

(** X12: after a device change or a successful startup the on-low-battery
    property is true exactly when some device of the list answers that it
    is discharging, no device answers that it is online, and no device
    answers that it is not low.  So a list in which nothing is discharging
    (an empty one, say) never shows on-low-battery, although its
    low_battery flag is true. *)
Theorem on_low_battery_property (env : Env) (st st' : State) :
  recomputed env st st' ->
  let array := dkp_device_list_get_array st' in
  (dkp_daemon_get_property env (priv st') PROP_ON_LOW_BATTERY = GBoolean true <->
   (exists d, d ∈ array /\ dkp_device_get_on_battery d = Some true) /\
   ~ (exists d, d ∈ array /\ dkp_device_get_online d = Some true) /\
   (forall d, d ∈ array -> dkp_device_get_low_battery d <> Some false)) /\
  ((forall d, d ∈ array -> dkp_device_get_on_battery d <> Some true) ->
   low_battery (priv st') = get_low_battery_loop array /\
   dkp_daemon_get_property env (priv st') PROP_ON_LOW_BATTERY = GBoolean false).
Proof.
  intros Hrec array.
  pose proof (recomputed_stored env st st' Hrec) as Hon.
  pose proof (recomputed_stored_low env st st' Hrec) as Hlow.
  unfold on_battery_aggregate, dkp_daemon_get_on_battery_local, dkp_daemon_get_on_ac_local,
    dkp_daemon_get_low_battery_local in Hon, Hlow. fold array in Hon, Hlow.
  cbn [dkp_daemon_get_property]. rewrite Hon, Hlow. split.
  - split.
    + intros [= H]. apply andb_true_iff in H as [H Hl].
      apply andb_true_iff in H as [Hb Ha]. apply negb_true_iff in Ha.
      split; [apply get_on_battery_loop_true; exact Hb|]. split.
      * intros Hac. apply get_on_ac_loop_true in Hac. congruence.
      * apply get_low_battery_loop_true. exact Hl.
    + intros (Hb & Ha & Hl). f_equal.
      apply get_on_battery_loop_true in Hb. apply get_low_battery_loop_true in Hl.
      rewrite Hb, Hl.
      destruct (get_on_ac_loop array) eqn:Hac; [|reflexivity].
      exfalso. apply Ha. apply get_on_ac_loop_true. exact Hac.
  - intros Hnone. split; [reflexivity|]. f_equal.
    replace (get_on_battery_loop array) with false; [reflexivity|].
    symmetry. apply not_true_iff_false. intros Hb.
    apply get_on_battery_loop_true in Hb as (d & Hd & Hq). exact (Hnone d Hd Hq).
Qed.

Lemma on_low_battery_property_witness :
  let st' := dkp_daemon_device_changed_cb env_example state_two_devices
               (Some 0%nat) (Some 1%nat) true in
  let array := dkp_device_list_get_array st' in
  dkp_daemon_get_property env_example (priv st') PROP_ON_LOW_BATTERY = GBoolean true <->
  (exists d, d ∈ array /\ dkp_device_get_on_battery d = Some true) /\
  ~ (exists d, d ∈ array /\ dkp_device_get_online d = Some true) /\
  (forall d, d ∈ array -> dkp_device_get_low_battery d <> Some false).
Proof.
  apply (proj1 (on_low_battery_property env_example state_two_devices _
                  (or_introl (ex_intro _ 0%nat (ex_intro _ 1%nat (ex_intro _ true
                     (conj (ex_intro _ battery_example eq_refl) eq_refl))))))).
Defined.

(** X13: a startup that succeeds has registered the daemon on the bus,
    then run the coldplug, then stored both aggregates of the devices the
    coldplug left, and last of all launched /usr/sbin/pm-powersave once
    with the stored on_battery, freeing the error of that launch when it
    failed; whether the launch worked plays no part in the result. *)
Theorem startup_success_effects (env : Env) (st st' : State) :
  dkp_daemon_startup env st = (st', true) ->
  exists connection st2,
    dbus_g_bus_get env = Some connection /\
    dkp_backend_coldplug env (log [RegisterObject "/org/freedesktop/DeviceKit/Power"] st)
    = (st2, true) /\
    new_actions st2 st' = powersave_actions env (on_battery (priv st')) /\
    objects st' = objects st2 /\ timeouts st' = timeouts st2 /\ clock st' = clock st2 /\
    priv st' = set_low_battery (dkp_daemon_get_low_battery_local st')
                 (set_on_battery (on_battery_aggregate st') (priv st2)).
Proof.
  unfold dkp_daemon_startup, dkp_daemon_register_power_daemon.
  destruct (dbus_g_bus_get env) as [connection|]; cbn [negb]; [|discriminate].
  destruct (dkp_backend_coldplug env _) as [st2 [|]] eqn:Hcold; cbn [negb]; [|discriminate].
  intros [= <-]. exists connection, st2. split; [reflexivity|]. split; [reflexivity|].
  split; [apply new_actions_log_on; reflexivity|]. repeat split.
Qed.

Lemma startup_success_effects_witness :
  exists connection st2,
    dbus_g_bus_get env_launch_fails = Some connection /\
    dkp_backend_coldplug env_launch_fails
      (log [RegisterObject "/org/freedesktop/DeviceKit/Power"] state_two_devices)
    = (st2, true) /\
    new_actions st2 (fst (dkp_daemon_startup env_launch_fails state_two_devices))
    = powersave_actions env_launch_fails
        (on_battery (priv (fst (dkp_daemon_startup env_launch_fails state_two_devices)))) /\
    objects (fst (dkp_daemon_startup env_launch_fails state_two_devices)) = objects st2 /\
    timeouts (fst (dkp_daemon_startup env_launch_fails state_two_devices)) = timeouts st2 /\
    clock (fst (dkp_daemon_startup env_launch_fails state_two_devices)) = clock st2 /\
    priv (fst (dkp_daemon_startup env_launch_fails state_two_devices))
    = set_low_battery
        (dkp_daemon_get_low_battery_local
           (fst (dkp_daemon_startup env_launch_fails state_two_devices)))
        (set_on_battery
           (on_battery_aggregate (fst (dkp_daemon_startup env_launch_fails state_two_devices)))
           (priv st2)).
Proof.
  apply (startup_success_effects env_launch_fails state_two_devices
           (fst (dkp_daemon_startup env_launch_fails state_two_devices))).
  reflexivity.
Defined.

Section Dispatch.

Variable env : Env.

Lemma refresh_same_heap (s s' : State) :
  objects s = objects s' -> priv s = priv s' ->
  objects (refresh_once env s) = objects (refresh_once env s').
Proof.
  unfold refresh_once, dkp_daemon_refresh_battery_devices. cbn [fst].
  intros Ho Hp. rewrite Hp.
  generalize (power_devices (priv s')) as l. intros l. revert s s' Ho Hp.
  induction l as [|ptr l IH]; intros s s' Ho Hp; [exact Ho|].
  cbn [fold_left]. apply IH.
  - rewrite Ho. destruct (objects s' !! ptr) as [d|]; [|exact Ho].
    destruct (decide _); [|exact Ho]. cbn [with_objects objects]. rewrite Ho. reflexivity.
  - rewrite Ho. destruct (objects s' !! ptr) as [d|]; [|exact Hp].
    destruct (decide _); exact Hp.
Qed.

Lemma refresh_once_frame (s : State) :
  priv (refresh_once env s) = priv s /\ trace (refresh_once env s) = trace s /\
  clock (refresh_once env s) = clock s.
Proof.
  split; [exact (refresh_priv env s)|].
  split; [exact (refresh_trace env s)|exact (refresh_clock env s)].
Qed.

Lemma iter_refresh_frame (n : nat) (s : State) :
  priv (Nat.iter n (refresh_once env) s) = priv s /\
  trace (Nat.iter n (refresh_once env) s) = trace s /\
  clock (Nat.iter n (refresh_once env) s) = clock s.
Proof.
  induction n as [|n (IHp & IHt & IHc)]; [repeat split|].
  rewrite Nat.iter_succ.
  destruct (refresh_once_frame (Nat.iter n (refresh_once env) s)) as (-> & -> & ->).
  repeat split; assumption.
Qed.

Lemma iter_refresh_same_heap (n : nat) (s s' : State) :
  objects s = objects s' -> priv s = priv s' ->
  objects (Nat.iter n (refresh_once env) s) = objects (Nat.iter n (refresh_once env) s').
Proof.
  intros Ho Hp. induction n as [|n IH]; [assumption|].
  rewrite !Nat.iter_succ. apply refresh_same_heap; [exact IH|].
  rewrite (proj1 (iter_refresh_frame n s)), (proj1 (iter_refresh_frame n s')). exact Hp.
Qed.

Lemma dispatch_fold (now : nat) (ready : list Timeout) : forall s : State,
  fold_left
    (fun s t =>
       let '(s1, again) := dkp_daemon_refresh_battery_devices_cb env s in
       if again
       then with_timeouts (fun l => l ++ [mkTimeout (now + interval t) (interval t)]) s1
       else s1)
    ready s = Nat.iter (length ready) (refresh_once env) s.
Proof.
  induction ready as [|t ready IH]; intros s; [reflexivity|].
  cbn [fold_left length]. rewrite IH, Nat.iter_succ_r. reflexivity.
Qed.

Lemma dispatch_as_iter (st : State) (now : nat) :
  let fired := length (filter (fun t => due t <= now)%nat (timeouts st)) in
  let st' := main_loop_dispatch env st now in
  priv st' = priv st /\ trace st' = trace st /\ clock st' = now /\
  objects st' = objects (Nat.iter fired (refresh_once env) st).
Proof.
  cbv zeta. unfold main_loop_dispatch. rewrite dispatch_fold.
  set (s0 := with_clock now _).
  destruct (iter_refresh_frame (length (filter (fun t => (due t <= now)%nat) (timeouts st))) s0)
    as (Hp & Ht & Hc).
  rewrite Hp, Ht, Hc. repeat split.
  apply iter_refresh_same_heap; reflexivity.
Qed.

End Dispatch.

(** X14: when the main loop dispatches the refresh timers, the batteries
    of the list are refreshed once for each timer that is due and that is
    all: the stored on_battery and low_battery are not computed again, no
    signal is emitted and nothing is spawned, whatever the refresh did to
    the batteries. *)
Theorem dispatch_refreshes_only (env : Env) (st : State) (now : nat) :
  let fired := length (filter (fun t => due t <= now)%nat (timeouts st)) in
  let st' := main_loop_dispatch env st now in
  priv st' = priv st /\ trace st' = trace st /\ clock st' = now /\
  objects st' =
    objects (Nat.iter fired (refresh_once env) st) /\
  (fired = 0%nat -> objects st' = objects st).
Proof.
  cbv zeta. destruct (dispatch_as_iter env st now) as (Hp & Ht & Hc & Ho).
  repeat (split; [assumption|]). intros H0. rewrite Ho, H0. reflexivity.
Qed.

Lemma dispatch_refreshes_only_witness :
  objects (main_loop_dispatch env_example state_two_devices 2) = objects state_two_devices.
Proof.
  apply (proj2 (proj2 (proj2 (proj2
           (dispatch_refreshes_only env_example state_two_devices 2))))).
  reflexivity.
Defined.

(** ** Properties and the lid *)

(** X15: a value written with dkp_daemon_set_property is read back by
    dkp_daemon_get_property for lid-is-closed and lid-is-present, and every
    other property reads as before; writing any other property changes
    nothing at all, so the kernel capabilities and the battery state cannot
    be written this way. *)
Theorem property_write_then_read
    (env : Env) (p : DkpDaemonPrivate) (written read : DkpProperty) (value : bool) :
  dkp_daemon_get_property env (dkp_daemon_set_property p written value) read =
    (if property_is_handled written && bool_decide (read = written)
     then GBoolean value else dkp_daemon_get_property env p read) /\
  (property_is_handled written = false -> dkp_daemon_set_property p written value = p).
Proof.
  split.
  - destruct written, read; reflexivity.
  - destruct written; intros H; try discriminate H; reflexivity.
Qed.

Lemma property_write_then_read_witness :
  dkp_daemon_set_property priv_example PROP_CAN_HIBERNATE true = priv_example.
Proof.
  apply (proj2 (property_write_then_read env_example priv_example PROP_CAN_HIBERNATE
                  PROP_CAN_HIBERNATE true)).
  reflexivity.
Defined.

(** X16: whatever was stored before, after dkp_daemon_set_lid_is_closed
    the stored value is the one written and the return value tells whether
    it is new; "changed" is emitted exactly when it is new and notification
    was asked for; and writing the same value once more, with notification
    or without, is ignored. *)
Theorem set_lid_is_closed_then_repeat (st : State) (value notify notify' : bool) :
  let '(st', ret) := dkp_daemon_set_lid_is_closed st value notify in
  lid_is_closed (priv st') = value /\
  ret = negb (Bool.eqb (lid_is_closed (priv st)) value) /\
  new_actions st st' = (if ret && notify then [SignalEmit CHANGED_SIGNAL None] else []) /\
  dkp_daemon_set_lid_is_closed st' value notify' = (st', false).
Proof.
  unfold dkp_daemon_set_lid_is_closed.
  destruct (Bool.eqb (lid_is_closed (priv st)) value) eqn:Heq.
  - apply Bool.eqb_prop in Heq. rewrite Heq, Bool.eqb_reflx.
    split; [reflexivity|]. split; [reflexivity|].
    split; [|reflexivity]. unfold new_actions. apply drop_all.
  - cbn [negb andb]. split; [destruct notify; reflexivity|]. split; [reflexivity|].
    split.
    + destruct notify; cbn [negb].
      * apply new_actions_log_on. reflexivity.
      * unfold new_actions. apply drop_all.
    + replace (lid_is_closed (priv (with_priv (set_lid_closed value)
                 (if negb notify then st else log [SignalEmit CHANGED_SIGNAL None] st))))
        with value by (destruct notify; reflexivity).
      rewrite Bool.eqb_reflx. reflexivity.
Qed.

(** ** The device list never holds a finalised device *)

Section Soundness.

Lemma occurrences_app (p : DevicePtr) (l1 l2 : list DevicePtr) :
  occurrences p (l1 ++ l2) = (occurrences p l1 + occurrences p l2)%nat.
Proof. unfold occurrences. rewrite filter_app, length_app. reflexivity. Qed.

Lemma occurrences_cons (p q : DevicePtr) (l : list DevicePtr) :
  occurrences p (q :: l) = ((if decide (q = p) then 1 else 0) + occurrences p l)%nat.
Proof. unfold occurrences. rewrite filter_cons. destruct (decide (q = p)); reflexivity. Qed.

Lemma occurrences_pos (p : DevicePtr) (l : list DevicePtr) :
  p ∈ l <-> (0 < occurrences p l)%nat.
Proof.
  induction l as [|q l IH].
  - split; [intros H; apply elem_of_nil in H; contradiction|cbn; lia].
  - rewrite elem_of_cons, occurrences_cons, IH.
    destruct (decide (q = p)) as [->|Hne]; [split; [lia|auto]|].
    split; [intros [H|H]; [congruence|lia]|intros H; right; lia].
Qed.

Lemma occurrences_remove (p q : DevicePtr) (l : list DevicePtr) :
  occurrences q (dkp_device_list_remove l p)
  = if decide (q = p) then pred (occurrences p l) else occurrences q l.
Proof.
  induction l as [|x l IH].
  - cbn. destruct (decide (q = p)); reflexivity.
  - cbn [dkp_device_list_remove]. destruct (decide (x = p)) as [->|Hx].
    + rewrite !occurrences_cons. destruct (decide (q = p)) as [->|Hq].
      * rewrite decide_True by reflexivity. reflexivity.
      * rewrite decide_False by congruence. reflexivity.
    + rewrite !occurrences_cons, IH. destruct (decide (q = p)) as [->|Hq].
      * rewrite decide_False by exact Hx. reflexivity.
      * reflexivity.
Qed.

Lemma occurrences_remove_iter (n : nat) (p q : DevicePtr) (l : list DevicePtr) :
  occurrences q (Nat.iter n (fun l => dkp_device_list_remove l p) l)
  = if decide (q = p) then (occurrences p l - n)%nat else occurrences q l.
Proof.
  revert q. induction n as [|n IH]; intros q.
  - unfold Nat.iter. cbn [nat_rect].
    destruct (decide (q = p)) as [->|]; [rewrite Nat.sub_0_r|]; reflexivity.
  - rewrite Nat.iter_succ, occurrences_remove.
    destruct (decide (q = p)) as [->|Hq].
    + rewrite IH, decide_True by reflexivity. lia.
    + rewrite IH, decide_False by exact Hq. reflexivity.
Qed.

Lemma went_away_iter_list (n : nat) (p : DevicePtr) (st : State) :
  power_devices (priv (Nat.iter n (fun s => dkp_daemon_device_went_away_cb s p) st))
  = Nat.iter n (fun l => dkp_device_list_remove l p) (power_devices (priv st)).
Proof.
  induction n as [|n IH]; [reflexivity|].
  rewrite !Nat.iter_succ.
  cbn [dkp_daemon_device_went_away_cb with_priv priv set_power_devices power_devices].
  rewrite IH. reflexivity.
Qed.

(** Soundness only looks at the list and at the weak references. *)
Lemma sound_ext (s s' : State) :
  power_devices (priv s') = power_devices (priv s) ->
  (forall q, weak_view s' q = weak_view s q) ->
  device_list_sound s -> device_list_sound s'.
Proof.
  intros Hl Hw Hs ptr Hin. rewrite Hl in Hin |- *.
  destruct (Hs ptr Hin) as (d & Hd & Hocc).
  specialize (Hw ptr). unfold weak_view in Hw. rewrite Hd in Hw.
  destruct (objects s' !! ptr) as [d'|]; [|discriminate Hw].
  injection Hw as Hw. exists d'. split; [reflexivity|]. rewrite Hw. exact Hocc.
Qed.

Lemma sound_frame (s s' : State) :
  power_devices (priv s') = power_devices (priv s) -> objects s' = objects s ->
  device_list_sound s -> device_list_sound s'.
Proof.
  intros Hl Ho. apply sound_ext; [exact Hl|]. intros q. unfold weak_view. rewrite Ho.
  reflexivity.
Qed.

Lemma weak_view_insert (s : State) (ptr : DevicePtr) (d d' : DkpDevice) :
  objects s !! ptr = Some d -> dev_weak_refs d' = dev_weak_refs d ->
  forall q, weak_view (with_objects (insert ptr d') s) q = weak_view s q.
Proof.
  intros Hd Hw q. unfold weak_view. cbn [with_objects objects].
  destruct (decide (ptr = q)) as [->|Hne].
  - rewrite lookup_insert_eq, Hd. cbn. rewrite Hw. reflexivity.
  - rewrite lookup_insert_ne by exact Hne. reflexivity.
Qed.

Lemma sound_unref (st : State) (ptr : DevicePtr) :
  device_list_sound st -> device_list_sound (g_object_unref st ptr).
Proof.
  intros Hs. unfold g_object_unref.
  destruct (objects st !! ptr) as [d|] eqn:Hd; [|exact Hs].
  destruct (dev_ref_count d <=? 1)%nat.
  - intros q Hin. cbn [with_objects priv objects] in Hin |- *.
    rewrite went_away_iter_list in Hin |- *. rewrite went_away_iter_objects.
    apply occurrences_pos in Hin. rewrite occurrences_remove_iter in Hin |- *.
    destruct (decide (q = ptr)) as [->|Hne].
    + exfalso.
      assert (Hptr : ptr ∈ power_devices (priv st)) by (apply occurrences_pos; lia).
      destruct (Hs ptr Hptr) as (d' & Hd' & Hocc). rewrite Hd in Hd'.
      injection Hd' as <-. lia.
    + apply occurrences_pos in Hin. destruct (Hs q Hin) as (dq & Hdq & Hocc).
      exists dq. rewrite lookup_delete_ne by congruence. split; assumption.
  - revert Hs. apply sound_ext; [reflexivity|].
    apply (weak_view_insert st ptr d); [exact Hd|reflexivity].
Qed.

Lemma sound_added (st : State) (native : option Native) (device : option DevicePtr)
    (emit_signal : bool) :
  device_list_sound st ->
  device_list_sound (dkp_daemon_device_added_cb st native device emit_signal).
Proof.
  intros Hs. destruct native as [native|]; [|exact Hs].
  destruct device as [ptr|]; [|exact Hs].
  destruct (objects st !! ptr) as [d|] eqn:Hd;
    [|unfold dkp_daemon_device_added_cb; rewrite Hd; exact Hs].
  rewrite (added_cb_state st native ptr d emit_signal Hd).
  intros q Hin.
  cbn [log with_priv with_objects priv objects set_power_devices power_devices] in Hin |- *.
  rewrite occurrences_app. destruct (decide (q = ptr)) as [->|Hne].
  - rewrite lookup_alter_eq, Hd. eexists. split; [reflexivity|].
    cbn [set_weak_refs dev_weak_refs]. unfold occurrences at 2.
    rewrite filter_cons, decide_True by reflexivity. cbn [length filter].
    destruct (decide (ptr ∈ power_devices (priv st))) as [Hp|Hp].
    + destruct (Hs ptr Hp) as (d' & Hd' & Hocc). rewrite Hd in Hd'. injection Hd' as <-.
      rewrite filter_nil. cbn [length]. lia.
    + assert (occurrences ptr (power_devices (priv st)) = 0%nat).
      { destruct (occurrences ptr (power_devices (priv st))) eqn:Ho; [reflexivity|].
        exfalso. apply Hp. apply occurrences_pos. lia. }
      rewrite filter_nil. cbn [length]. lia.
  - apply elem_of_app in Hin as [Hin|Hin];
      [|apply list_elem_of_singleton in Hin; contradiction].
    destruct (Hs q Hin) as (dq & Hdq & Hocc). exists dq.
    rewrite lookup_alter_ne by congruence. split; [exact Hdq|].
    unfold occurrences at 2. rewrite filter_cons, decide_False by congruence.
    rewrite filter_nil. cbn [length]. lia.
Qed.

Variable env : Env.
Hypothesis env_keeps_weak_refs : keeps_weak_refs env.

Lemma refresh_weak_view (s : State) :
  forall q, weak_view (refresh_once env s) q = weak_view s q.
Proof.
  unfold refresh_once, dkp_daemon_refresh_battery_devices. cbn [fst].
  generalize (power_devices (priv s)) as l. intros l. revert s.
  induction l as [|ptr l IH]; intros s q; [reflexivity|].
  cbn [fold_left]. rewrite IH.
  destruct (objects s !! ptr) as [d|] eqn:Hd; [|reflexivity].
  destruct (decide _); [|reflexivity].
  apply (weak_view_insert s ptr d); [exact Hd|]. apply env_keeps_weak_refs.
Qed.

Lemma sound_refresh (s : State) :
  device_list_sound s -> device_list_sound (refresh_once env s).
Proof.
  apply sound_ext; [|apply refresh_weak_view].
  unfold refresh_once. rewrite refresh_priv. reflexivity.
Qed.

Lemma sound_changed (st : State) (native : option Native) (device : option DevicePtr)
    (emit_signal : bool) :
  device_list_sound st ->
  device_list_sound (dkp_daemon_device_changed_cb env st native device emit_signal).
Proof.
  intros Hs. unfold dkp_daemon_device_changed_cb.
  destruct native as [native|]; [|exact Hs]. destruct device as [ptr|]; [|exact Hs].
  destruct (objects st !! ptr) as [d|] eqn:Hd; [|exact Hs]. cbv zeta.
  set (st1 := with_objects _ st).
  assert (Hs1 : device_list_sound st1).
  { revert Hs. apply sound_ext; [reflexivity|].
    apply (weak_view_insert st ptr d); [exact Hd|]. apply env_keeps_weak_refs. }
  match goal with |- device_list_sound (check_aggregates_changed env ?s2) =>
    assert (Hs2 : device_list_sound s2) end.
  { destruct (decide _); [|exact Hs1].
    apply (sound_frame (refresh_once env st1)); [reflexivity|reflexivity|].
    apply sound_refresh. exact Hs1. }
  revert Hs2. destruct (check_aggregates_objects env
    (if decide (dev_type (dkp_device_changed env d native emit_signal)
                = DKP_DEVICE_TYPE_LINE_POWER)
     then g_timeout_add_seconds (fst (dkp_daemon_refresh_battery_devices env st1))
            DKP_DAEMON_ON_BATTERY_REFRESH_DEVICES_DELAY
     else st1)) as (Ho & Hl & _).
  apply sound_frame; assumption.
Qed.

Lemma sound_removed (st : State) (native : option Native) (device : option DevicePtr) :
  device_list_sound st -> device_list_sound (dkp_daemon_device_removed_cb st native device).
Proof.
  intros Hs. unfold dkp_daemon_device_removed_cb.
  destruct native as [native|]; [|exact Hs]. destruct device as [ptr|]; [|exact Hs].
  destruct (objects st !! ptr) as [d|] eqn:Hd; [|exact Hs]. cbv zeta.
  apply sound_unref. revert Hs. apply sound_ext; [reflexivity|].
  intros q. apply (weak_view_insert st ptr d); [exact Hd|reflexivity].
Qed.

Lemma sound_dispatch (st : State) (now : nat) :
  device_list_sound st -> device_list_sound (main_loop_dispatch env st now).
Proof.
  intros Hs. unfold main_loop_dispatch. rewrite dispatch_fold.
  set (s0 := with_clock now _).
  assert (Hs0 : device_list_sound s0) by (revert Hs; apply sound_frame; reflexivity).
  induction (length (filter (fun t => (due t <= now)%nat) (timeouts st))) as [|n IH];
    [exact Hs0|].
  rewrite Nat.iter_succ. apply sound_refresh. exact IH.
Qed.

Hypothesis coldplug_keeps_sound : forall s : State,
  device_list_sound s -> device_list_sound (fst (dkp_backend_coldplug env s)).

Lemma sound_startup (st : State) :
  device_list_sound st -> device_list_sound (fst (dkp_daemon_startup env st)).
Proof.
  intros Hs. unfold dkp_daemon_startup, dkp_daemon_register_power_daemon.
  destruct (dbus_g_bus_get env); [|exact Hs]. cbn [negb].
  assert (Hc := coldplug_keeps_sound
                  (log [RegisterObject "/org/freedesktop/DeviceKit/Power"] st)
                  (sound_frame st _ eq_refl eq_refl Hs)).
  destruct (dkp_backend_coldplug env _) as [st2 [|]]; cbn [negb fst] in *; [|exact Hc].
  revert Hc. apply sound_frame; reflexivity.
Qed.

Lemma sound_run_call (st : State) (c : DaemonCall) :
  device_list_sound st -> device_list_sound (run_call env st c).
Proof.
  intros Hs. destruct c; cbn [run_call].
  - apply sound_startup. exact Hs.
  - revert Hs. apply sound_frame; unfold dkp_daemon_set_lid_is_closed;
      destruct (Bool.eqb _ _); try reflexivity; destruct notify; reflexivity.
  - revert Hs. apply sound_frame; destruct prop_id; reflexivity.
  - revert Hs. apply sound_frame; reflexivity.
  - rewrite suspend_actions. revert Hs. apply sound_frame; reflexivity.
  - rewrite hibernate_actions. revert Hs. apply sound_frame; reflexivity.
  - apply sound_added. exact Hs.
  - apply sound_changed. exact Hs.
  - apply sound_removed. exact Hs.
  - apply sound_unref. exact Hs.
  - apply sound_dispatch. exact Hs.
Qed.

Lemma sound_run_calls (calls : list DaemonCall) : forall st : State,
  device_list_sound st -> device_list_sound (run_calls env st calls).
Proof.
  induction calls as [|c calls IH]; intros st Hs; [exact Hs|].
  unfold run_calls in *. cbn [fold_left]. apply IH, sound_run_call, Hs.
Qed.

End Soundness.

Lemma sound_array_length (st : State) :
  device_list_sound st ->
  length (dkp_device_list_get_array st) = length (power_devices (priv st)).
Proof.
  intros Hs. unfold dkp_device_list_get_array.
  assert (Hall : forall p, p ∈ power_devices (priv st) -> is_Some (objects st !! p)).
  { intros p Hp. destruct (Hs p Hp) as (d & Hd & _). exists d. exact Hd. }
  induction (power_devices (priv st)) as [|p l IH]; [reflexivity|].
  cbn [omap list_omap length]. destruct (Hall p) as [d ->]; [left|].
  cbn [length]. rewrite IH; [reflexivity|]. intros q Hq. apply Hall. right. exact Hq.
Qed.

(** X17: if every pointer of the device list is the address of a live
    device that carries a weak reference of the daemon for each of its
    entries, this is still so after any sequence of calls: requests,
    device added, changed and removed, a reference given up by anyone, a
    timer dispatch, startup.  A device that is finalised takes all its
    entries with it, so EnumerateDevices() and the aggregate loops never
    reach a freed device, and the enumeration has one path per entry.
    (The device classes are taken not to touch weak references, and the
    coldplug to keep the list sound.) *)
Theorem device_list_stays_sound (env : Env) (st : State) (calls : list DaemonCall) :
  keeps_weak_refs env ->
  (forall s : State,
      device_list_sound s -> device_list_sound (fst (dkp_backend_coldplug env s))) ->
  device_list_sound st ->
  let st' := run_calls env st calls in
  device_list_sound st' /\
  (forall ptr, ptr ∈ power_devices (priv st') -> is_Some (objects st' !! ptr)) /\
  length (enumerated_paths st') = length (power_devices (priv st')).
Proof.
  intros Hkeep Hcold Hs. cbv zeta.
  pose proof (sound_run_calls env Hkeep Hcold calls st Hs) as Hs'.
  split; [exact Hs'|]. split.
  - intros ptr Hin. destruct (Hs' ptr Hin) as (d & Hd & _). exists d. exact Hd.
  - unfold enumerated_paths. rewrite length_map. apply sound_array_length. exact Hs'.
Qed.

Lemma keeps_weak_refs_example : keeps_weak_refs env_example.
Proof. split; intros; reflexivity. Defined.

Lemma device_list_sound_example : device_list_sound state_two_devices.
Proof.
  intros ptr Hin. cbn in Hin. rewrite !elem_of_cons, elem_of_nil in Hin.
  destruct Hin as [->|[->|[]]].
  - exists battery_example. split; [reflexivity|]. vm_compute. apply le_n.
  - exists line_power_example. split; [reflexivity|]. vm_compute. apply le_n.
Defined.

Lemma device_list_stays_sound_witness :
  let st' := run_calls env_example state_two_devices
               [CallDeviceRemoved (Some 0%nat) (Some 1%nat); CallDispatch 5;
                CallDeviceChanged (Some 0%nat) (Some 2%nat) true] in
  device_list_sound st' /\
  (forall ptr, ptr ∈ power_devices (priv st') -> is_Some (objects st' !! ptr)) /\
  length (enumerated_paths st') = length (power_devices (priv st')).
Proof.
  apply (device_list_stays_sound env_example state_two_devices).
  - exact keeps_weak_refs_example.
  - intros s Hs. exact Hs.
  - exact device_list_sound_example.
Defined.

(** ** Order and composition *)

(** X18: the three loops over the device array only depend on which
    devices are in it, not on their order: arrays that are permutations of
    one another give the same on-battery, on-AC and low-battery answers. *)
Theorem aggregates_ignore_order (array array' : list DkpDevice) :
  array ≡ₚ array' ->
  get_on_battery_loop array = get_on_battery_loop array' /\
  get_on_ac_loop array = get_on_ac_loop array' /\
  get_low_battery_loop array = get_low_battery_loop array'.
Proof.
  intros Hperm.
  assert (Hbool : forall a b : bool, (a = true <-> b = true) -> a = b)
    by (intros [|] [|] [H1 H2]; try reflexivity;
        [symmetry; apply H1; reflexivity|apply H2; reflexivity]).
  split; [|split]; apply Hbool.
  - rewrite !get_on_battery_loop_true. setoid_rewrite Hperm. reflexivity.
  - rewrite !get_on_ac_loop_true. setoid_rewrite Hperm. reflexivity.
  - rewrite !get_low_battery_loop_true. setoid_rewrite Hperm. reflexivity.
Qed.

Lemma aggregates_ignore_order_witness :
  get_on_battery_loop [battery_example; line_power_example]
  = get_on_battery_loop [line_power_example; battery_example].
Proof.
  apply (proj1 (aggregates_ignore_order [battery_example; line_power_example]
                  [line_power_example; battery_example] (perm_swap _ _ _))).
Defined.

(** X19: a device that the backend adds and then removes, while nobody
    else holds a reference to it, leaves the device list as it was before
    the two events and is finalised; what the daemon emitted in between is
    device-added, if the backend asked for it, and then device-removed,
    both with the object path of the device. *)
Theorem added_then_removed
    (st : State) (native : Native) (ptr : DevicePtr) (d : DkpDevice) (emit_signal : bool) :
  objects st !! ptr = Some d ->
  NoDup (power_devices (priv st)) -> ptr ∉ power_devices (priv st) ->
  (dev_ref_count d <= 1)%nat ->
  let st1 := dkp_daemon_device_added_cb st (Some native) (Some ptr) emit_signal in
  let st2 := dkp_daemon_device_removed_cb st1 (Some native) (Some ptr) in
  power_devices (priv st2) = power_devices (priv st) /\
  objects st2 = delete ptr (objects st) /\
  new_actions st st2 =
    (if emit_signal then [SignalEmit DEVICE_ADDED_SIGNAL (Some (dev_object_path d))]
     else [])
    ++ [SignalEmit DEVICE_REMOVED_SIGNAL (Some (dev_object_path d))].
Proof.
  intros Hd Hnodup Hnot Hcount. cbv zeta.
  rewrite (added_cb_state st native ptr d emit_signal Hd).
  set (st1 := log _ _).
  assert (Hd1 : objects st1 !! ptr = Some (set_weak_refs (S (dev_weak_refs d)) d))
    by (unfold st1; cbn [log with_priv with_objects objects];
        rewrite lookup_alter_eq, Hd; reflexivity).
  unfold dkp_daemon_device_removed_cb. rewrite Hd1. cbv zeta.
  set (st1' := log _ (with_objects _ st1)).
  assert (Hd1' : objects st1' !! ptr
                 = Some (dkp_device_removed (set_weak_refs (S (dev_weak_refs d)) d)))
    by apply lookup_insert_eq.
  assert (Hnodup1 : NoDup (power_devices (priv st1'))).
  { cbn [st1' st1 log with_priv with_objects priv set_power_devices power_devices].
    apply NoDup_app. split; [exact Hnodup|]. split; [|apply NoDup_singleton].
    intros p Hp Hp'. apply list_elem_of_singleton in Hp'. subst p. contradiction. }
  destruct (unref_last st1' ptr _ Hd1' Hnodup1) as (Ht & Ho & Hl);
    [exact Hcount|cbn; lia|].
  split; [|split].
  - rewrite Hl.
    cbn [st1' st1 log with_priv with_objects priv set_power_devices power_devices].
    rewrite filter_app, filter_others_absent by exact Hnot.
    rewrite filter_cons_False by (intros H; apply H; reflexivity).
    rewrite filter_nil. apply app_nil_r.
  - rewrite Ho. cbn [st1' st1 log with_priv with_objects objects].
    apply map_eq. intros q. destruct (decide (q = ptr)) as [->|Hne].
    + rewrite !lookup_delete_eq. reflexivity.
    + rewrite !lookup_delete_ne by congruence.
      rewrite lookup_insert_ne by congruence. apply lookup_alter_ne. congruence.
  - unfold new_actions. rewrite Ht.
    cbn [st1' st1 log with_priv with_objects trace].
    rewrite <- app_assoc. apply drop_app_length.
Qed.

Lemma added_then_removed_witness :
  let st1 := dkp_daemon_device_added_cb state_before_add (Some 0%nat) (Some 1%nat) true in
  let st2 := dkp_daemon_device_removed_cb st1 (Some 0%nat) (Some 1%nat) in
  power_devices (priv st2) = power_devices (priv state_before_add) /\
  objects st2 = delete 1%nat (objects state_before_add) /\
  new_actions state_before_add st2 =
    [SignalEmit DEVICE_ADDED_SIGNAL (Some (dev_object_path new_battery_example))]
    ++ [SignalEmit DEVICE_REMOVED_SIGNAL (Some (dev_object_path new_battery_example))].
Proof.
  apply (added_then_removed state_before_add 0%nat 1%nat new_battery_example true eq_refl).
  - apply NoDup_singleton.
  - intros H. apply list_elem_of_singleton in H. discriminate.
  - apply le_n.
Defined.

(** ** A line without its unit *)

Lemma unitless_line_tokens (name : string) (p : nat) (n : N) :
  free_of (is_delimiter ": ") name = true ->
  g_strsplit_set (name +:+ ":" +:+ spaces (S p) +:+ pretty n) ": "
  = name :: replicate (S p) "" ++ [pretty n].
Proof.
  intros Hname. unfold g_strsplit_set.
  assert (Hsplit : split_tokens (is_delimiter ": ")
                     (name +:+ ":" +:+ spaces (S p) +:+ pretty n)
                   = name :: replicate (S p) "" ++ [pretty n]).
  { change (":" +:+ spaces (S p) +:+ pretty n)
      with (String ":" (spaces (S p) +:+ pretty n)).
    rewrite split_tokens_word by (assumption || reflexivity).
    rewrite split_tokens_spaces.
    rewrite split_tokens_last by (apply digits_free_of_delimiters, pretty_digits).
    reflexivity. }
  destruct name as [|x name]; exact Hsplit.
Qed.

(** X20: the loop reads the number of a field from the last token but one,
    which is the number only when a unit follows it.  A line "Active: n"
    with a single space and no unit has three tokens and is skipped; with
    more padding and no unit the last token but one is an empty token of
    the padding, and the line sets the field to 0 whatever n is.  The same
    holds for SwapFree. *)
Theorem scan_line_without_unit (st : SwapScan) (p : nat) (n : N) :
  scan_line st ("Active" +:+ ":" +:+ spaces (S p) +:+ pretty n)
  = (if decide (p = 0%nat) then st else mkScan (swap_free st) 0) /\
  scan_line st ("SwapFree" +:+ ":" +:+ spaces (S p) +:+ pretty n)
  = (if decide (p = 0%nat) then st else mkScan 0 (active st)).
Proof.
  assert (Hlen : forall name,
    length (name :: replicate (S p) "" ++ [pretty n]) = (p + 3)%nat)
    by (intros name; cbn [length]; rewrite length_app, length_replicate; cbn; lia).
  assert (Hnth : forall name, p <> 0%nat ->
    nth (p + 3 - 2) (name :: replicate (S p) "" ++ [pretty n]) "" = "").
  { intros name Hp. replace (p + 3 - 2)%nat with (S p) by lia.
    change (nth (S p) (name :: ?l) "") with (nth p l "").
    rewrite app_nth1 by (rewrite length_replicate; lia).
    rewrite nth_lookup, lookup_replicate_2 by lia. reflexivity. }
  split; unfold scan_line; rewrite unitless_line_tokens by reflexivity; rewrite Hlen;
    (destruct (decide (p = 0%nat)) as [->|Hp];
       [reflexivity
       |replace (3 <? p + 3)%nat with true by (symmetry; apply Nat.ltb_lt; lia);
        rewrite Hnth by exact Hp; reflexivity]).
Qed.
